(** * MCP-SERVER: the MySQL and Google Drive adapters of [src/mysql/index.ts]

    A shallow embedding of the two request-handler sets found in the source
    file (the MySQL server, lines 1-136, and the Google Drive / Sheets
    server, lines 136-1121), and the properties of the specification
    stated and proved (or refuted) over that embedding.

    Conventions.
    - A JavaScript string is its sequence of UTF-16 code units: [list N].
    - A JavaScript number that the code only uses as an integer is a [Z];
      the colour channels, which are quotients, are rationals ([Q]).
    - [undefined] is [None].
    - Asynchronous handlers run to completion; they are computations in a
      small monad that threads the trace of backend calls and carries the
      thrown value, with [try]/[catch]/[finally] combinators. *)

From Stdlib Require Import List ZArith NArith String Ascii Bool Lia QArith.
From Stdlib Require Import DecimalString.
Import ListNotations.

Open Scope Z_scope.

(* ================================================================= *)
(** ** JavaScript strings *)

Module JS.

Definition jsstring := list N.

(** Decoding of a literal, written in this file as UTF-8 bytes, into the
    UTF-16 code units the JavaScript engine holds. *)
Fixpoint utf16_of_utf8 (bs : list N) : jsstring :=
  match bs with
  | [] => []
  | b :: r =>
    if (b <? 128)%N then b :: utf16_of_utf8 r
    else if (b <? 224)%N then
      match r with
      | b2 :: r2 => ((b mod 32) * 64 + b2 mod 64)%N :: utf16_of_utf8 r2
      | [] => [b]
      end
    else if (b <? 240)%N then
      match r with
      | b2 :: b3 :: r3 =>
          ((b mod 16) * 4096 + (b2 mod 64) * 64 + b3 mod 64)%N :: utf16_of_utf8 r3
      | _ => b :: r
      end
    else
      match r with
      | b2 :: b3 :: b4 :: r4 =>
          let cp := ((b mod 8) * 262144 + (b2 mod 64) * 4096
                     + (b3 mod 64) * 64 + b4 mod 64)%N in
          let v := (cp - 65536)%N in
          (55296 + v / 1024)%N :: (56320 + v mod 1024)%N :: utf16_of_utf8 r4
      | _ => b :: r
      end
  end.

Definition str (s : string) : jsstring :=
  utf16_of_utf8 (map N_of_ascii (list_ascii_of_string s)).

(** [a === b] on strings. *)
Fixpoint eqs (a b : jsstring) : bool :=
  match a, b with
  | [], [] => true
  | x :: a', y :: b' => (x =? y)%N && eqs a' b'
  | _, _ => false
  end.

(** [s.startsWith(p)] *)
Fixpoint startsWith (p s : jsstring) : bool :=
  match p, s with
  | [], _ => true
  | _ :: _, [] => false
  | a :: p', b :: s' => (a =? b)%N && startsWith p' s'
  end.

(** [s.includes(p)] *)
Fixpoint includes (p s : jsstring) : bool :=
  startsWith p s ||
  match s with
  | [] => false
  | _ :: s' => includes p s'
  end.

(** [s.split(sep)] for a one-character separator: never the empty array. *)
Fixpoint split (sep : N) (s : jsstring) : list jsstring :=
  match s with
  | [] => [[]]
  | c :: r =>
    if (c =? sep)%N then [] :: split sep r
    else match split sep r with
         | [] => [[c]]
         | w :: ws => (c :: w) :: ws
         end
  end.

(** [parts.join(sep)] *)
Fixpoint join (sep : jsstring) (parts : list jsstring) : jsstring :=
  match parts with
  | [] => []
  | [p] => p
  | p :: ps => p ++ sep ++ join sep ps
  end.

(** [s.replace(/c/g, by)] for a pattern that is one literal character and a
    replacement text without [$]. *)
Definition replaceAll (c : N) (by_ : jsstring) (s : jsstring) : jsstring :=
  flat_map (fun x => if (x =? c)%N then by_ else [x]) s.

(** [String.fromCharCode(n)]: the code unit is [n] modulo 2^16. *)
Definition fromCharCode (n : Z) : jsstring := [Z.to_N (n mod 65536)].

(** [`${n}`] for an integer [n] (exact below 10^21, where the engine still
    prints plain decimal digits). *)
Definition numToString (n : Z) : jsstring :=
  str (NilZero.string_of_int (Z.to_int n)).

(** Truthiness of an optional string, number and of [x || d]. *)
Definition truthyS (o : option jsstring) : bool :=
  match o with Some (_ :: _) => true | _ => false end.

Definition truthyZ (o : option Z) : bool :=
  match o with Some n => negb (n =? 0) | None => false end.

Definition orZ (o : option Z) (d : Z) : Z :=
  match o with Some n => if n =? 0 then d else n | None => d end.

(** The longest prefix of code units satisfying [p], and the rest. *)
Fixpoint span (p : N -> bool) (s : jsstring) : jsstring * jsstring :=
  match s with
  | [] => ([], [])
  | c :: r => if p c then let (a, b) := span p r in (c :: a, b) else ([], s)
  end.

Definition isUpper (c : N) : bool := (65 <=? c)%N && (c <=? 90)%N.
Definition isDigit (c : N) : bool := (48 <=? c)%N && (c <=? 57)%N.
Definition isLower (c : N) : bool := (97 <=? c)%N && (c <=? 122)%N.

(** [`${x}`] for a string that may be [undefined]. *)
Definition showS (o : option jsstring) : jsstring :=
  match o with Some s => s | None => str "undefined" end.

(** [`${n}`] for a number that may be [undefined]. *)
Definition showZ (o : option Z) : jsstring :=
  match o with Some n => numToString n | None => str "undefined" end.

(** [x || d] on strings: [d] when [x] is [undefined] or empty. *)
Definition orS (o : option jsstring) (d : jsstring) : jsstring :=
  match o with Some (c :: r) => c :: r | _ => d end.

Definition nl : jsstring := [10%N].
Definition dquote : jsstring := [34%N].

(** *** Numbers

    A JavaScript number is an IEEE double.  The numbers the servers compute
    from column names and row numbers are integers, or an infinity once a
    value has left the range of the doubles.  [toNumber n] is the double
    nearest to the integer [n], ties going to the even significand: what
    the engine's arithmetic gives for an exact result [n], and [parseInt]
    for the digits of [n]; from 2^1024 - 2^970 on that is an infinity. *)
Inductive Num :=
| Int (z : Z)
| PosInf
| NegInf.

(** The nearest double of a natural number, still as an integer. *)
Definition roundMag (n : Z) : Z :=
  if n <? 2 ^ 53 then n
  else
    let e := Z.log2 n - 52 in
    let q := n / 2 ^ e in
    let r := n mod 2 ^ e in
    let half := 2 ^ (e - 1) in
    let q' := if r <? half then q
              else if half <? r then q + 1
              else if Z.even q then q else q + 1 in
    q' * 2 ^ e.

Definition toNumber (n : Z) : Num :=
  let m := roundMag (Z.abs n) in
  if 2 ^ 1024 <=? m then (if n <? 0 then NegInf else PosInf)
  else Int (if n <? 0 then - m else m).

(** [x + d] and [x * 26] for an integer [d]: exact, then rounded; an
    infinity stays what it is. *)
Definition addZ (x : Num) (d : Z) : Num :=
  match x with
  | Int a => toNumber (a + d)
  | _ => x
  end.

Definition mul26 (x : Num) : Num :=
  match x with
  | Int a => toNumber (a * 26)
  | _ => x
  end.

(** The integer that a string of decimal digits writes. *)
Definition decimal (s : jsstring) : Z :=
  fold_left (fun acc c => acc * 10 + (Z.of_N c - 48)) s 0.

(** [parseInt(s)] on a string of decimal digits: the double nearest to the
    integer written (beyond twenty digits the language leaves the rounding
    to the engine; the engine of Node rounds to nearest there as well). *)
Definition parseInt (s : jsstring) : Num := toNumber (decimal s).

End JS.
Import JS.

Notation "'$' s" := (str s) (at level 1, s at level 0, format "'$' s").

(* ================================================================= *)
(** ** Column letters (gdrive server, [columnLetterToNumber]) *)

Module Column.

(** [function columnLetterToNumber(column: string): number], lines
    1059-1065: the loop is a left fold over the code units, each step a
    product and a sum in the engine's arithmetic. *)
Definition columnStep (result : Num) (c : N) : Num :=
  addZ (mul26 result) (Z.of_N c - 64).

Definition columnLoop (column : jsstring) : Num := fold_left columnStep column (Int 0).

Definition columnLetterToNumber (column : jsstring) : Num := addZ (columnLoop column) (-1).

(** The same loop in exact integers. *)
Definition exactStep (result : Z) (c : N) : Z := result * 26 + (Z.of_N c - 64).

Definition exactLoop (column : jsstring) : Z := fold_left exactStep column 0.

(** The specification's reading of a column name: a positional numeral in
    base 26 whose digits are [A]=1 ... [Z]=26 (there is no zero digit). *)
Definition digit (c : N) : Z := Z.of_N c - 64.

Fixpoint positional (s : jsstring) : Z :=
  match s with
  | [] => 0
  | c :: r => digit c * 26 ^ Z.of_nat (List.length r) + positional r
  end.

Definition letters (s : jsstring) : Prop := Forall (fun c => isUpper c = true) s.

(** The columns of a sheet in their order: [A], ..., [Z], [AA], [AB], ...
    [nextColumn] steps to the column on the right. *)
Fixpoint incr (rs : jsstring) : jsstring :=
  match rs with
  | [] => [65%N]
  | c :: r => if (c =? 90)%N then 65%N :: incr r else (c + 1)%N :: r
  end.

Definition nextColumn (s : jsstring) : jsstring := rev (incr (rev s)).

Fixpoint nthColumn (n : nat) : jsstring :=
  match n with
  | O => [65%N]
  | S k => nextColumn (nthColumn k)
  end.

(** The value read from the last letter backwards. *)
Definition rval (rs : jsstring) : Z := exactLoop (rev rs).

End Column.
Import Column.

(* ================================================================= *)
(** ** Handlers as computations: thrown values, traces, try/catch/finally *)

Module Eff.

(** A thrown value: an [Error] object with its [message], and the numeric
    [code] that the Google client sets on a failed call (absent on errors
    made with [new Error]). *)
Record Exn := mkExn { message : jsstring; code : option Z }.

Definition Error (msg : jsstring) : Exn := mkExn msg None.

(** The completion of a block: a value, or a thrown one. *)
Inductive Outcome (A : Type) :=
| Returned (a : A)
| Thrown (e : Exn).
Arguments Returned {A} a.
Arguments Thrown {A} e.

(** A computation over events [E]: from the trace so far (oldest event
    first) to its completion and the trace extended by what it did. *)
Definition M (E A : Type) := list E -> Outcome A * list E.

Definition ret {E A} (a : A) : M E A := fun tr => (Returned a, tr).

Definition throw {E A} (e : Exn) : M E A := fun tr => (Thrown e, tr).

Definition bind {E A B} (m : M E A) (k : A -> M E B) : M E B :=
  fun tr => match m tr with
            | (Returned a, tr') => k a tr'
            | (Thrown e, tr') => (Thrown e, tr')
            end.

(** [try { m } catch (err) { h err }] *)
Definition tryCatch {E A} (m : M E A) (h : Exn -> M E A) : M E A :=
  fun tr => match m tr with
            | (Returned a, tr') => (Returned a, tr')
            | (Thrown e, tr') => h e tr'
            end.

(** [try { m } finally { f }]: [f] always runs; its own throw replaces the
    completion of [m], otherwise the completion of [m] stands. *)
Definition tryFinally {E A} (m : M E A) (f : M E unit) : M E A :=
  fun tr => match m tr with
            | (o, tr') => match f tr' with
                          | (Returned _, tr'') => (o, tr'')
                          | (Thrown e, tr'') => (Thrown e, tr'')
                          end
            end.

(** A call to the outside: the answer [ask] gives on the trace so far is
    the call's completion, and the event [ev] is recorded. *)
Definition call {E A} (ev : E) (ask : list E -> Outcome A) : M E A :=
  fun tr => (ask tr, tr ++ [ev]).

(** An effect that cannot fail (a log line, a release). *)
Definition emit {E} (ev : E) : M E unit := fun tr => (Returned tt, tr ++ [ev]).

(** A value that must be present to be used: dereferencing [undefined]
    throws a [TypeError]. *)
Definition TypeError : Exn := Error $"TypeError".

Definition deref {E A} (o : option A) : M E A :=
  match o with Some a => ret a | None => throw TypeError end.

End Eff.
Import Eff.

Declare Scope eff_scope.
Delimit Scope eff_scope with eff.
Notation "x <- m ;; k" := (bind m (fun x => k))
  (at level 61, m at next level, right associativity) : eff_scope.
Notation "m ;;; k" := (bind m (fun _ => k))
  (at level 61, right associativity) : eff_scope.

(** The result of a tool call: [{ content: [{type: "text", text}], isError }]. *)
Record ContentItem := mkContent { ctype : jsstring; text : jsstring }.

Record ToolCallResult := mkResult { content : list ContentItem; isError : bool }.

Definition textResult (t : jsstring) (err : bool) : ToolCallResult :=
  mkResult [mkContent $"text" t] err.

(* ================================================================= *)
(** ** The platform's [URL] class, as far as the MySQL server uses it *)

(** The source builds resource URIs with [new URL(relative, base).href] and
    reads them back with [new URL(uri).pathname].  [URL] is the platform's
    class (the WHATWG URL standard), not code of the repository; this
    module models the part of the standard's parser that these two calls
    reach for a base such as [mysql://user@host:3306/db]:
    - schemes that are not special ([ftp], [file], [http], [https], [ws],
      [wss] are special and parse differently),
    - inputs of printable ASCII without blanks and without [^] (the parser
      strips blanks and writes other code units as percent-encoded UTF-8;
      on [^] the engines differ),
    - the hierarchical form [scheme://authority/path?query#fragment] and
      [scheme:/path], with an authority [user@host:port] of a plain user
      name (optional), a plain host name and a port (optional) that the
      parser keeps as written.
    On an input outside this part the functions answer [None]: the model
    says nothing there, and the servers' handlers take the platform's
    answer from their surroundings. *)
Module URL.

Record t := mk {
  scheme : jsstring;
  authority : option jsstring;
  path : list jsstring;
  query : option jsstring;
  fragment : option jsstring
}.

Definition modelled (c : N) : bool :=
  (33 <=? c)%N && (c <=? 126)%N && negb (c =? 94)%N.

Definition isAlpha (c : N) : bool := isUpper c || isLower c.

Definition schemeChar (c : N) : bool :=
  isAlpha c || isDigit c || (c =? 43)%N || (c =? 45)%N || (c =? 46)%N.

Definition lower (c : N) : N := if isUpper c then (c + 32)%N else c.

Definition special (s : jsstring) : bool :=
  eqs s $"ftp" || eqs s $"file" || eqs s $"http" || eqs s $"https"
  || eqs s $"ws" || eqs s $"wss".

Definition memN (c : N) (l : list N) : bool := existsb (N.eqb c) l.

(** The printable-ASCII members of the path, query and fragment
    percent-encode sets. *)
Definition pathEncodeSet (c : N) : bool := memN c [34; 35; 60; 62; 63; 96; 123; 125]%N.
Definition queryEncodeSet (c : N) : bool := memN c [34; 35; 60; 62]%N.
Definition fragmentEncodeSet (c : N) : bool := memN c [34; 60; 62; 96]%N.

Definition hexDigit (n : N) : N := if (n <? 10)%N then (48 + n)%N else (55 + n)%N.

Definition percentEncode (c : N) : jsstring := [37%N; hexDigit (c / 16); hexDigit (c mod 16)].

Definition encodeWith (set : N -> bool) (s : jsstring) : jsstring :=
  flat_map (fun c => if set c then percentEncode c else [c]) s.

Definition isSingleDot (buffer : jsstring) : bool :=
  eqs buffer $"." || eqs (map lower buffer) $"%2e".

Definition isDoubleDot (buffer : jsstring) : bool :=
  let l := map lower buffer in
  eqs l $".." || eqs l $".%2e" || eqs l $"%2e." || eqs l $"%2e%2e".

(** "Shorten a path" for a scheme other than [file]. *)
Definition shorten (p : list jsstring) : list jsstring := removelast p.

(** The end of a path segment; [slash] tells whether a [/] ended it. *)
Definition closeSegment (p : list jsstring) (buffer : jsstring) (slash : bool)
  : list jsstring :=
  if isDoubleDot buffer then
    (if slash then shorten p else shorten p ++ [[]])
  else if isSingleDot buffer then
    (if slash then p else p ++ [[]])
  else p ++ [buffer].

(** The parser's path state: the path read, and the rest of the input from
    the [?] or [#] that ended it. *)
Fixpoint pathState (input : jsstring) (p : list jsstring) (buffer : jsstring)
  : list jsstring * jsstring :=
  match input with
  | [] => (closeSegment p buffer false, [])
  | c :: r =>
    if (c =? 47)%N then pathState r (closeSegment p buffer true) []
    else if (c =? 63)%N || (c =? 35)%N then (closeSegment p buffer false, input)
    else pathState r p (buffer ++ (if pathEncodeSet c then percentEncode c else [c]))
  end.

(** The query and fragment states, on what the path state left. *)
Definition queryFragment (rest : jsstring) : option jsstring * option jsstring :=
  match rest with
  | c :: r =>
      if (c =? 63)%N then
        let (q, f) := span (fun c => negb (c =? 35)%N) r in
        (Some (encodeWith queryEncodeSet q),
         match f with
         | _ :: f' => Some (encodeWith fragmentEncodeSet f')
         | [] => None
         end)
      else if (c =? 35)%N then (None, Some (encodeWith fragmentEncodeSet r))
      else (None, None)
  | [] => (None, None)
  end.

(** Whether the input starts with a scheme and its colon. *)
Definition hasScheme (input : jsstring) : bool :=
  match input with
  | c :: _ =>
      isAlpha c && match snd (span schemeChar input) with
                   | c' :: _ => (c' =? 58)%N
                   | [] => false
                   end
  | [] => false
  end.

(** [new URL(input, base)] for an [input] without a scheme: the parser's
    relative state. *)
Definition relative (input : jsstring) (base : t) : option t :=
  if negb (forallb modelled input) || hasScheme input || special (scheme base)
  then None
  else
    match input with
    | [] => Some (mk (scheme base) (authority base) (path base) (query base) None)
    | c :: r =>
        if (c =? 47)%N then
          if startsWith $"/" r then None
          else
            let (p, rest) := pathState r [] [] in
            let (q, f) := queryFragment rest in
            Some (mk (scheme base) (authority base) p q f)
        else if (c =? 63)%N then
          let (q, f) := queryFragment input in
          Some (mk (scheme base) (authority base) (path base) q f)
        else if (c =? 35)%N then
          let (_, f) := queryFragment input in
          Some (mk (scheme base) (authority base) (path base) (query base) f)
        else
          let (p, rest) := pathState input (shorten (path base)) [] in
          let (q, f) := queryFragment rest in
          Some (mk (scheme base) (authority base) p q f)
    end.

Definition authorityEnd (c : N) : bool := (c =? 47)%N || (c =? 63)%N || (c =? 35)%N.

(** The authorities modelled: [user@] (optional), a host, [:port]
    (optional).  The user name is of letters, digits, [-], [.], [_] and [~],
    which the parser does not encode; the host of letters, digits, [-] and
    [.], none of them a forbidden host code point; the port of one to five
    digits without a leading zero and at most 65535, which the serialiser
    writes as it was read. *)
Definition userChar (c : N) : bool :=
  isAlpha c || isDigit c || (c =? 45)%N || (c =? 46)%N || (c =? 95)%N || (c =? 126)%N.

Definition hostChar (c : N) : bool :=
  isAlpha c || isDigit c || (c =? 45)%N || (c =? 46)%N.

Definition validPort (p : jsstring) : bool :=
  match p with
  | [] => false
  | c :: _ =>
      negb (c =? 48)%N && forallb isDigit p && (List.length p <=? 5)%nat
      && (decimal p <=? 65535)
  end.

Definition validHostPort (hp : jsstring) : bool :=
  match span hostChar hp with
  | ([], _) => false
  | (_, []) => true
  | (_, c :: port) => (c =? 58)%N && validPort port
  end.

Definition validAuthority (a : jsstring) : bool :=
  match span userChar a with
  | (c0 :: _, c :: hp) => if (c =? 64)%N then validHostPort hp else validHostPort a
  | _ => validHostPort a
  end.

(** [new URL(input)]: the parser without a base. *)
Definition parse (input : jsstring) : option t :=
  if negb (forallb modelled input) || negb (hasScheme input) then None
  else
    let (sch, rest) := span schemeChar input in
    let s := map lower sch in
    let after := skipn 1 rest in   (* past the colon *)
    if special s then None
    else if startsWith $"//" after then
      let (a, r') := span (fun c => negb (authorityEnd c)) (skipn 2 after) in
      if negb (validAuthority a) then None
      else if startsWith $"/" r' then
        let (p, rest') := pathState (skipn 1 r') [] [] in
        let (q, f) := queryFragment rest' in
        Some (mk s (Some a) p q f)
      else
        let (q, f) := queryFragment r' in
        Some (mk s (Some a) [] q f)
    else if startsWith $"/" after then
      let (p, rest') := pathState (skipn 1 after) [] [] in
      let (q, f) := queryFragment rest' in
      Some (mk s None p q f)
    else None.

(** The [pathname] getter: every segment after a [/]. *)
Definition pathname (u : t) : jsstring := flat_map (fun seg => 47%N :: seg) (path u).

(** The [href] getter: the URL serializer. *)
Definition href (u : t) : jsstring :=
  scheme u ++ $":"
  ++ match authority u with
     | Some a => $"//" ++ a
     | None =>
         match path u with
         | [] :: _ :: _ => $"/."
         | _ => []
         end
     end
  ++ pathname u
  ++ match query u with Some q => $"?" ++ q | None => [] end
  ++ match fragment u with Some f => $"#" ++ f | None => [] end.

End URL.

(* ================================================================= *)
(** ** The MySQL server (source lines 1-136) *)

Module MySql.

(** What the server does to the outside, in order: pool and connection
    calls, and the warning line. *)
Inductive Ev :=
| EvAcquire (c : nat)
| EvBegin (c : nat)
| EvQuery (c : nat) (sql : option jsstring) (params : list (option jsstring))
| EvRollback (c : nat)
| EvRelease (c : nat)
| EvWarn (msg : jsstring) (e : Exn).

Definition SCHEMA_PATH : jsstring := $"schema".

Record Resource := mkResource { uri : jsstring; mimeType : jsstring; name : jsstring }.

Record Contents := mkContents { c_uri : jsstring; c_mimeType : jsstring; c_text : jsstring }.

Record CallToolRequest := mkRequest {
  req_name : jsstring;
  req_sql : option jsstring   (* [request.params.arguments?.sql] *)
}.

(** [array.pop()]: the last element, or [undefined] on the empty array. *)
Definition pop {A} (l : list A) : option A * list A :=
  match rev l with
  | [] => (None, [])
  | x :: r => (Some x, rev r)
  end.

Fixpoint mapM {E A B} (f : A -> M E B) (l : list A) : M E (list B) :=
  match l with
  | [] => ret []
  | a :: r => (b <- f a ;; bs <- mapM f r ;; ret (b :: bs))%eff
  end.

Record UrlPlatform := mkUrlPlatform {
  other_href : jsstring -> option jsstring;
  other_pathname : jsstring -> option jsstring
}.

Section Server.

(** The rows a query answers with, the column the listing reads, and
    [JSON.stringify(result, null, 2)]. *)
Variable Row : Type.
Variable TABLE_NAME : Row -> jsstring.
Variable JSON_stringify : list Row -> jsstring.

(** A pooled connection: its identity and what the database answers to
    each call, given everything done so far. *)
Record Connection := mkConnection {
  conn_id : nat;
  ask_begin : list Ev -> Outcome unit;
  ask_query : option jsstring -> list (option jsstring) -> list Ev -> Outcome (list Row);
  ask_rollback : list Ev -> Outcome unit
}.

(** [const pool = mysql.createPool(databaseUrl)] and
    [const resourceBaseUrl = new URL(databaseUrl)] after its protocol and
    password were set. *)
Variable pool : list Ev -> Outcome Connection.
Variable resourceBaseUrl : URL.t.

(** The platform's [URL] class outside the part that the module [URL]
    models: what [new URL(relative, resourceBaseUrl).href] and
    [new URL(uri).pathname] answer there, [None] where the constructor
    throws. *)
Variable platform : UrlPlatform.

Definition getConnection : M Ev Connection :=
  fun tr => match pool tr with
            | Returned c => (Returned c, tr ++ [EvAcquire (conn_id c)])
            | Thrown e => (Thrown e, tr)
            end.

Definition beginTransaction (c : Connection) : M Ev unit :=
  call (EvBegin (conn_id c)) (ask_begin c).

Definition query (c : Connection) (sql : option jsstring) (params : list (option jsstring))
  : M Ev (list Row) :=
  call (EvQuery (conn_id c) sql params) (ask_query c sql params).

Definition rollback (c : Connection) : M Ev unit :=
  call (EvRollback (conn_id c)) (ask_rollback c).

Definition release (c : Connection) : M Ev unit := emit (EvRelease (conn_id c)).

Definition console_warn (msg : jsstring) (e : Exn) : M Ev unit := emit (EvWarn msg e).

(** [new URL(`${row.TABLE_NAME}/${SCHEMA_PATH}`, resourceBaseUrl).href]:
    as modelled where the model answers, the platform's answer elsewhere. *)
Definition resourceUri (tableName : jsstring) : option jsstring :=
  match URL.relative (tableName ++ $"/" ++ SCHEMA_PATH) resourceBaseUrl with
  | Some u => Some (URL.href u)
  | None => other_href platform (tableName ++ $"/" ++ SCHEMA_PATH)
  end.

(** The [ListResourcesRequestSchema] handler, lines 38-54. *)
Definition listResources : M Ev (list Resource) :=
  (connection <- getConnection ;;
   tryFinally
     (result <- query connection
        (Some $"SELECT table_name FROM information_schema.tables WHERE table_schema = DATABASE()")
        [] ;;
      mapM (fun row =>
              match resourceUri (TABLE_NAME row) with
              | Some u =>
                  ret (mkResource u $"application/json"
                         (dquote ++ TABLE_NAME row ++ dquote ++ $" database schema"))
              | None => throw (Error $"Invalid URL")
              end) result)
     (release connection))%eff.

(** [new URL(uri).pathname]: as modelled where the model answers, the
    platform's answer elsewhere. *)
Definition urlPathname (uri : jsstring) : option jsstring :=
  match URL.parse uri with
  | Some u => Some (URL.pathname u)
  | None => other_pathname platform uri
  end.

(** The first lines of the [ReadResourceRequestSchema] handler, 57-65: the
    table name and the view read back from a resource URI. *)
Definition decodeUri (uri : jsstring) : Outcome (option jsstring * option jsstring) :=
  match urlPathname uri with
  | None => Thrown (Error $"Invalid URL")
  | Some pathname =>
      let pathComponents := split 47 pathname in
      let (schema, pathComponents1) := pop pathComponents in
      let (tableName, _) := pop pathComponents1 in
      if match schema with Some s => eqs s SCHEMA_PATH | None => false end
      then Returned (tableName, schema)
      else Thrown (Error $"Invalid resource URI")
  end.

(** The [ReadResourceRequestSchema] handler, lines 56-86. *)
Definition readResource (request_uri : jsstring) : M Ev (list Contents) :=
  match decodeUri request_uri with
  | Thrown e => throw e
  | Returned (tableName, _) =>
      (connection <- getConnection ;;
       tryFinally
         (result <- query connection
            (Some $"SELECT column_name, data_type FROM information_schema.columns WHERE table_name = ?")
            [tableName] ;;
          ret [mkContents request_uri $"application/json" (JSON_stringify result)])
         (release connection))%eff
  end.

(** The body of the [try] block of the query tool, lines 111-116. *)
Definition queryBody (connection : Connection) (sql : option jsstring)
  : M Ev ToolCallResult :=
  (beginTransaction connection ;;;
   result <- query connection sql [] ;;
   ret (textResult (JSON_stringify result) false))%eff.

(** The [CallToolRequestSchema] handler, lines 105-129. *)
Definition callTool (request : CallToolRequest) : M Ev ToolCallResult :=
  if eqs (req_name request) $"query" then
    (let sql := req_sql request in
     connection <- getConnection ;;
     tryFinally
       (tryCatch (queryBody connection sql) (fun error => throw error))
       (tryCatch (rollback connection)
          (fun error => console_warn $"Could not roll back transaction:" error) ;;;
        release connection))%eff
  else throw (Error ($"Unknown tool: " ++ req_name request)).

End Server.

Arguments mkConnection {Row}.
Arguments conn_id {Row}.
Arguments ask_begin {Row}.
Arguments ask_query {Row}.
Arguments ask_rollback {Row}.
Arguments getConnection {Row}.
Arguments beginTransaction {Row}.
Arguments query {Row}.
Arguments rollback {Row}.
Arguments release {Row}.
Arguments listResources {Row}.
Arguments readResource {Row}.
Arguments queryBody {Row}.
Arguments callTool {Row}.

(** Counting the rollbacks and releases of a connection, and the warning
    lines, among the events of an invocation. *)
Definition isRollback (c : nat) (ev : Ev) : bool :=
  match ev with EvRollback c' => Nat.eqb c c' | _ => false end.

Definition isRelease (c : nat) (ev : Ev) : bool :=
  match ev with EvRelease c' => Nat.eqb c c' | _ => false end.

Definition isWarn (ev : Ev) : bool :=
  match ev with EvWarn _ _ => true | _ => false end.

Definition countEv (p : Ev -> bool) (evs : list Ev) : nat := List.length (filter p evs).

(** The events of one invocation of the query tool: those of the try block
    [body], the rollback, the warning when the rollback threw, the
    release. *)
Definition guardEvents {Row} (c : Connection Row) (body : list Ev) (tr : list Ev) : list Ev :=
  EvAcquire (conn_id c) :: body
  ++ EvRollback (conn_id c)
     :: match ask_rollback c tr with
        | Returned _ => []
        | Thrown e => [EvWarn $"Could not roll back transaction:" e]
        end
  ++ [EvRelease (conn_id c)].

(** A table name that MySQL accepts unquoted, in ASCII: one or more of the
    characters [0-9], [a-z], [A-Z], [$] and [_]. *)
Definition identChar (c : N) : bool :=
  isDigit c || isLower c || isUpper c || (c =? 36)%N || (c =? 95)%N.

Definition validTableName (t : jsstring) : bool :=
  match t with [] => false | _ => forallb identChar t end.

(** A base URL as the parser leaves one: a lower-case scheme that is not
    special, an authority of the kind modelled, and path segments that the
    parser would read back unchanged. *)
Definition plainChar (c : N) : bool :=
  URL.modelled c && negb (URL.pathEncodeSet c) && negb (c =? 47)%N.

Definition plainSegment (s : jsstring) : bool :=
  forallb plainChar s && negb (URL.isSingleDot s) && negb (URL.isDoubleDot s).

Definition authorityChar (c : N) : bool :=
  URL.modelled c && negb (URL.authorityEnd c).

(** A platform that throws wherever the model is silent. *)
Definition strictPlatform : UrlPlatform := mkUrlPlatform (fun _ => None) (fun _ => None).

Definition wfBase (b : URL.t) : bool :=
  match URL.scheme b with
  | c :: _ => URL.isAlpha c
  | [] => false
  end
  && forallb URL.schemeChar (URL.scheme b)
  && eqs (map URL.lower (URL.scheme b)) (URL.scheme b)
  && negb (URL.special (URL.scheme b))
  && match URL.authority b with
     | Some a => URL.validAuthority a
     | None => false
     end
  && forallb plainSegment (URL.path b).

(** The directory of the base URL: what a relative reference is resolved
    against (the base without its last path segment, query and fragment). *)
Definition baseDirectory (b : URL.t) : jsstring :=
  URL.href (URL.mk (URL.scheme b) (URL.authority b) (URL.shorten (URL.path b)) None None).

(** The default [databaseUrl] of line 27, as [resourceBaseUrl]. *)
Definition defaultBase : URL.t :=
  URL.mk $"mysql" (Some $"magento@localhost:3306") [$"magento"]
         (Some $"charset=utf8") None.

(** An instance: the query succeeds and the rollback fails. *)
Definition sampleConnection : Connection unit :=
  mkConnection 7%nat
    (fun _ => Returned tt)
    (fun _ _ _ => Returned [tt])
    (fun _ => Thrown (Error $"rollback failed")).

End MySql.

(* ================================================================= *)
(** ** The Google Drive / Sheets server (source lines 136-1121) *)

Module GDrive.

(** *** What the Google client answers *)

(** [drive.files.get]: [file.data]. *)
Record Capabilities := mkCapabilities {
  canReadRevisions : option bool;
  canEdit : option bool
}.

Record FileData := mkFileData {
  fd_mimeType : option jsstring;
  fd_capabilities : option Capabilities
}.

(** [drive.permissions.list]: [permissions.data]. *)
Record Permission := mkPermission {
  p_role : option jsstring;
  p_type : option jsstring;
  p_emailAddress : option jsstring
}.

Record PermissionsData := mkPermissionsData { permissions : option (list Permission) }.

(** [drive.about.get]: [about.data.user?.emailAddress]. *)
Record AboutData := mkAboutData { user_emailAddress : option jsstring }.

(** [drive.files.list]: [res.data.files]. *)
Record DriveFile := mkDriveFile { df_name : option jsstring; df_mimeType : option jsstring }.

Record FileListData := mkFileListData { files : option (list DriveFile) }.

(** [sheets.spreadsheets.get]: the interfaces [SheetProperties], [Sheet] and
    [SpreadsheetResponse] of lines 153-170. *)
Record GridProperties := mkGrid { rowCount : option Z; columnCount : option Z }.

Record SheetProperties := mkSheetProperties {
  title : option jsstring;
  sheetId : option Z;
  gridProperties : option GridProperties
}.

Record Sheet := mkSheet { properties : option SheetProperties }.

Record SpreadsheetData := mkSpreadsheetData { sheets : option (list Sheet) }.

(** A cell of a value range: its text, or nothing. *)
Definition Cell := option jsstring.

(** [sheets.spreadsheets.values.get]: [response.data]. *)
Record ValueRange := mkValueRange { values : option (list (list Cell)) }.

(** [sheets.spreadsheets.values.update] and [batchUpdate]: the response. *)
Record UpdateResponse := mkUpdateResponse {
  ur_status : Z;
  updatedRows : option Z;
  updatedColumns : option Z;
  updatedCells : option Z
}.

Record BatchResponse := mkBatchResponse { br_status : Z }.

(** *** Objects built by the server *)

(** A JavaScript value of the format object: a number, a boolean, a
    string, or an object as the list of its properties in insertion
    order. *)
#[warnings="-register-all"]
Inductive JsValue :=
| VNum (q : Q)
| VBool (b : bool)
| VStr (s : jsstring)
| VObj (props : list (jsstring * JsValue)).

Definition Obj := list (jsstring * JsValue).

(** [o[k]] *)
Fixpoint getProp (o : Obj) (k : jsstring) : option JsValue :=
  match o with
  | [] => None
  | (k', v) :: r => if eqs k' k then Some v else getProp r k
  end.

(** [o[k] = v]: an existing property keeps its place, a new one goes last. *)
Fixpoint setProp (o : Obj) (k : jsstring) (v : JsValue) : Obj :=
  match o with
  | [] => [(k, v)]
  | (k', v') :: r => if eqs k' k then (k', v) :: r else (k', v') :: setProp r k v
  end.

(** [{...o[k]}]: the properties of [o[k]], none when it is [undefined]. *)
Definition spreadProp (o : Obj) (k : jsstring) : Obj :=
  match getProp o k with
  | Some (VObj props) => props
  | _ => []
  end.

(** [Object.keys(o)] *)
Definition keys (o : Obj) : list jsstring := map fst o.

(** The [formatting] argument of [format_sheet], with the types its input
    schema declares (lines 444-477), and [Object.keys(formatting)]. *)
Record Formatting := mkFormatting {
  backgroundColor : option jsstring;
  textColor : option jsstring;
  fontSize : option Z;
  bold : option bool;
  italic : option bool;
  horizontalAlignment : option jsstring;
  verticalAlignment : option jsstring;
  formattingKeys : list jsstring
}.

(** The arguments of a tool call; a value of the wrong shape for [values]
    (not an array) or [formatting] (not an object) is [None]. *)
Record Args := mkArgs {
  a_query : option jsstring;
  a_fileId : option jsstring;
  a_sheetName : option jsstring;
  a_range : option jsstring;
  a_values : option (list (list Cell));
  a_formatting : option Formatting
}.

Record CallToolRequest := mkRequest { req_name : jsstring; req_arguments : option Args }.

(** [request.params.arguments?.field] *)
Definition arg {A} (request : CallToolRequest) (field : Args -> option A) : option A :=
  match req_arguments request with
  | Some a => field a
  | None => None
  end.

(** The [repeatCell] request of lines 995-1009; the four indices are
    numbers the handler computed. *)
Record GridRange := mkGridRange {
  gr_sheetId : Z;
  startRowIndex : Num;
  endRowIndex : Num;
  startColumnIndex : Num;
  endColumnIndex : Num
}.

Record RepeatCell := mkRepeatCell {
  rc_range : GridRange;
  userEnteredFormat : Obj;
  fields : jsstring
}.

(** *** Calls to the outside, in order *)
Inductive Ev :=
| EvFilesGet (fileId : jsstring) (fields : jsstring)
| EvPermissionsList (fileId : jsstring) (fields : jsstring)
| EvAboutGet (fields : jsstring)
| EvFilesList (q : jsstring) (pageSize : Z) (fields : jsstring)
| EvSpreadsheetsGet (spreadsheetId : jsstring) (ranges : list jsstring) (fields : jsstring)
| EvValuesGet (spreadsheetId : jsstring) (range : jsstring)
              (valueRenderOption majorDimension : jsstring)
| EvValuesUpdate (spreadsheetId : jsstring) (range : jsstring)
                 (valueInputOption : jsstring) (values : list (list Cell))
| EvBatchUpdate (spreadsheetId : jsstring) (requests : list RepeatCell)
| EvConsoleError (msg : jsstring) (e : Exn).

(** The Google services: what each call answers, given its request and
    everything done so far. *)
Record Backend := mkBackend {
  files_get : jsstring -> list Ev -> Outcome FileData;
  permissions_list : jsstring -> list Ev -> Outcome PermissionsData;
  about_get : list Ev -> Outcome AboutData;
  files_list : jsstring -> list Ev -> Outcome FileListData;
  spreadsheets_get : jsstring -> list jsstring -> list Ev -> Outcome SpreadsheetData;
  values_get : jsstring -> jsstring -> list Ev -> Outcome ValueRange;
  values_update : jsstring -> jsstring -> list (list Cell) -> list Ev -> Outcome UpdateResponse;
  batchUpdate : jsstring -> list RepeatCell -> list Ev -> Outcome BatchResponse
}.

(** What the platform provides and the server only calls: [new URL(input)]
    for a sharing link (its [pathname] and [searchParams.get('id')], or
    [None] where the constructor throws), [String.prototype.toUpperCase],
    and [JSON.stringify(sheetsList, null, 2)]. *)
Record UrlView := mkUrlView { u_pathname : jsstring; u_id : option jsstring }.

Record SheetSummary := mkSummary {
  s_name : option jsstring;
  s_id : option Z;
  s_rowCount : option Z;
  s_columnCount : option Z
}.

Record Platform := mkPlatform {
  newURL : jsstring -> option UrlView;
  toUpperCase : jsstring -> jsstring;
  JSON_stringify : list SheetSummary -> jsstring
}.

(** *** [hexToRgb], lines 1068-1075 *)

Record RGB := mkRGB { r : Z; g : Z; b : Z }.

(** [[a-f\d]] under the [i] flag. *)
Definition isHex (c : N) : bool :=
  isDigit c || ((97 <=? c)%N && (c <=? 102)%N) || ((65 <=? c)%N && (c <=? 70)%N).

Definition hexValue (c : N) : Z :=
  if isDigit c then Z.of_N c - 48
  else if (97 <=? c)%N then Z.of_N c - 87
  else Z.of_N c - 55.

(** [parseInt(s, 16)] on hexadecimal digits. *)
Definition parseInt16 (s : jsstring) : Z :=
  fold_left (fun acc c => acc * 16 + hexValue c) s 0.

(** [/^#?([a-f\d]{2})([a-f\d]{2})([a-f\d]{2})$/i.exec(hex)]: the three
    groups, or [null].  A leading [#] can only be the optional one, as it is
    no hexadecimal digit. *)
Definition hexGroups (hex : jsstring) : option (jsstring * jsstring * jsstring) :=
  let body := match hex with
              | c :: rest => if (c =? 35)%N then rest else hex
              | [] => hex
              end in
  match body with
  | [c1; c2; c3; c4; c5; c6] =>
      if forallb isHex body then Some ([c1; c2], [c3; c4], [c5; c6]) else None
  | _ => None
  end.

Definition hexToRgb (hex : jsstring) : RGB :=
  match hexGroups hex with
  | Some (g1, g2, g3) => mkRGB (parseInt16 g1) (parseInt16 g2) (parseInt16 g3)
  | None => mkRGB 0 0 0
  end.

(** A colour as the specification writes it: [#] and six hexadecimal
    digits. *)
Definition wellFormedHex (hex : jsstring) : bool :=
  match hex with
  | c :: body => (c =? 35)%N && Nat.eqb (List.length body) 6 && forallb isHex body
  | [] => false
  end.

(** The strings the pattern of [hexToRgb] is written for, said without the
    pattern: six hexadecimal digits, bare or after one [#], and nothing
    else before, between or after them. *)
Definition sixHex (hex : jsstring) : Prop :=
  exists digits,
    (hex = digits \/ hex = 35%N :: digits)
    /\ List.length digits = 6%nat
    /\ Forall (fun c => isHex c = true) digits.

(** *** The format object and its field mask, lines 939-1007 *)

(** [n / 255], as a reduced fraction. *)
Definition channel (n : Z) : Q := Qred (inject_Z n / 255).

Definition colorObject (color : RGB) : JsValue :=
  VObj [($"red", VNum (channel (r color)));
        ($"green", VNum (channel (g color)));
        ($"blue", VNum (channel (b color)));
        ($"alpha", VNum 1)].

Definition withBackgroundColor (f : Formatting) (userFormatting : Obj) : Obj :=
  if truthyS (backgroundColor f) then
    let color := hexToRgb (orS (backgroundColor f) []) in
    setProp userFormatting $"backgroundColor" (colorObject color)
  else userFormatting.

Definition withTextColor (f : Formatting) (userFormatting : Obj) : Obj :=
  if truthyS (textColor f) then
    let color := hexToRgb (orS (textColor f) []) in
    setProp userFormatting $"textFormat"
      (VObj (setProp (spreadProp userFormatting $"textFormat")
                     $"foregroundColor" (colorObject color)))
  else userFormatting.

Definition withFontSize (f : Formatting) (userFormatting : Obj) : Obj :=
  if truthyZ (fontSize f) then
    setProp userFormatting $"textFormat"
      (VObj (setProp (spreadProp userFormatting $"textFormat")
                     $"fontSize" (VNum (inject_Z (orZ (fontSize f) 0)))))
  else userFormatting.

Definition withBold (f : Formatting) (userFormatting : Obj) : Obj :=
  match bold f with
  | Some v =>
      setProp userFormatting $"textFormat"
        (VObj (setProp (spreadProp userFormatting $"textFormat") $"bold" (VBool v)))
  | None => userFormatting
  end.

Definition withItalic (f : Formatting) (userFormatting : Obj) : Obj :=
  match italic f with
  | Some v =>
      setProp userFormatting $"textFormat"
        (VObj (setProp (spreadProp userFormatting $"textFormat") $"italic" (VBool v)))
  | None => userFormatting
  end.

Definition withHorizontalAlignment (pf : Platform) (f : Formatting) (userFormatting : Obj)
  : Obj :=
  if truthyS (horizontalAlignment f) then
    setProp userFormatting $"horizontalAlignment"
      (VStr (toUpperCase pf (orS (horizontalAlignment f) [])))
  else userFormatting.

Definition withVerticalAlignment (pf : Platform) (f : Formatting) (userFormatting : Obj)
  : Obj :=
  if truthyS (verticalAlignment f) then
    setProp userFormatting $"verticalAlignment"
      (VStr (toUpperCase pf (orS (verticalAlignment f) [])))
  else userFormatting.

(** [userFormatting] after the seven [if] blocks of lines 942-992. *)
Definition userFormatting (pf : Platform) (f : Formatting) : Obj :=
  withVerticalAlignment pf f
    (withHorizontalAlignment pf f
       (withItalic f
          (withBold f
             (withFontSize f
                (withTextColor f
                   (withBackgroundColor f [])))))).

(** ['userEnteredFormat(' + Object.keys(userFormatting).join(',') + ')'] *)
Definition fieldMask (userFormatting : Obj) : jsstring :=
  $"userEnteredFormat(" ++ join $"," (keys userFormatting) ++ $")".

End GDrive.

Module GDriveServer.
Import GDrive.

(** *** Patterns *)

(** [[a-zA-Z0-9-_]]: the class of the file-id patterns. *)
Definition idChar (c : N) : bool :=
  isLower c || isUpper c || isDigit c || (c =? 45)%N || (c =? 95)%N.

(** [s.match(/prefix([a-zA-Z0-9-_]+)/)]: the group of the leftmost match. *)
Fixpoint matchId (prefix : jsstring) (s : jsstring) : option jsstring :=
  let here :=
    if startsWith prefix s
    then match fst (span idChar (skipn (List.length prefix) s)) with
         | [] => None
         | c :: cap => Some (c :: cap)
         end
    else None in
  match here with
  | Some cap => Some cap
  | None => match s with
            | [] => None
            | _ :: rest => matchId prefix rest
            end
  end.

(** [([A-Z]+)(\d+)] at the start of [s]: both groups and what follows. *)
Definition cellAt (s : jsstring) : option (jsstring * jsstring * jsstring) :=
  match span isUpper s with
  | ([], _) => None
  | (col, rest) =>
      match span isDigit rest with
      | ([], _) => None
      | (row, rest') => Some (col, row, rest')
      end
  end.

(** [s.match(/([A-Z]+)(\d+)/)] *)
Fixpoint matchCell (s : jsstring) : option (jsstring * jsstring) :=
  match cellAt s with
  | Some (col, row, _) => Some (col, row)
  | None => match s with
            | [] => None
            | _ :: rest => matchCell rest
            end
  end.

Definition rangeAt (s : jsstring) : option (jsstring * jsstring * jsstring * jsstring) :=
  match cellAt s with
  | Some (col1, row1, c :: rest) =>
      if (c =? 58)%N then
        match cellAt rest with
        | Some (col2, row2, _) => Some (col1, row1, col2, row2)
        | None => None
        end
      else None
  | _ => None
  end.

(** [s.match(/([A-Z]+)(\d+):([A-Z]+)(\d+)/)] *)
Fixpoint matchRange (s : jsstring) : option (jsstring * jsstring * jsstring * jsstring) :=
  match rangeAt s with
  | Some groups => Some groups
  | None => match s with
            | [] => None
            | _ :: rest => matchRange rest
            end
  end.

(** *** Messages *)

Definition editDeniedMessage (userEmail : jsstring) : jsstring :=
  $"Không có quyền chỉnh sửa file." ++ nl
  ++ $"Email đang sử dụng: " ++ userEmail ++ nl
  ++ $"Vui lòng:" ++ nl
  ++ $"1. Đảm bảo file được chia sẻ với email của bạn với quyền chỉnh sửa" ++ nl
  ++ $"2. Hoặc đặt chế độ chia sẻ " ++ dquote ++ $"Anyone with the link can edit"
  ++ dquote ++ nl
  ++ $"3. Thử xác thực lại bằng lệnh: node dist/index.js auth".

Definition readDeniedMessage (userEmail : jsstring) : jsstring :=
  $"Không có quyền truy cập file." ++ nl
  ++ $"Email đang sử dụng: " ++ userEmail ++ nl
  ++ $"Vui lòng:" ++ nl
  ++ $"1. Đảm bảo file được chia sẻ với email của bạn" ++ nl
  ++ $"2. Hoặc đặt chế độ chia sẻ " ++ dquote ++ $"Anyone with the link can view"
  ++ dquote ++ nl
  ++ $"3. Thử xác thực lại bằng lệnh: node dist/index.js auth".

Definition notFoundMessage (userEmail : jsstring) : jsstring :=
  $"File không tồn tại hoặc bạn không có quyền truy cập." ++ nl
  ++ $"Email đang sử dụng: " ++ userEmail ++ nl
  ++ $"Vui lòng kiểm tra:" ++ nl
  ++ $"1. URL hoặc ID file chính xác" ++ nl
  ++ $"2. File đã được chia sẻ với email của bạn" ++ nl
  ++ $"3. Bạn đã xác thực với đúng tài khoản Google".

Definition notSpreadsheetMessage : jsstring := $"File không phải là Google Spreadsheet".

Definition accessFailureText (message userEmail fileId : jsstring) : jsstring :=
  message ++ nl ++ nl
  ++ $"Email đang sử dụng: " ++ userEmail ++ nl
  ++ $"File ID: " ++ fileId.

Definition listSheetsFailureText (message : jsstring) : jsstring :=
  $"Không thể lấy danh sách sheet. Lỗi: " ++ message ++ nl
  ++ $"Vui lòng kiểm tra:" ++ nl
  ++ $"1. URL hoặc ID chính xác" ++ nl
  ++ $"2. File là Google Spreadsheet" ++ nl
  ++ $"3. File đã được chia sẻ với bạn".

Definition readSheetFailureText (message : jsstring) : jsstring :=
  $"Không thể đọc sheet. Lỗi: " ++ message ++ nl
  ++ $"Vui lòng kiểm tra:" ++ nl
  ++ $"1. URL hoặc ID chính xác" ++ nl
  ++ $"2. File là Google Spreadsheet" ++ nl
  ++ $"3. File đã được chia sẻ với bạn" ++ nl
  ++ $"4. Tên sheet chính xác (nếu có cung cấp)".

Definition editSheetFailureText (message : jsstring) : jsstring :=
  $"Không thể cập nhật sheet. Lỗi: " ++ message ++ nl
  ++ $"Vui lòng kiểm tra:" ++ nl
  ++ $"1. URL hoặc ID chính xác" ++ nl
  ++ $"2. File là Google Spreadsheet" ++ nl
  ++ $"3. File đã được chia sẻ với bạn với quyền chỉnh sửa" ++ nl
  ++ $"4. Tên sheet và range chính xác" ++ nl
  ++ $"5. Dữ liệu cập nhật theo đúng định dạng mảng 2 chiều".

Definition formatSheetFailureText (message : jsstring) : jsstring :=
  $"Không thể cập nhật định dạng. Lỗi: " ++ message ++ nl
  ++ $"Vui lòng kiểm tra:" ++ nl
  ++ $"1. URL hoặc ID chính xác" ++ nl
  ++ $"2. File là Google Spreadsheet" ++ nl
  ++ $"3. File đã được chia sẻ với bạn với quyền chỉnh sửa" ++ nl
  ++ $"4. Tên sheet và range chính xác" ++ nl
  ++ $"5. Định dạng cung cấp hợp lệ".

(** [s.split('!')[i]] *)
Definition bangPart (i : nat) (s : jsstring) : option jsstring := nth_error (split 33 s) i.

Section Server.

Variable pf : Platform.
Variable be : Backend.

Local Open Scope eff_scope.

(** [extractFileIdFromUrl], lines 487-509.  The argument is read from the
    request and may be missing: [input.includes] then throws. *)
Definition extractFileIdFromUrl (input : option jsstring) : M Ev jsstring :=
  input <- deref input ;;
  if negb (includes $"http" input) then ret input
  else
    tryCatch
      (match newURL pf input with
       | None => throw (Error $"Invalid URL")
       | Some url =>
           match matchId $"/d/" (u_pathname url) with
           | Some d => ret d
           | None =>
               match matchId $"/spreadsheets/d/" (u_pathname url) with
               | Some spreadsheet => ret spreadsheet
               | None =>
                   if truthyS (u_id url) then ret (orS (u_id url) [])
                   else throw (Error $"Không thể trích xuất ID từ URL")
               end
           end
       end)
      (fun err => throw (Error $"URL không hợp lệ")).

(** [getCurrentUserEmail], lines 580-590. *)
Definition getCurrentUserEmail : M Ev jsstring :=
  tryCatch
    (about <- call (EvAboutGet $"user(emailAddress)") (about_get be) ;;
     ret (orS (user_emailAddress about) []))
    (fun err =>
       emit (EvConsoleError $"Không thể lấy thông tin người dùng:" err) ;;;
       ret []).

(** [permissions.data.permissions?.some(p => p.type === 'anyone' || p.type
    === 'domain')]; [undefined] counts as not public in [!isPublic]. *)
Definition isPublic (permissions : PermissionsData) : bool :=
  match GDrive.permissions permissions with
  | Some ps =>
      existsb (fun p => match p_type p with
                        | Some t => eqs t $"anyone" || eqs t $"domain"
                        | None => false
                        end) ps
  | None => false
  end.

Definition hasReadAccess (file : FileData) : bool :=
  match fd_capabilities file with
  | Some c => match canReadRevisions c with Some true => true | _ => false end
  | None => false
  end.

Definition hasEditAccess (file : FileData) : bool :=
  match fd_capabilities file with
  | Some c => match canEdit c with Some true => true | _ => false end
  | None => false
  end.

Definition isSpreadsheet (file : FileData) : bool :=
  match fd_mimeType file with
  | Some m => includes $"spreadsheet" m
  | None => false
  end.

(** [verifyFileAccess], lines 512-577. *)
Definition verifyFileAccess (fileId : jsstring) (requireEdit : bool) : M Ev bool :=
  tryCatch
    (file <- call (EvFilesGet fileId
                     $"id,mimeType,capabilities(canReadRevisions,canEdit),permissions")
                  (files_get be fileId) ;;
     if negb (isSpreadsheet file) then throw (Error notSpreadsheetMessage)
     else
       permissions <- call (EvPermissionsList fileId $"permissions(role,type,emailAddress)")
                           (permissions_list be fileId) ;;
       if requireEdit && negb (hasEditAccess file) then
         userEmail <- getCurrentUserEmail ;;
         throw (Error (editDeniedMessage userEmail))
       else if negb (isPublic permissions) && negb (hasReadAccess file) then
         userEmail <- getCurrentUserEmail ;;
         throw (Error (readDeniedMessage userEmail))
       else ret true)
    (fun err =>
       match code err with
       | Some 404 =>
           userEmail <- getCurrentUserEmail ;;
           throw (Error (notFoundMessage userEmail))
       | _ => throw err
       end).

(** The inner [try { await verifyFileAccess(...) } catch (err) { return
    ... }] of the three sheet tools: [Some result] is the early return. *)
Definition checkAccess (fileId userEmail : jsstring) (requireEdit : bool)
  : M Ev (option ToolCallResult) :=
  tryCatch
    (verifyFileAccess fileId requireEdit ;;; ret None)
    (fun err =>
       ret (Some (textResult (accessFailureText (message err) userEmail fileId) true))).

(** The [search] tool, lines 593-616. *)
Definition escapeQuery (userQuery : jsstring) : jsstring :=
  replaceAll 39 [92; 39]%N (replaceAll 92 [92; 92]%N userQuery).

Definition formatQuery (userQuery : jsstring) : jsstring :=
  $"fullText contains '" ++ escapeQuery userQuery ++ $"'".

Definition search (request : CallToolRequest) : M Ev ToolCallResult :=
  userQuery <- deref (arg request a_query) ;;
  let formattedQuery := formatQuery userQuery in
  res <- call (EvFilesList formattedQuery 10
                 $"files(id, name, mimeType, modifiedTime, size)")
              (files_list be formattedQuery) ;;
  let fileList :=
    option_map
      (fun fs => join nl (map (fun file => showS (df_name file) ++ $" ("
                                           ++ showS (df_mimeType file) ++ $")") fs))
      (files res) in
  let count := match files res with
               | Some fs => Z.of_nat (List.length fs)
               | None => 0
               end in
  ret (textResult ($"Found " ++ numToString count ++ $" files:" ++ nl ++ showS fileList)
                  false).

(** The [list_sheets] tool, lines 618-662. *)
Definition summary (sheet : Sheet) : SheetSummary :=
  match properties sheet with
  | Some p =>
      mkSummary (title p) (sheetId p)
        (match gridProperties p with Some gp => rowCount gp | None => None end)
        (match gridProperties p with Some gp => columnCount gp | None => None end)
  | None => mkSummary None None None None
  end.

Definition list_sheets (request : CallToolRequest) : M Ev ToolCallResult :=
  tryCatch
    (fileId <- extractFileIdFromUrl (arg request a_fileId) ;;
     verifyFileAccess fileId false ;;;
     response <- call (EvSpreadsheetsGet fileId [] $"sheets.properties")
                      (spreadsheets_get be fileId []) ;;
     let sheetsList := option_map (map summary) (sheets response) in
     ret (textResult
            ($"Danh sách các sheet:" ++ nl
             ++ showS (option_map (JSON_stringify pf) sheetsList))
            false))
    (fun err => ret (textResult (listSheetsFailureText (message err)) true)).

(** The [read_sheet] tool, lines 664-763. *)

(** [metadata.data.sheets?.find(s => s.properties?.title === sheetName)] *)
Definition findSheet (metadata : SpreadsheetData) (sheetName : jsstring) : option Sheet :=
  match sheets metadata with
  | Some l =>
      find (fun s => match properties s with
                     | Some p => match title p with
                                 | Some t => eqs t sheetName
                                 | None => false
                                 end
                     | None => false
                     end) l
  | None => None
  end.

Definition gridOf (sheet : Sheet) : option GridProperties :=
  match properties sheet with
  | Some p => gridProperties p
  | None => None
  end.

(** [String.fromCharCode(64 + (columnCount || 26))], in line 707: the letter
    written for the last of [columnCount] columns. *)
Definition lastColumnLetter (columnCount : option Z) : jsstring :=
  fromCharCode (64 + orZ columnCount 26).

(** The same conversion seen from the 0-based index of that last column. *)
Definition indexToLetter (index : Z) : jsstring := lastColumnLetter (Some (index + 1)).

(** The range of a whole sheet, line 707. *)
Definition wholeSheetRange (sheetName : jsstring) (sheet : Sheet) : jsstring :=
  sheetName ++ $"!A1:"
  ++ lastColumnLetter (match gridOf sheet with
                       | Some gp => columnCount gp
                       | None => None
                       end)
  ++ numToString (orZ (match gridOf sheet with
                       | Some gp => rowCount gp
                       | None => None
                       end) 1000).

(** Lines 689-710: the range asked of the value service. *)
Definition resolveReadRange (fileId : jsstring) (sheetName rangeInput : option jsstring)
  : M Ev jsstring :=
  actualRange <-
    (if truthyS sheetName && negb (truthyS rangeInput) then
       metadata <- call (EvSpreadsheetsGet fileId [] $"sheets.properties")
                        (spreadsheets_get be fileId []) ;;
       match findSheet metadata (orS sheetName []) with
       | None =>
           throw (Error ($"Không tìm thấy sheet có tên " ++ dquote
                         ++ orS sheetName [] ++ dquote))
       | Some sheet => ret (Some (wholeSheetRange (orS sheetName []) sheet))
       end
     else ret rangeInput) ;;
  ret (if truthyS actualRange then orS actualRange []
       else if truthyS sheetName then orS sheetName []
       else $"Sheet1!A1:Z1000").

Definition formatRows (rows : list (list Cell)) : jsstring :=
  join nl (map (fun row => join $"," (map (fun cell => orS cell []) row)) rows).

Definition read_sheet (request : CallToolRequest) : M Ev ToolCallResult :=
  tryCatch
    (fileId <- extractFileIdFromUrl (arg request a_fileId) ;;
     userEmail <- getCurrentUserEmail ;;
     denied <- checkAccess fileId userEmail false ;;
     match denied with
     | Some result => ret result
     | None =>
         effectiveRange <- resolveReadRange fileId (arg request a_sheetName)
                                            (arg request a_range) ;;
         response <- call (EvValuesGet fileId effectiveRange $"FORMATTED_VALUE" $"ROWS")
                          (values_get be fileId effectiveRange) ;;
         match values response with
         | None | Some [] => ret (textResult $"Sheet không có dữ liệu" false)
         | Some rows =>
             ret (textResult ($"Dữ liệu sheet:" ++ nl ++ formatRows rows) false)
         end
     end)
    (fun err => ret (textResult (readSheetFailureText (message err)) true)).

(** Lines 799-808 and 892-901: the range qualified with a sheet name. *)
Definition qualifyRange (sheetName rangeInput : option jsstring) : M Ev jsstring :=
  actualRange <-
    (if truthyS sheetName then
       range <- deref rangeInput ;;
       ret (if negb (includes $"!" range)
            then Some (orS sheetName [] ++ $"!" ++ range)
            else rangeInput)
     else ret rangeInput) ;;
  actualRange <- deref actualRange ;;
  ret (if negb (includes $"!" actualRange) then $"Sheet1!" ++ actualRange
       else actualRange).

(** The [edit_sheet] tool, lines 765-856. *)
Definition edit_sheet (request : CallToolRequest) : M Ev ToolCallResult :=
  tryCatch
    (fileId <- extractFileIdFromUrl (arg request a_fileId) ;;
     userEmail <- getCurrentUserEmail ;;
     denied <- checkAccess fileId userEmail true ;;
     match denied with
     | Some result => ret result
     | None =>
         match arg request a_values with
         | None =>
             throw (Error $"Dữ liệu cung cấp không hợp lệ. Cần phải là mảng 2 chiều.")
         | Some values =>
             actualRange <- qualifyRange (arg request a_sheetName) (arg request a_range) ;;
             updateResponse <- call (EvValuesUpdate fileId actualRange $"USER_ENTERED" values)
                                    (values_update be fileId actualRange values) ;;
             if negb (ur_status updateResponse =? 200) then
               throw (Error ($"Cập nhật thất bại. Mã trạng thái: "
                             ++ numToString (ur_status updateResponse)))
             else
               ret (textResult
                      ($"Cập nhật thành công!" ++ nl
                       ++ $"- Sheet: " ++ showS (bangPart 0 actualRange) ++ nl
                       ++ $"- Range: " ++ showS (bangPart 1 actualRange) ++ nl
                       ++ $"- Số hàng cập nhật: " ++ showZ (updatedRows updateResponse) ++ nl
                       ++ $"- Số cột cập nhật: " ++ showZ (updatedColumns updateResponse) ++ nl
                       ++ $"- Số ô cập nhật: " ++ showZ (updatedCells updateResponse))
                      false)
         end
     end)
    (fun err => ret (textResult (editSheetFailureText (message err)) true)).

(** The [format_sheet] tool, lines 858-1053. *)

(** Lines 916-934: the 0-based corners of the range. *)
Definition gridCorners (a1 : jsstring) : M Ev (Num * Num * Num * Num) :=
  match matchRange a1 with
  | Some (col1, row1, col2, row2) =>
      ret (columnLetterToNumber col1, addZ (parseInt row1) (-1),
           columnLetterToNumber col2, addZ (parseInt row2) (-1))
  | None =>
      match matchCell a1 with
      | None => throw (Error $"Định dạng range không hợp lệ")
      | Some (col, row) =>
          ret (columnLetterToNumber col, addZ (parseInt row) (-1),
               columnLetterToNumber col, addZ (parseInt row) (-1))
      end
  end.

(** [spreadsheet.data.sheets?.[0].properties?.sheetId] *)
Definition firstSheetId (spreadsheet : SpreadsheetData) : M Ev (option Z) :=
  match sheets spreadsheet with
  | None => ret None
  | Some [] => throw TypeError
  | Some (s :: _) => ret (match properties s with
                          | Some p => sheetId p
                          | None => None
                          end)
  end.

(** Lines 995-1009: the one request of the batch. *)
Definition repeatCell (sheetId : Z) (corners : Num * Num * Num * Num)
           (formatting : Formatting) : RepeatCell :=
  let '(startCol, startRow, endCol, endRow) := corners in
  mkRepeatCell (mkGridRange sheetId startRow (addZ endRow 1) startCol (addZ endCol 1))
               (userFormatting pf formatting)
               (fieldMask (userFormatting pf formatting)).

Definition format_sheet (request : CallToolRequest) : M Ev ToolCallResult :=
  tryCatch
    (fileId <- extractFileIdFromUrl (arg request a_fileId) ;;
     userEmail <- getCurrentUserEmail ;;
     denied <- checkAccess fileId userEmail true ;;
     match denied with
     | Some result => ret result
     | None =>
         match arg request a_formatting with
         | None => throw (Error $"Định dạng cung cấp không hợp lệ.")
         | Some formatting =>
             actualRange <- qualifyRange (arg request a_sheetName) (arg request a_range) ;;
             spreadsheet <- call (EvSpreadsheetsGet fileId [actualRange]
                                    $"sheets.properties,sheets.merges")
                                 (spreadsheets_get be fileId [actualRange]) ;;
             sheetId <- firstSheetId spreadsheet ;;
             if negb (truthyZ sheetId) then throw (Error $"Không thể xác định sheet ID")
             else
               a1 <- deref (bangPart 1 actualRange) ;;
               corners <- gridCorners a1 ;;
               let requests := [repeatCell (orZ sheetId 0) corners formatting] in
               updateResponse <- call (EvBatchUpdate fileId requests)
                                      (batchUpdate be fileId requests) ;;
               if negb (br_status updateResponse =? 200) then
                 throw (Error ($"Cập nhật định dạng thất bại. Mã trạng thái: "
                               ++ numToString (br_status updateResponse)))
               else
                 ret (textResult
                        ($"Cập nhật định dạng thành công!" ++ nl
                         ++ $"- Sheet: " ++ showS (bangPart 0 actualRange) ++ nl
                         ++ $"- Range: " ++ showS (bangPart 1 actualRange) ++ nl
                         ++ $"- Các thuộc tính đã áp dụng: "
                         ++ join $", " (formattingKeys formatting))
                        false)
         end
     end)
    (fun err => ret (textResult (formatSheetFailureText (message err)) true)).

(** The [CallToolRequestSchema] handler, lines 592-1056. *)
Definition callTool (request : CallToolRequest) : M Ev ToolCallResult :=
  if eqs (req_name request) $"search" then search request
  else if eqs (req_name request) $"list_sheets" then list_sheets request
  else if eqs (req_name request) $"read_sheet" then read_sheet request
  else if eqs (req_name request) $"edit_sheet" then edit_sheet request
  else if eqs (req_name request) $"format_sheet" then format_sheet request
  else throw (Error $"Tool not found").

End Server.

(** Reading the text between the quotes of a string literal of the Drive
    query language: a backslash makes the next character literal, and a
    bare quote would end the literal ([None]). *)
Fixpoint readLiteral (s : jsstring) : option jsstring :=
  match s with
  | [] => Some []
  | c :: rest =>
      if (c =? 92)%N then
        match rest with
        | d :: rest' => option_map (cons d) (readLiteral rest')
        | [] => None
        end
      else if (c =? 39)%N then None
      else option_map (cons c) (readLiteral rest)
  end.

(** The names a field mask lists: what stands between the parentheses of
    [userEnteredFormat(...)], split at the commas. *)
Definition maskNames (mask : jsstring) : list jsstring :=
  let inside := removelast (skipn (List.length $"userEnteredFormat(") mask) in
  match inside with
  | [] => []
  | _ => split 44 inside
  end.

(** The top-level keys the seven blocks can create, in the order of the
    blocks. *)
Definition expectedKeys (f : Formatting) : list jsstring :=
  (if truthyS (backgroundColor f) then [$"backgroundColor"] else [])
  ++ (if truthyS (textColor f) || truthyZ (fontSize f)
         || match bold f with Some _ => true | None => false end
         || match italic f with Some _ => true | None => false end
      then [$"textFormat"] else [])
  ++ (if truthyS (horizontalAlignment f) then [$"horizontalAlignment"] else [])
  ++ (if truthyS (verticalAlignment f) then [$"verticalAlignment"] else []).

(** The tools the server lists, lines 343-484. *)
Definition toolNames : list jsstring :=
  [$"search"; $"list_sheets"; $"read_sheet"; $"edit_sheet"; $"format_sheet"].

End GDriveServer.

(* ================================================================= *)
(** ** Trace properties and sample surroundings of the Drive server *)

Module Samples.
Import GDrive GDriveServer.

(** *** Invariants of the trace of a handler *)

(** [m] keeps [P] of the trace. *)
Definition preserves (P : list Ev -> Prop) {A} (m : M Ev A) : Prop :=
  forall tr, P tr -> P (snd (m tr)).

(** Every batch update a handler sends carries, in each request, the mask
    computed from the keys of the format object of that same request. *)
Definition maskedEv (ev : Ev) : Prop :=
  match ev with
  | EvBatchUpdate _ requests =>
      Forall (fun rc => fields rc = fieldMask (userEnteredFormat rc)
                        /\ maskNames (fields rc) = keys (userEnteredFormat rc)) requests
  | _ => True
  end.

(** A batch update carries one request, with the format object built from
    the formatting [f] of the tool call and the mask computed from that
    object; any other event is free. *)
Definition formatsWith (pf : Platform) (f : option Formatting) (ev : Ev) : Prop :=
  match ev with
  | EvBatchUpdate _ requests =>
      exists formatting rc,
        f = Some formatting /\ requests = [rc]
        /\ userEnteredFormat rc = userFormatting pf formatting
        /\ fields rc = fieldMask (userFormatting pf formatting)
  | _ => True
  end.

(** [tr] is [tr0] and, after it, events that all satisfy [Q]. *)
Definition grownBy (Q : Ev -> Prop) (tr0 tr : list Ev) : Prop :=
  exists added, tr = tr0 ++ added /\ Forall Q added.

(** A sheet that carries [name] as its title. *)
Definition titled (name : jsstring) (sheet : Sheet) : Prop :=
  exists p, properties sheet = Some p /\ title p = Some name.

(** Sample surroundings for closed statements: a platform whose
    [toUpperCase] is the identity and whose URL constructor rejects
    everything, and backends built from the answers given. *)
Definition samplePlatform : Platform :=
  mkPlatform (fun _ => None) (fun s => s) (fun _ => $"[]").

Definition backendFailure : Exn := mkExn $"Rate Limit Exceeded" (Some 403).

(** A Drive whose every call fails. *)
Definition failingBackend : Backend :=
  mkBackend (fun _ _ => Thrown backendFailure) (fun _ _ => Thrown backendFailure)
            (fun _ => Thrown backendFailure) (fun _ _ => Thrown backendFailure)
            (fun _ _ _ => Thrown backendFailure) (fun _ _ _ => Thrown backendFailure)
            (fun _ _ _ _ => Thrown backendFailure) (fun _ _ _ => Thrown backendFailure).

Definition searchArgs (q : jsstring) : Args := mkArgs (Some q) None None None None None.

(** A sheet of the metadata with the given counts. *)
Definition sheetWith (name : jsstring) (rows cols : Z) : Sheet :=
  mkSheet (Some (mkSheetProperties (Some name) (Some 7)
                   (Some (mkGrid (Some rows) (Some cols))))).

(** A Sheets service that knows one spreadsheet with a sheet "Data" of 10
    rows and 3 columns. *)
Definition smallBook : SpreadsheetData :=
  mkSpreadsheetData (Some [sheetWith $"Summary" 1000 26; sheetWith $"Data" 10 3]).

Definition smallBackend : Backend :=
  mkBackend (fun _ _ => Returned (mkFileData (Some $"application/vnd.google-apps.spreadsheet")
                                    (Some (mkCapabilities (Some true) (Some true)))))
            (fun _ _ => Returned (mkPermissionsData (Some [])))
            (fun _ => Returned (mkAboutData (Some $"user@example.com")))
            (fun _ _ => Returned (mkFileListData (Some [])))
            (fun _ _ _ => Returned smallBook)
            (fun _ _ _ => Returned (mkValueRange (Some [[Some $"a"; Some $"b"]])))
            (fun _ _ _ _ => Returned (mkUpdateResponse 200 (Some 1) (Some 1) (Some 1)))
            (fun _ _ _ => Returned (mkBatchResponse 200)).

(** Bold text on a red background. *)
Definition boldOnRed : Formatting :=
  mkFormatting (Some $"#ff0000") None None (Some true) None None None
               [$"bold"; $"backgroundColor"].

(** The colour names of style sheets are no hexadecimal literals. *)
Definition redByName : Formatting :=
  mkFormatting (Some $"red") None None None None None None [$"backgroundColor"].

(** The two calls [verifyFileAccess] starts with. *)
Definition filesGetEv (fileId : jsstring) : Ev :=
  EvFilesGet fileId $"id,mimeType,capabilities(canReadRevisions,canEdit),permissions".

Definition permissionsListEv (fileId : jsstring) : Ev :=
  EvPermissionsList fileId $"permissions(role,type,emailAddress)".

(** A spreadsheet shared with anyone, on which the current identity
    (reader@example.com) has neither the edit nor the read capability. *)
Definition sharedSheetBackend : Backend :=
  mkBackend
    (fun _ _ => Returned (mkFileData (Some $"application/vnd.google-apps.spreadsheet")
                            (Some (mkCapabilities (Some false) (Some false)))))
    (fun _ _ => Returned (mkPermissionsData
                            (Some [mkPermission (Some $"reader") (Some $"anyone") None])))
    (fun _ => Returned (mkAboutData (Some $"reader@example.com")))
    (fun _ _ => Returned (mkFileListData None))
    (fun _ _ _ => Returned (mkSpreadsheetData None))
    (fun _ _ _ => Returned (mkValueRange None))
    (fun _ _ _ _ => Returned (mkUpdateResponse 200 None None None))
    (fun _ _ _ => Returned (mkBatchResponse 200)).

(** A PDF shared with anyone, without edit or read capability for the
    current identity. *)
Definition sharedPdfBackend : Backend :=
  mkBackend
    (fun _ _ => Returned (mkFileData (Some $"application/pdf")
                            (Some (mkCapabilities (Some false) (Some false)))))
    (fun _ _ => Returned (mkPermissionsData
                            (Some [mkPermission (Some $"reader") (Some $"anyone") None])))
    (fun _ => Returned (mkAboutData (Some $"reader@example.com")))
    (fun _ _ => Returned (mkFileListData None))
    (fun _ _ _ => Returned (mkSpreadsheetData None))
    (fun _ _ _ => Returned (mkValueRange None))
    (fun _ _ _ _ => Returned (mkUpdateResponse 200 None None None))
    (fun _ _ _ => Returned (mkBatchResponse 200)).

End Samples.

(* ================================================================= *)
(** ** The resources of the Drive server (source lines 223-341) *)

Module GDriveResources.

(** [drive.files.list]: [res.data]. *)
Record ListedFile := mkListedFile {
  lf_id : option jsstring;
  lf_name : option jsstring;
  lf_mimeType : option jsstring
}.

Record FileListPage := mkPage {
  page_files : option (list ListedFile);
  nextPageToken : option jsstring
}.

(** [sheets.spreadsheets.get] with grid data: the interfaces [CellData],
    [RowData], [SheetData] and [GridData] of lines 172-186. *)
Record CellData := mkCellData { formattedValue : option jsstring }.

Record RowData := mkRowData { rd_values : option (list CellData) }.

Record SheetData := mkSheetData { rowData : option (list RowData) }.

Record GridData := mkGridData { gd_data : option (list SheetData) }.

Record GridResponse := mkGridResponse { gr_sheets : option (list GridData) }.

(** What the handlers answer. *)
Record Resource := mkResource {
  res_uri : jsstring;
  res_mimeType : option jsstring;
  res_name : option jsstring
}.

Record ListResult := mkListResult {
  resources : list Resource;
  nextCursor : option jsstring
}.

Inductive Body :=
| Text (t : jsstring)
| Blob (b : jsstring).

Record Content := mkContent {
  co_uri : jsstring;
  co_mimeType : jsstring;
  co_body : Body
}.

(** Calls to the outside, in order. *)
Inductive Ev :=
| EvList (pageSize : Z) (fields : jsstring) (pageToken : option jsstring)
| EvGetMimeType (fileId : jsstring)
| EvGetGrid (spreadsheetId : jsstring)
| EvExport (fileId : jsstring) (mimeType : jsstring)
| EvGetMedia (fileId : jsstring).

Section Server.

(** The bytes of a downloaded file and [Buffer.from(data).toString(enc)]
    for the encodings "utf-8" and "base64". *)
Variable Bytes : Type.
Variable toUtf8 : Bytes -> jsstring.
Variable toBase64 : Bytes -> jsstring.

Record Backend := mkBackend {
  files_list : option jsstring -> list Ev -> Outcome FileListPage;
  files_get_mimeType : jsstring -> list Ev -> Outcome (option jsstring);
  spreadsheets_get_grid : jsstring -> list Ev -> Outcome GridResponse;
  files_export : jsstring -> jsstring -> list Ev -> Outcome jsstring;
  files_get_media : jsstring -> list Ev -> Outcome Bytes
}.

Variable be : Backend.

Local Open Scope eff_scope.

Definition uriPrefix : jsstring := $"gdrive:///".

(** The [ListResourcesRequestSchema] handler, lines 223-245;
    [cursor] is [request.params?.cursor]. *)
Definition listResources (cursor : option jsstring) : M Ev ListResult :=
  let pageToken := if truthyS cursor then cursor else None in
  res <- call (EvList 10 $"nextPageToken, files(id, name, mimeType)" pageToken)
              (files_list be pageToken) ;;
  files <- deref (page_files res) ;;
  ret (mkListResult
         (map (fun file => mkResource (uriPrefix ++ showS (lf_id file))
                                      (lf_mimeType file) (lf_name file)) files)
         (nextPageToken res)).

(** [s.replace(p, "")] for a pattern that is a string: the first
    occurrence of [p] is taken out. *)
Fixpoint removeFirst (p s : jsstring) : jsstring :=
  if startsWith p s then skipn (List.length p) s
  else match s with
       | [] => []
       | c :: rest => c :: removeFirst p rest
       end.

(** [request.params.uri.replace("gdrive:///", "")] *)
Definition fileIdOfUri (uri : jsstring) : jsstring := removeFirst uriPrefix uri.

(** [x?.[0]] on an array that may be missing or empty. *)
Definition firstOf {A} (o : option (list A)) : option A :=
  match o with
  | Some (x :: _) => Some x
  | _ => None
  end.

(** [response.data.sheets?.[0]?.data?.[0]?.rowData] *)
Definition firstGridRows (response : GridResponse) : option (list RowData) :=
  match firstOf (gr_sheets response) with
  | Some sheet => match firstOf (gd_data sheet) with
                  | Some grid => rowData grid
                  | None => None
                  end
  | None => None
  end.

(** [row.values?.map(cell => cell.formattedValue || '').join(',') || ''] *)
Definition csvRow (row : RowData) : jsstring :=
  match rd_values row with
  | Some cells => join $"," (map (fun cell => orS (formattedValue cell) []) cells)
  | None => []
  end.

(** Lines 265-270: the text made of the rows. *)
Definition csvText (sheetData : option (list RowData)) : jsstring :=
  match sheetData with
  | Some rows => join nl (map csvRow rows)
  | None => []
  end.

(** The [switch] of lines 284-296. *)
Definition exportMimeType (mimeType : jsstring) : jsstring :=
  if eqs mimeType $"application/vnd.google-apps.document" then $"text/markdown"
  else if eqs mimeType $"application/vnd.google-apps.presentation" then $"text/plain"
  else if eqs mimeType $"application/vnd.google-apps.drawing" then $"image/png"
  else $"text/plain".

Definition isGoogleApps (mimeType : option jsstring) : bool :=
  match mimeType with
  | Some m => startsWith $"application/vnd.google-apps" m
  | None => false
  end.

(** The [ReadResourceRequestSchema] handler, lines 247-341. *)
Definition readResource (uri : jsstring) : M Ev (list Content) :=
  let fileId := fileIdOfUri uri in
  mimeType <- call (EvGetMimeType fileId) (files_get_mimeType be fileId) ;;
  if isGoogleApps mimeType then
    if eqs (orS mimeType []) $"application/vnd.google-apps.spreadsheet" then
      response <- call (EvGetGrid fileId) (spreadsheets_get_grid be fileId) ;;
      ret [mkContent uri $"text/csv" (Text (csvText (firstGridRows response)))]
    else
      let exportMime := exportMimeType (orS mimeType []) in
      res <- call (EvExport fileId exportMime) (files_export be fileId exportMime) ;;
      ret [mkContent uri exportMime (Text res)]
  else
    res <- call (EvGetMedia fileId) (files_get_media be fileId) ;;
    let mimeType := orS mimeType $"application/octet-stream" in
    if startsWith $"text/" mimeType || eqs mimeType $"application/json"
    then ret [mkContent uri mimeType (Text (toUtf8 res))]
    else ret [mkContent uri mimeType (Blob (toBase64 res))].

End Server.

Arguments mkBackend {Bytes}.
Arguments files_list {Bytes}.
Arguments files_get_mimeType {Bytes}.
Arguments spreadsheets_get_grid {Bytes}.
Arguments files_export {Bytes}.
Arguments files_get_media {Bytes}.
Arguments listResources {Bytes}.
Arguments readResource {Bytes}.

(** Reading a text of lines of comma-separated cells back. *)
Definition readCsv (text : jsstring) : list (list jsstring) :=
  map (split 44) (split 10 text).

End GDriveResources.

(* ================================================================= *)
(** ** The tools the servers list (source lines 88-103 and 343-484) *)

Module Tools.

(** A tool as listed: its name, the properties of its input schema and
    those it requires. *)
Record Descriptor := mkDescriptor {
  td_name : jsstring;
  td_description : jsstring;
  td_properties : list jsstring;
  td_required : list jsstring
}.

(** The MySQL server's [ListToolsRequestSchema] handler. *)
Definition mysqlTools : list Descriptor :=
  [mkDescriptor $"query" $"Run a read-only SQL query" [$"sql"] []].

(** The Drive server's [ListToolsRequestSchema] handler. *)
Definition driveTools : list Descriptor :=
  [mkDescriptor $"search" $"Search for files in Google Drive" [$"query"] [$"query"];
   mkDescriptor $"list_sheets" $"List all sheets in a Google Spreadsheet"
     [$"fileId"] [$"fileId"];
   mkDescriptor $"read_sheet" $"Read data from a specific sheet in a Google Spreadsheet"
     [$"fileId"; $"sheetName"; $"range"] [$"fileId"];
   mkDescriptor $"edit_sheet" $"Edit data in a specific sheet in a Google Spreadsheet"
     [$"fileId"; $"sheetName"; $"range"; $"values"] [$"fileId"; $"range"; $"values"];
   mkDescriptor $"format_sheet"
     $"Apply formatting (colors, fonts, etc.) to cells in a Google Spreadsheet"
     [$"fileId"; $"sheetName"; $"range"; $"formatting"]
     [$"fileId"; $"range"; $"formatting"]].

End Tools.

(* ================================================================= *)
(** ** Notions used to state further properties *)

Module MySqlNotions.
Import MySql.

(** The two fixed SQL texts of the resource handlers. *)
#[warnings="-notation-for-abbreviation"]
Notation tablesSql :=
  ($"SELECT table_name FROM information_schema.tables WHERE table_schema = DATABASE()").

#[warnings="-notation-for-abbreviation"]
Notation columnsSql :=
  ($"SELECT column_name, data_type FROM information_schema.columns WHERE table_name = ?").

(** The resource listed for a table, when its URI can be built. *)
Definition resourceOf (base : URL.t) (platform : UrlPlatform) (tableName : jsstring)
  : option Resource :=
  option_map
    (fun u => mkResource u $"application/json"
                (dquote ++ tableName ++ dquote ++ $" database schema"))
    (resourceUri base platform tableName).

(** The last element of a list and the one before it, where there is
    one. *)
Definition lastOf {A} (l : list A) : option A := nth_error (rev l) 0.

Definition secondToLast {A} (l : list A) : option A := nth_error (rev l) 1.

(** All the values of a list of optional values, when none is missing. *)
Fixpoint allSome {A} (l : list (option A)) : option (list A) :=
  match l with
  | [] => Some []
  | Some a :: r => option_map (cons a) (allSome r)
  | None :: _ => None
  end.

(** A connection that answers every query with three table names. *)
Definition tablesConnection : Connection jsstring :=
  mkConnection 3%nat
    (fun _ => Returned tt)
    (fun _ _ _ => Returned [$"customer"; $"sales_order"; $"catalog_product_entity"])
    (fun _ => Returned tt).

End MySqlNotions.

Module ResourceNotions.
Import GDriveResources.

(** The text a cell contributes, and the texts of a row. *)
Definition cellText (cell : CellData) : jsstring := orS (formattedValue cell) [].

Definition rowTexts (row : RowData) : list jsstring :=
  match rd_values row with
  | Some cells => map cellText cells
  | None => []
  end.

(** A text without comma and line feed. *)
Definition plainText (t : jsstring) : bool :=
  forallb (fun c => negb (c =? 44)%N && negb (c =? 10)%N) t.

(** Rows that the comma-separated text keeps apart: at least one row, at
    least one cell in each, and plain texts only. *)
Definition csvSafe (rows : list (list jsstring)) : bool :=
  match rows with
  | [] => false
  | _ => forallb (fun row => match row with
                             | [] => false
                             | _ => forallb plainText row
                             end) rows
  end.

(** The second call of [readResource], by the MIME type reported. *)
Definition secondCall (fileId : jsstring) (mimeType : option jsstring) : Ev :=
  if isGoogleApps mimeType then
    if eqs (orS mimeType []) $"application/vnd.google-apps.spreadsheet"
    then EvGetGrid fileId
    else EvExport fileId (exportMimeType (orS mimeType []))
  else EvGetMedia fileId.

Definition isBlob (body : Body) : bool :=
  match body with Blob _ => true | Text _ => false end.

(** A Drive with two files and a second page. *)
Definition twoFiles : list ListedFile :=
  [mkListedFile (Some $"1AbC") (Some $"Budget") (Some $"application/vnd.google-apps.spreadsheet");
   mkListedFile (Some $"9xYz") (Some $"notes.txt") (Some $"text/plain")].

Definition sampleDrive : Backend unit :=
  mkBackend
    (fun token _ => match token with
                    | None => Returned (mkPage (Some twoFiles) (Some $"page2"))
                    | Some _ => Returned (mkPage (Some []) None)
                    end)
    (fun _ _ => Returned (Some $"text/plain"))
    (fun _ _ => Returned (mkGridResponse None))
    (fun _ _ _ => Returned $"exported")
    (fun _ _ => Returned tt).

Definition sampleRows : list RowData :=
  [mkRowData (Some [mkCellData (Some $"name"); mkCellData (Some $"qty")]);
   mkRowData (Some [mkCellData (Some $"bolt"); mkCellData None])].

End ResourceNotions.

Module ToolNotions.
Import GDrive GDriveServer Samples.

(** [m], run from [tr], ends in a completion and a trace that satisfy [Q]. *)
Definition ends {A} (m : M Ev A) (tr : list Ev) (Q : Outcome A -> list Ev -> Prop) : Prop :=
  Q (fst (m tr)) (snd (m tr)).

(** The pattern of a file id is matched where [s] starts: the prefix, then
    at least one character of the class. *)
Definition idAt (prefix s : jsstring) : bool :=
  startsWith prefix s
  && match skipn (List.length prefix) s with
     | c :: _ => idChar c
     | [] => false
     end.

(** The file a data call goes to, and whether it writes. *)
Definition accessNeeded (ev : Ev) : option (jsstring * bool) :=
  match ev with
  | EvSpreadsheetsGet spreadsheetId _ _ => Some (spreadsheetId, false)
  | EvValuesGet spreadsheetId _ _ _ => Some (spreadsheetId, false)
  | EvValuesUpdate spreadsheetId _ _ _ => Some (spreadsheetId, true)
  | EvBatchUpdate spreadsheetId _ => Some (spreadsheetId, true)
  | _ => None
  end.

Definition isValuesUpdate (ev : Ev) : bool :=
  match ev with EvValuesUpdate _ _ _ _ => true | _ => false end.

Definition isBatchUpdate (ev : Ev) : bool :=
  match ev with EvBatchUpdate _ _ => true | _ => false end.

Definition isValuesGet (ev : Ev) : bool :=
  match ev with EvValuesGet _ _ _ _ => true | _ => false end.

(** Earlier in the trace [pre], the verification of access to [fileId]
    ran and succeeded: its two calls stand in [pre], and run from the trace
    before them it returned true. *)
Definition checkedBefore (be : Backend) (pre : list Ev) (fileId : jsstring)
           (requireEdit : bool) : Prop :=
  exists t0 rest,
    pre = (t0 ++ [filesGetEv fileId; permissionsListEv fileId]) ++ rest
    /\ verifyFileAccess be fileId requireEdit t0
       = (Returned true, t0 ++ [filesGetEv fileId; permissionsListEv fileId]).

(** Every data call of the trace comes after a successful verification of
    its file, with edit access required if it writes. *)
Definition guardedTrace (be : Backend) (tr : list Ev) : Prop :=
  forall pre ev post fileId requireEdit,
    tr = pre ++ ev :: post ->
    accessNeeded ev = Some (fileId, requireEdit) ->
    checkedBefore be pre fileId requireEdit.

(** The id the first sheet of a response carries, if any. *)
Definition firstSheetIdOf (spreadsheet : SpreadsheetData) : option Z :=
  match sheets spreadsheet with
  | Some (s :: _) => match properties s with
                     | Some p => sheetId p
                     | None => None
                     end
  | _ => None
  end.

(** A platform that knows two sharing links. *)
Definition linkPlatform : Platform :=
  mkPlatform
    (fun s =>
       if eqs s $"https://docs.google.com/spreadsheets/d/1AbC-9_z/edit"
       then Some (mkUrlView $"/spreadsheets/d/1AbC-9_z/edit" None)
       else if eqs s $"https://drive.google.com/open?id=1AbC-9_z"
       then Some (mkUrlView $"/open" (Some $"1AbC-9_z"))
       else None)
    (fun s => s) (fun _ => $"[]").

(** A new spreadsheet: its only sheet has the id 0. *)
Definition newBook : SpreadsheetData :=
  mkSpreadsheetData
    (Some [mkSheet (Some (mkSheetProperties (Some $"Sheet1") (Some 0)
                            (Some (mkGrid (Some 1000) (Some 26)))))]).

Definition newBookBackend : Backend :=
  mkBackend (files_get smallBackend) (permissions_list smallBackend)
            (about_get smallBackend) (files_list smallBackend)
            (fun _ _ _ => Returned newBook)
            (values_get smallBackend) (values_update smallBackend)
            (batchUpdate smallBackend).

(** A Drive that does not know the file asked for. *)
Definition notFound : Exn := mkExn $"File not found: x" (Some 404).

Definition missingFileBackend : Backend :=
  mkBackend (fun _ _ => Thrown notFound) (permissions_list smallBackend)
            (about_get smallBackend) (files_list smallBackend)
            (spreadsheets_get smallBackend)
            (values_get smallBackend) (values_update smallBackend)
            (batchUpdate smallBackend).

Definition formatArgs (fileId range : jsstring) (f : Formatting) : Args :=
  mkArgs None (Some fileId) None (Some range) None (Some f).

End ToolNotions.
(* ================================================================= *)
(** * Properties *)

Module JSFacts.

Lemma eqs_true (a b : jsstring) : eqs a b = true <-> a = b.
Proof.
  revert b. induction a as [|x a IH]; intros [|y b]; cbn; try (split; congruence).
  rewrite andb_true_iff, N.eqb_eq, IH. split.
  - intros [-> ->]. reflexivity.
  - intros E. injection E. auto.
Qed.

Lemma eqs_false (a b : jsstring) : eqs a b = false <-> a <> b.
Proof.
  rewrite <- eqs_true. destruct (eqs a b); split; congruence.
Qed.

Lemma eqs_refl (a : jsstring) : eqs a a = true.
Proof. now apply eqs_true. Qed.

End JSFacts.
Import JSFacts.

(* ================================================================= *)
(** ** Column letters *)

Module ColumnFacts.

Lemma isUpper_spec (c : N) : isUpper c = true <-> (65 <= c <= 90)%N.
Proof.
  unfold isUpper. rewrite andb_true_iff, !N.leb_le. reflexivity.
Qed.

Lemma isUpper_digit (c : N) : isUpper c = true -> 1 <= digit c <= 26.
Proof. rewrite isUpper_spec. unfold digit. lia. Qed.

Lemma exactLoop_snoc (s : jsstring) (c : N) :
  exactLoop (s ++ [c]) = exactLoop s * 26 + digit c.
Proof. unfold exactLoop; now rewrite fold_left_app. Qed.

(** The loop started from any accumulator. *)
Lemma fold_exactStep (s : jsstring) :
  forall acc, fold_left exactStep s acc
              = acc * 26 ^ Z.of_nat (List.length s) + positional s.
Proof.
  induction s as [|c r IH]; intros acc.
  - simpl; lia.
  - cbn [fold_left positional List.length]. rewrite IH. unfold exactStep, digit.
    rewrite Nat2Z.inj_succ, Z.pow_succ_r by lia. ring.
Qed.

Lemma exactLoop_positional (s : jsstring) : exactLoop s = positional s.
Proof. unfold exactLoop; rewrite fold_exactStep; lia. Qed.

Lemma rval_cons (c : N) (r : jsstring) : rval (c :: r) = rval r * 26 + digit c.
Proof. unfold rval; simpl; apply exactLoop_snoc. Qed.

Lemma rval_nonneg (rs : jsstring) : letters rs -> 0 <= rval rs.
Proof.
  induction 1 as [|c r Hc _ IH]; [reflexivity|].
  rewrite rval_cons. apply isUpper_digit in Hc. lia.
Qed.

Lemma rval_pos (rs : jsstring) : letters rs -> rs <> [] -> 1 <= rval rs.
Proof.
  destruct 1 as [|c r Hc Hr]; [congruence|]; intros _.
  rewrite rval_cons. apply isUpper_digit in Hc. apply rval_nonneg in Hr. lia.
Qed.

Lemma rval_inj (rs : jsstring) :
  letters rs -> forall rt, letters rt -> rval rs = rval rt -> rs = rt.
Proof.
  induction 1 as [|c r Hc Hr IH]; intros rt Ht E.
  - destruct rt as [|d t]; [reflexivity|].
    assert (1 <= rval (d :: t)) by (apply rval_pos; [assumption|discriminate]).
    change (rval []) with 0 in E. lia.
  - destruct Ht as [|d t Hd Ht].
    + assert (1 <= rval (c :: r))
        by (apply rval_pos; [now constructor|discriminate]).
      change (rval []) with 0 in E. lia.
    + rewrite !rval_cons in E.
      pose proof (isUpper_digit _ Hc). pose proof (isUpper_digit _ Hd).
      assert (rval r = rval t) by lia.
      assert (digit c = digit d) by lia.
      f_equal; [unfold digit in *; lia | now apply IH].
Qed.

Lemma letters_rev (s : jsstring) : letters s -> letters (rev s).
Proof. apply Forall_rev. Qed.

Lemma incr_letters (rs : jsstring) : letters rs -> letters (incr rs).
Proof.
  induction 1 as [|c r Hc Hr IH]; simpl.
  - now repeat constructor.
  - destruct (N.eqb_spec c 90).
    + constructor; [reflexivity|assumption].
    + constructor; [|assumption].
      apply isUpper_spec in Hc. apply isUpper_spec. lia.
Qed.

Lemma incr_rval (rs : jsstring) : rval (incr rs) = rval rs + 1.
Proof.
  induction rs as [|c r IH]; simpl.
  - reflexivity.
  - destruct (N.eqb_spec c 90).
    + rewrite !rval_cons, IH. subst c. unfold digit. lia.
    + rewrite !rval_cons. unfold digit. lia.
Qed.

Lemma nextColumn_letters (s : jsstring) : letters s -> letters (nextColumn s).
Proof. intros H. apply letters_rev, incr_letters, letters_rev, H. Qed.

Lemma nextColumn_loop (s : jsstring) : exactLoop (nextColumn s) = exactLoop s + 1.
Proof.
  unfold nextColumn. change (exactLoop (rev (incr (rev s)))) with (rval (incr (rev s))).
  rewrite incr_rval. unfold rval. now rewrite rev_involutive.
Qed.

(** Stepping one column to the right adds one to the index. *)
Lemma exactIndex_next (s : jsstring) :
  exactLoop (nextColumn s) - 1 = exactLoop s - 1 + 1.
Proof. rewrite nextColumn_loop. lia. Qed.

Lemma nthColumn_letters (n : nat) : letters (nthColumn n).
Proof.
  induction n; simpl; [now repeat constructor | now apply nextColumn_letters].
Qed.

Lemma nthColumn_number (n : nat) : exactLoop (nthColumn n) - 1 = Z.of_nat n.
Proof.
  induction n as [|n IH].
  - reflexivity.
  - cbn [nthColumn]. rewrite exactIndex_next, IH. lia.
Qed.

Lemma exactLoop_inj (s t : jsstring) :
  letters s -> letters t -> exactLoop s = exactLoop t -> s = t.
Proof.
  intros Hs Ht E.
  rewrite <- (rev_involutive s), <- (rev_involutive t). f_equal.
  apply rval_inj; try now apply letters_rev.
  unfold rval. now rewrite !rev_involutive.
Qed.

Lemma exactLoop_pos (s : jsstring) : letters s -> s <> [] -> 1 <= exactLoop s.
Proof.
  intros Hs Hne. rewrite <- (rev_involutive s).
  apply (rval_pos (rev s)); [now apply letters_rev|].
  intros E. apply Hne. rewrite <- (rev_involutive s), E. reflexivity.
Qed.

(** Every value the exact loop holds is below 2^53 for names of up to
    eleven letters, far beyond any sheet's width. *)
Lemma exactLoop_bound (s : jsstring) :
  letters s -> 25 * exactLoop s <= 26 ^ Z.of_nat (S (List.length s)) - 26.
Proof.
  intros Hs. induction s as [|c s IH] using rev_ind.
  - simpl. lia.
  - apply Forall_app in Hs. destruct Hs as [Hs Hc].
    specialize (IH Hs). inversion Hc as [|? ? Hc' _]; subst.
    apply isUpper_digit in Hc'.
    rewrite exactLoop_snoc, length_app. cbn [List.length].
    replace (S (List.length s + 1)) with (S (S (List.length s))) by lia.
    rewrite (Nat2Z.inj_succ (S _)), Z.pow_succ_r by lia. lia.
Qed.

Lemma exactLoop_safe_integer (p q : jsstring) :
  letters (p ++ q) -> (List.length (p ++ q) <= 11)%nat -> 0 <= exactLoop p < 2 ^ 53.
Proof.
  intros H L. apply Forall_app in H. destruct H as [Hp _].
  rewrite length_app in L.
  pose proof (exactLoop_bound _ Hp) as B.
  split.
  - rewrite <- (rev_involutive p). apply (rval_nonneg (rev p)). now apply letters_rev.
  - assert (26 ^ Z.of_nat (S (List.length p)) <= 26 ^ 12)
      by (apply Z.pow_le_mono_r; lia).
    assert (26 ^ 12 < 25 * 2 ^ 53) by (vm_compute; reflexivity).
    lia.
Qed.

(** *** Rounding *)

Lemma pow2_53_1024 : 2 ^ 53 < 2 ^ 1024.
Proof. apply Z.pow_lt_mono_r; lia. Qed.

(** An integer of magnitude below 2^53 is a double. *)
Lemma toNumber_small (n : Z) : - 2 ^ 53 < n < 2 ^ 53 -> toNumber n = Int n.
Proof.
  intros H. unfold toNumber, roundMag.
  assert (Ha : Z.abs n < 2 ^ 53) by lia.
  apply Z.ltb_lt in Ha. rewrite Ha.
  assert (Hb : (2 ^ 1024 <=? Z.abs n) = false).
  { apply Z.leb_gt. pose proof pow2_53_1024. apply Z.ltb_lt in Ha. lia. }
  rewrite Hb. destruct (Z.ltb_spec n 0); f_equal; lia.
Qed.

Lemma columnStep_exact (a : Z) (c : N) :
  0 <= a -> isUpper c = true -> exactStep a c < 2 ^ 53 ->
  columnStep (Int a) c = Int (exactStep a c).
Proof.
  intros Ha Hc Hb. apply isUpper_digit in Hc. unfold digit in Hc.
  unfold columnStep, exactStep in *. cbn [mul26].
  rewrite toNumber_small by lia. cbn [addZ]. now rewrite toNumber_small by lia.
Qed.

(** On names of up to eleven letters the loop of the source is the exact
    loop: no step rounds. *)
Lemma fold_columnStep_exact (q p : jsstring) :
  letters (p ++ q) -> (List.length (p ++ q) <= 11)%nat ->
  fold_left columnStep q (Int (exactLoop p)) = Int (exactLoop (p ++ q)).
Proof.
  revert p. induction q as [|c q IH]; intros p Hl Hn.
  - now rewrite app_nil_r.
  - cbn [fold_left].
    assert (E : p ++ c :: q = (p ++ [c]) ++ q) by now rewrite <- app_assoc.
    rewrite E in Hl, Hn |- *.
    pose proof (exactLoop_safe_integer p ([c] ++ q)) as Hp.
    pose proof (exactLoop_safe_integer (p ++ [c]) q Hl Hn) as Hpc.
    rewrite <- app_assoc in Hl, Hn. specialize (Hp Hl Hn).
    rewrite app_assoc in Hl, Hn.
    assert (Hc : isUpper c = true).
    { apply Forall_app in Hl. destruct Hl as [Hl _].
      apply Forall_app in Hl. destruct Hl as [_ Hl]. now inversion Hl. }
    rewrite exactLoop_snoc in Hpc.
    rewrite columnStep_exact; [| lia | exact Hc | unfold exactStep; fold (digit c); lia].
    replace (exactStep (exactLoop p) c) with (exactLoop (p ++ [c]))
      by (rewrite exactLoop_snoc; reflexivity).
    now apply IH.
Qed.

Lemma columnLoop_exact (s : jsstring) :
  letters s -> (List.length s <= 11)%nat -> columnLoop s = Int (exactLoop s).
Proof. intros Hl Hn. exact (fold_columnStep_exact s [] Hl Hn). Qed.

Lemma columnLetterToNumber_exact (s : jsstring) :
  letters s -> (List.length s <= 11)%nat ->
  columnLetterToNumber s = Int (positional s - 1).
Proof.
  intros Hl Hn. unfold columnLetterToNumber.
  rewrite (columnLoop_exact s Hl Hn). cbn [addZ].
  pose proof (exactLoop_safe_integer s [] ) as Hb.
  rewrite app_nil_r in Hb. specialize (Hb Hl Hn).
  rewrite toNumber_small by lia. now rewrite exactLoop_positional.
Qed.

(** C4, as amended. For every non-empty string of at most eleven uppercase
    letters, [columnLetterToNumber] is the string read as a base-26
    positional numeral with digits A=1..Z=26, less one; that number is the
    string's 0-based position in the sequence of columns A, B, ..., Z, AA,
    AB, ...; and on "A", "Z", "AA" and "AZ" it is 0, 25, 26 and 51. *)
Theorem columnLetterToNumber_correct (column : jsstring) :
  letters column -> column <> [] -> (List.length column <= 11)%nat ->
  columnLetterToNumber column = Int (positional column - 1)
  /\ 0 <= positional column - 1
  /\ nthColumn (Z.to_nat (positional column - 1)) = column
  /\ columnLetterToNumber $"A" = Int 0
  /\ columnLetterToNumber $"Z" = Int 25
  /\ columnLetterToNumber $"AA" = Int 26
  /\ columnLetterToNumber $"AZ" = Int 51.
Proof.
  intros Hl Hne Hn.
  pose proof (exactLoop_pos _ Hl Hne) as Hpos.
  rewrite exactLoop_positional in Hpos.
  split; [now apply columnLetterToNumber_exact|].
  split; [lia|].
  split.
  - apply exactLoop_inj; [apply nthColumn_letters | assumption |].
    pose proof (nthColumn_number (Z.to_nat (positional column - 1))) as E.
    rewrite Z2Nat.id in E by lia.
    rewrite (exactLoop_positional column). lia.
  - repeat split; vm_compute; reflexivity.
Qed.

Lemma columnLetterToNumber_correct_witness :
  columnLetterToNumber $"ZZ" = Int (positional $"ZZ" - 1)
  /\ 0 <= positional $"ZZ" - 1
  /\ nthColumn (Z.to_nat (positional $"ZZ" - 1)) = $"ZZ"
  /\ columnLetterToNumber $"A" = Int 0
  /\ columnLetterToNumber $"Z" = Int 25
  /\ columnLetterToNumber $"AA" = Int 26
  /\ columnLetterToNumber $"AZ" = Int 51.
Proof.
  apply (columnLetterToNumber_correct $"ZZ").
  - repeat constructor.
  - discriminate.
  - cbn. lia.
Defined.

(** C4, the claim refuted: the twelve-letter name ZZZZZZZZZZZZ is a
    non-empty string of uppercase letters whose 0-based position is
    99246114928149461; the loop's last sum and the final subtraction are
    rounded to doubles, and [columnLetterToNumber] returns
    99246114928149472. *)
Lemma twelve_letters_are_rounded :
  forallb isUpper $"ZZZZZZZZZZZZ" = true
  /\ positional $"ZZZZZZZZZZZZ" - 1 = 99246114928149461
  /\ columnLetterToNumber $"ZZZZZZZZZZZZ" = Int 99246114928149472.
Proof. repeat split; vm_compute; reflexivity. Qed.

End ColumnFacts.

(* ================================================================= *)
(** ** The read-only query guard *)

Module QueryFacts.
Import MySql.

Section Guard.

Variable Row : Type.
Variable JSON_stringify : list Row -> jsstring.
Variable pool : list Ev -> Outcome (Connection Row).

Lemma countEv_app (p : Ev -> bool) (a b : list Ev) :
  countEv p (a ++ b) = (countEv p a + countEv p b)%nat.
Proof. unfold countEv. now rewrite filter_app, length_app. Qed.

(** The try block itself neither rolls back nor releases: it records the
    [beginTransaction] call and, when that succeeded, the query. *)
Lemma queryBody_trace (c : Connection Row) (sql : option jsstring) (tr : list Ev) :
  snd (queryBody JSON_stringify c sql tr)
  = tr ++ EvBegin (conn_id c)
          :: match ask_begin c tr with
             | Returned _ => [EvQuery (conn_id c) sql []]
             | Thrown _ => []
             end.
Proof.
  unfold queryBody, bind, beginTransaction, query, call, ret.
  destruct (ask_begin c tr); cbn.
  - destruct (ask_query c sql [] (tr ++ [EvBegin (conn_id c)])); cbn;
      now rewrite <- app_assoc.
  - reflexivity.
Qed.

Lemma callTool_query_run (c : Connection Row) (sql : option jsstring) (tr0 : list Ev) :
  pool tr0 = Returned c ->
  let tr1 := tr0 ++ [EvAcquire (conn_id c)] in
  let body := EvBegin (conn_id c)
              :: match ask_begin c tr1 with
                 | Returned _ => [EvQuery (conn_id c) sql []]
                 | Thrown _ => []
                 end in
  callTool JSON_stringify pool (mkRequest $"query" sql) tr0
  = (fst (queryBody JSON_stringify c sql tr1),
     tr0 ++ guardEvents c body (tr1 ++ body)).
Proof.
  intros Hpool tr1 body.
  unfold callTool. cbn [req_name req_sql]. rewrite eqs_refl.
  unfold bind at 1. unfold getConnection. rewrite Hpool.
  fold tr1. unfold tryFinally, tryCatch at 1.
  pose proof (queryBody_trace c sql tr1) as Htr. fold body in Htr.
  destruct (queryBody JSON_stringify c sql tr1) as [o trb]. cbn [fst snd] in *.
  subst trb.
  assert (Hfin :
    (bind (tryCatch (rollback c)
             (fun error => console_warn $"Could not roll back transaction:" error))
          (fun _ => release c)) (tr1 ++ body)
    = (Returned tt, tr0 ++ guardEvents c body (tr1 ++ body))).
  { unfold bind, tryCatch, rollback, call, console_warn, release, emit, guardEvents.
    destruct (ask_rollback c (tr1 ++ body)); unfold tr1;
      repeat (rewrite <- ?app_assoc; cbn [app]); reflexivity. }
  destruct o as [r|e]; unfold throw; rewrite Hfin; reflexivity.
Qed.

(** C1. Whatever the SQL text and whatever the database answers to
    [beginTransaction], [query] and [rollback]: once the pool has handed out
    a connection, the query tool's handler ends having released that
    connection exactly once (as its last action) and having called
    [rollback] on it exactly once; its completion, value or thrown error,
    is that of the try block alone, so a failing rollback changes nothing
    of it and only adds one warning line carrying the rollback's error. *)
Theorem query_guard_releases_once (c : Connection Row) (sql : option jsstring)
        (tr0 : list Ev) :
  pool tr0 = Returned c ->
  let run := callTool JSON_stringify pool (mkRequest $"query" sql) tr0 in
  let tr1 := tr0 ++ [EvAcquire (conn_id c)] in
  exists body : list Ev,
    snd (queryBody JSON_stringify c sql tr1) = tr1 ++ body
    /\ snd run = tr0 ++ guardEvents c body (tr1 ++ body)
    /\ fst run = fst (queryBody JSON_stringify c sql tr1)
    /\ countEv (isRelease (conn_id c)) (guardEvents c body (tr1 ++ body)) = 1%nat
    /\ countEv (isRollback (conn_id c)) (guardEvents c body (tr1 ++ body)) = 1%nat
    /\ last (guardEvents c body (tr1 ++ body)) (EvAcquire 0) = EvRelease (conn_id c)
    /\ countEv isWarn (guardEvents c body (tr1 ++ body))
       = match ask_rollback c (tr1 ++ body) with
         | Returned _ => 0%nat
         | Thrown _ => 1%nat
         end.
Proof.
  intros Hpool run tr1.
  pose proof (callTool_query_run c sql tr0 Hpool) as Hrun.
  cbv zeta in Hrun. fold tr1 in Hrun. fold run in Hrun.
  pose proof (queryBody_trace c sql tr1) as Hbody.
  set (body := EvBegin (conn_id c)
               :: match ask_begin c tr1 with
                  | Returned _ => [EvQuery (conn_id c) sql []]
                  | Thrown _ => []
                  end) in *.
  exists body.
  rewrite Hrun. cbn [fst snd].
  repeat split; try assumption.
  all: unfold guardEvents, body, countEv;
    destruct (ask_begin c tr1); destruct (ask_rollback c _);
    cbn; rewrite ?Nat.eqb_refl; reflexivity.
Qed.

(** When the pool hands out no connection, nothing was acquired and nothing
    is released: the pool's error is the handler's. *)
Lemma query_without_connection (e : Exn) (sql : option jsstring) (tr0 : list Ev) :
  pool tr0 = Thrown e ->
  callTool JSON_stringify pool (mkRequest $"query" sql) tr0 = (Thrown e, tr0).
Proof.
  intros Hpool. unfold callTool. cbn [req_name]. rewrite eqs_refl.
  unfold bind, getConnection. now rewrite Hpool.
Qed.

End Guard.

Lemma query_guard_releases_once_witness :
  exists body : list Ev,
    snd (queryBody (fun _ => $"[]") sampleConnection (Some $"DELETE FROM t")
           ([] ++ [EvAcquire 7])) = ([] ++ [EvAcquire 7]) ++ body
    /\ snd (callTool (fun _ => $"[]") (fun _ => Returned sampleConnection)
              (mkRequest $"query" (Some $"DELETE FROM t")) [])
       = [] ++ guardEvents sampleConnection body (([] ++ [EvAcquire 7]) ++ body)
    /\ fst (callTool (fun _ => $"[]") (fun _ => Returned sampleConnection)
              (mkRequest $"query" (Some $"DELETE FROM t")) [])
       = fst (queryBody (fun _ => $"[]") sampleConnection (Some $"DELETE FROM t")
                ([] ++ [EvAcquire 7]))
    /\ countEv (isRelease 7)
         (guardEvents sampleConnection body (([] ++ [EvAcquire 7]) ++ body)) = 1%nat
    /\ countEv (isRollback 7)
         (guardEvents sampleConnection body (([] ++ [EvAcquire 7]) ++ body)) = 1%nat
    /\ last (guardEvents sampleConnection body (([] ++ [EvAcquire 7]) ++ body))
            (EvAcquire 0) = EvRelease 7
    /\ countEv isWarn
         (guardEvents sampleConnection body (([] ++ [EvAcquire 7]) ++ body)) = 1%nat.
Proof.
  apply (query_guard_releases_once unit (fun _ : list unit => $"[]")
           (fun _ => Returned sampleConnection)
           sampleConnection (Some $"DELETE FROM t") []).
  reflexivity.
Defined.

End QueryFacts.

(* ================================================================= *)
(** ** Resource URIs of the MySQL server *)

Module UriFacts.
Import MySql.

(** Boolean tests on code units as arithmetic facts. *)
Ltac unbool :=
  repeat first
    [ rewrite orb_true_iff in * | rewrite andb_true_iff in *
    | rewrite orb_false_iff in * | rewrite andb_false_iff in *
    | rewrite negb_true_iff in * | rewrite negb_false_iff in *
    | rewrite N.leb_le in * | rewrite N.leb_gt in *
    | rewrite N.eqb_eq in * | rewrite N.eqb_neq in *
    | rewrite N.ltb_lt in * | rewrite N.ltb_ge in * ].

Ltac charfacts :=
  unfold identChar, plainChar, authorityChar, URL.authorityEnd, URL.modelled,
    URL.pathEncodeSet, URL.schemeChar, URL.userChar, URL.hostChar, URL.isAlpha,
    URL.memN, existsb, isDigit, isLower, isUpper in *;
  unbool; lia.

Lemma identChar_range (c : N) :
  identChar c = true ->
  (48 <= c <= 57 \/ 97 <= c <= 122 \/ 65 <= c <= 90 \/ c = 36 \/ c = 95)%N.
Proof. intros H. charfacts. Qed.

Lemma identChar_plain (c : N) : identChar c = true -> plainChar c = true.
Proof. intros H. apply identChar_range in H. charfacts. Qed.

Lemma identChar_not_colon (c : N) : identChar c = true -> (c =? 58)%N = false.
Proof. intros H. apply identChar_range in H. unbool. lia. Qed.

Lemma plainChar_modelled (c : N) : plainChar c = true -> URL.modelled c = true.
Proof. unfold plainChar. intros H. unbool. tauto. Qed.

Lemma plainChar_step (c : N) :
  plainChar c = true ->
  (c =? 47)%N = false /\ ((c =? 63)%N || (c =? 35)%N) = false
  /\ URL.pathEncodeSet c = false.
Proof. intros H. repeat split; charfacts. Qed.

Lemma schemeChar_modelled (c : N) : URL.schemeChar c = true -> URL.modelled c = true.
Proof. intros H. charfacts. Qed.

Lemma authorityChar_modelled (c : N) : authorityChar c = true -> URL.modelled c = true.
Proof. unfold authorityChar. intros H. unbool. tauto. Qed.

Lemma forallb_impl {A} (p q : A -> bool) (l : list A) :
  (forall x, p x = true -> q x = true) -> forallb p l = true -> forallb q l = true.
Proof. rewrite !forallb_forall. auto. Qed.

Lemma forallb_removelast {A} (p : A -> bool) (l : list A) :
  forallb p l = true -> forallb p (removelast l) = true.
Proof.
  induction l as [|a [|b l] IH]; cbn [removelast forallb]; auto.
  intros H. apply andb_prop in H. destruct H as [Ha Hl].
  rewrite Ha. now apply IH.
Qed.

(** *** [span] *)

Lemma span_stop (p : N -> bool) (a : jsstring) (c : N) (r : jsstring) :
  forallb p a = true -> p c = false -> span p (a ++ c :: r) = (a, c :: r).
Proof.
  intros Ha Hc. induction a as [|x a IH]; cbn.
  - now rewrite Hc.
  - cbn in Ha. apply andb_prop in Ha. destruct Ha as [Hx Ha].
    rewrite Hx, (IH Ha). reflexivity.
Qed.

Lemma span_snd_forall (p q : N -> bool) (s : jsstring) :
  forallb q s = true -> forallb q (snd (span p s)) = true.
Proof.
  induction s as [|c r IH]; cbn; [reflexivity|].
  intros H. destruct (p c).
  - apply andb_prop in H. destruct H as [_ Hr].
    specialize (IH Hr). destruct (span p r). exact IH.
  - exact H.
Qed.

Lemma hasScheme_no_colon (s : jsstring) :
  forallb (fun c => negb (c =? 58)%N) s = true -> URL.hasScheme s = false.
Proof.
  intros H. unfold URL.hasScheme. destruct s as [|c r]; [reflexivity|].
  pose proof (span_snd_forall URL.schemeChar _ _ H) as Hs.
  destruct (snd (span URL.schemeChar (c :: r))) as [|c' r'].
  - apply andb_false_r.
  - cbn in Hs. apply andb_prop in Hs. destruct Hs as [Hc' _].
    apply negb_true_iff in Hc'. rewrite Hc'. apply andb_false_r.
Qed.

(** *** The path state on segments that need no encoding *)

Lemma pathState_plain (seg : jsstring) :
  forallb plainChar seg = true ->
  forall r p buffer,
    URL.pathState (seg ++ r) p buffer = URL.pathState r p (buffer ++ seg).
Proof.
  induction seg as [|c seg IH]; intros H r p buffer.
  - now rewrite app_nil_r.
  - cbn in H. apply andb_prop in H. destruct H as [Hc Hseg].
    destruct (plainChar_step c Hc) as (H1 & H2 & H3).
    cbn [app URL.pathState]. rewrite H1, H2, H3.
    rewrite (IH Hseg). now rewrite <- app_assoc.
Qed.

Lemma closeSegment_plain (p : list jsstring) (seg : jsstring) (slash : bool) :
  plainSegment seg = true -> URL.closeSegment p seg slash = p ++ [seg].
Proof.
  unfold plainSegment, URL.closeSegment. intros H.
  apply andb_prop in H. destruct H as [H Hdd]. apply andb_prop in H.
  destruct H as [_ Hsd]. apply negb_true_iff in Hdd, Hsd.
  now rewrite Hdd, Hsd.
Qed.

Lemma join_cons (sep s : jsstring) (rest : list jsstring) :
  rest <> [] -> join sep (s :: rest) = s ++ sep ++ join sep rest.
Proof. destruct rest; [congruence | reflexivity]. Qed.

Lemma pathState_segments (segs : list jsstring) :
  forallb plainSegment segs = true ->
  forall final, plainSegment final = true ->
  forall acc,
    URL.pathState (join $"/" (segs ++ [final])) acc [] = (acc ++ segs ++ [final], []).
Proof.
  induction segs as [|s segs IH]; intros Hsegs final Hfinal acc.
  - cbn [app join].
    rewrite <- (app_nil_r final) at 1.
    rewrite pathState_plain.
    + cbn. now rewrite closeSegment_plain.
    + unfold plainSegment in Hfinal. apply andb_prop in Hfinal.
      destruct Hfinal as [Hf _]. apply andb_prop in Hf. tauto.
  - cbn [forallb] in Hsegs. apply andb_prop in Hsegs. destruct Hsegs as [Hs Hsegs].
    cbn [app]. rewrite join_cons by (destruct segs; discriminate).
    rewrite pathState_plain.
    + cbn [app str utf16_of_utf8 map list_ascii_of_string N_of_ascii N.ltb N.compare
             URL.pathState].
      change (URL.pathState (join $"/" (segs ++ [final]))
                (URL.closeSegment acc s true) []
              = (acc ++ s :: segs ++ [final], [])).
      rewrite closeSegment_plain by assumption.
      rewrite (IH Hsegs final Hfinal). now rewrite <- app_assoc.
    + unfold plainSegment in Hs. apply andb_prop in Hs.
      destruct Hs as [Hs _]. apply andb_prop in Hs. tauto.
Qed.

Lemma pathname_join (s : jsstring) (segs : list jsstring) :
  flat_map (fun seg => 47%N :: seg) (s :: segs) = 47%N :: join $"/" (s :: segs).
Proof.
  revert s. induction segs as [|s' segs IH]; intros s.
  - cbn. now rewrite app_nil_r.
  - rewrite join_cons by discriminate.
    cbn [flat_map] in *. rewrite IH. reflexivity.
Qed.

(** *** Authorities *)

Lemma span_spec (p : N -> bool) (s : jsstring) :
  s = fst (span p s) ++ snd (span p s) /\ forallb p (fst (span p s)) = true.
Proof.
  induction s as [|c r IH]; cbn [span]; [now split|].
  destruct (p c) eqn:E; [|now split].
  destruct (span p r) as [a b]. cbn [fst snd app forallb] in *.
  destruct IH as [IH1 IH2]. split; [now f_equal | now rewrite E, IH2].
Qed.

Lemma validHostPort_chars (hp : jsstring) :
  URL.validHostPort hp = true -> forallb authorityChar hp = true.
Proof.
  unfold URL.validHostPort. destruct (span_spec URL.hostChar hp) as [E Hh].
  destruct (span URL.hostChar hp) as [h rest]. cbn [fst snd] in *. subst hp.
  assert (Hhost : forallb authorityChar h = true).
  { eapply forallb_impl; [|exact Hh]. intros x Hx. charfacts. }
  destruct h as [|c0 h']; [discriminate|].
  destruct rest as [|c port]; intros H.
  - now rewrite app_nil_r.
  - apply andb_prop in H. destruct H as [Hc Hp]. apply N.eqb_eq in Hc. subst c.
    rewrite forallb_app, Hhost. cbn [andb forallb].
    change (authorityChar 58) with true. cbn [andb].
    unfold URL.validPort in Hp. destruct port as [|d port']; [discriminate|].
    repeat (apply andb_prop in Hp; destruct Hp as [Hp ?]).
    eapply forallb_impl; [|eassumption]. intros x Hx. charfacts.
Qed.

Lemma validAuthority_chars (a : jsstring) :
  URL.validAuthority a = true -> forallb authorityChar a = true.
Proof.
  unfold URL.validAuthority. destruct (span_spec URL.userChar a) as [E Hu].
  destruct (span URL.userChar a) as [u rest]. cbn [fst snd] in *.
  destruct u as [|c0 u']; [apply validHostPort_chars|].
  destruct rest as [|c hp]; [apply validHostPort_chars|].
  destruct (N.eqb_spec c 64) as [->|_]; [|apply validHostPort_chars].
  intros H. apply validHostPort_chars in H. rewrite E.
  rewrite forallb_app. apply andb_true_intro. split.
  - eapply forallb_impl; [|exact Hu]. intros x Hx. charfacts.
  - cbn [forallb]. now rewrite H.
Qed.

(** *** Reading back a serialised URL *)

Lemma parse_href (sch a : jsstring) (s : jsstring) (segs : list jsstring) :
  wfBase (URL.mk sch (Some a) (s :: segs) None None) = true ->
  URL.parse (URL.href (URL.mk sch (Some a) (s :: segs) None None))
  = Some (URL.mk sch (Some a) (s :: segs) None None).
Proof.
  unfold wfBase. cbn [URL.scheme URL.authority URL.path].
  intros H. repeat (apply andb_prop in H; destruct H as [H ?]).
  match goal with Hs : negb (URL.special sch) = true |- _ =>
    apply negb_true_iff in Hs end.
  match goal with Hl : eqs (map URL.lower sch) sch = true |- _ =>
    apply eqs_true in Hl end.
  match goal with Hv : URL.validAuthority a = true |- _ =>
    pose proof (validAuthority_chars a Hv) as Hac; rename Hv into Hva end.
  unfold URL.href, URL.pathname. cbn [URL.scheme URL.authority URL.path URL.query
                                       URL.fragment].
  rewrite pathname_join, !app_nil_r.
  set (rest := join $"/" (s :: segs)).
  change (sch ++ $":" ++ ($"//" ++ a) ++ 47%N :: rest)
    with (sch ++ 58%N :: 47%N :: 47%N :: a ++ 47%N :: rest).
  assert (Hspan : span URL.schemeChar (sch ++ 58%N :: 47%N :: 47%N :: a ++ 47%N :: rest)
                  = (sch, 58%N :: 47%N :: 47%N :: a ++ 47%N :: rest))
    by (apply span_stop; [assumption | reflexivity]).
  assert (Hmod : forallb URL.modelled (sch ++ 58%N :: 47%N :: 47%N :: a ++ 47%N :: rest)
                 = true).
  { rewrite forallb_app. apply andb_true_intro. split.
    - eapply forallb_impl; [exact schemeChar_modelled | assumption].
    - cbn [forallb]. change (URL.modelled 58 && (URL.modelled 47 && (URL.modelled 47
        && forallb URL.modelled (a ++ 47%N :: rest))))
        with (forallb URL.modelled (a ++ 47%N :: rest)).
      rewrite forallb_app. apply andb_true_intro. split.
      + eapply forallb_impl; [exact authorityChar_modelled | assumption].
      + unfold rest. rewrite <- pathname_join.
        rewrite forallb_forall. intros x Hx. apply in_flat_map in Hx.
        destruct Hx as (seg & Hseg & Hx).
        destruct Hx as [<- | Hx]; [reflexivity|].
        match goal with Hp : forallb plainSegment (s :: segs) = true |- _ =>
          rewrite forallb_forall in Hp; specialize (Hp seg Hseg) end.
        unfold plainSegment in *. unbool.
        apply plainChar_modelled.
        match goal with Hp : (forallb plainChar seg = true /\ _) /\ _ |- _ =>
          destruct Hp as [[Hp _] _]; rewrite forallb_forall in Hp; now apply Hp end. }
  assert (Hsch : URL.hasScheme (sch ++ 58%N :: 47%N :: 47%N :: a ++ 47%N :: rest) = true).
  { unfold URL.hasScheme. rewrite Hspan. cbn [snd].
    destruct sch as [|c sch']; [discriminate|]. cbn [app].
    match goal with Ha : URL.isAlpha c = true |- _ => rewrite Ha end. reflexivity. }
  unfold URL.parse. rewrite Hmod, Hsch, Hspan. cbn [negb orb].
  match goal with Hl : map URL.lower sch = sch |- _ => rewrite Hl end.
  match goal with Hs : URL.special sch = false |- _ => rewrite Hs end.
  cbn [skipn].
  change (startsWith $"//" (47%N :: 47%N :: a ++ 47%N :: rest)) with true.
  cbv iota.
  rewrite span_stop; [| eapply forallb_impl; [|eassumption]
                      | reflexivity].
  2:{ intros x Hx. unfold authorityChar in Hx. unbool. tauto. }
  rewrite Hva. cbn [negb].
  change (startsWith $"/" (47%N :: rest)) with true. cbv iota. cbn [skipn].
  unfold rest.
  destruct (exists_last (l := s :: segs) ltac:(discriminate)) as (front & final & E).
  rewrite E.
  match goal with Hp : forallb plainSegment (s :: segs) = true |- _ =>
    rewrite E, forallb_app in Hp; apply andb_prop in Hp; destruct Hp as [Hf Hl] end.
  cbn [forallb] in Hl. rewrite andb_true_r in Hl.
  rewrite (pathState_segments front Hf final Hl []). reflexivity.
Qed.

(** *** Splitting a pathname *)

Lemma split_nonempty (sep : N) (s : jsstring) : split sep s <> [].
Proof.
  destruct s as [|c r]; cbn; [discriminate|].
  destruct (c =? sep)%N; [discriminate|]. destruct (split sep r); discriminate.
Qed.

Lemma split_app_nosep (sep : N) (s x : jsstring) :
  forallb (fun c => negb (c =? sep)%N) s = true ->
  split sep (s ++ x) = (s ++ hd [] (split sep x)) :: tl (split sep x).
Proof.
  induction s as [|c s IH]; intros H.
  - cbn. pose proof (split_nonempty sep x). destruct (split sep x); [congruence|].
    reflexivity.
  - cbn in H. apply andb_prop in H. destruct H as [Hc Hs].
    apply negb_true_iff in Hc. cbn [app split]. rewrite Hc, (IH Hs). reflexivity.
Qed.

Lemma split_pathname (segs : list jsstring) :
  forallb (forallb (fun c => negb (c =? 47)%N)) segs = true ->
  split 47 (flat_map (fun seg => 47%N :: seg) segs) = [] :: segs.
Proof.
  induction segs as [|s segs IH]; intros H; [reflexivity|].
  cbn in H. apply andb_prop in H. destruct H as [Hs Hsegs].
  cbn [flat_map app split]. change (47 =? 47)%N with true. cbv iota.
  rewrite (split_app_nosep _ _ _ Hs), (IH Hsegs). cbn. now rewrite app_nil_r.
Qed.

Lemma pop_snoc {A} (l : list A) (x : A) : pop (l ++ [x]) = (Some x, l).
Proof. unfold pop. rewrite rev_app_distr. cbn. now rewrite rev_involutive. Qed.

Lemma pop_last (l : list jsstring) :
  l <> [] -> fst (pop l) = Some (last l []).
Proof.
  intros H. destruct (exists_last H) as (front & x & ->).
  rewrite pop_snoc, last_last. reflexivity.
Qed.

Lemma plainSegment_no_slash (s : jsstring) :
  plainSegment s = true -> forallb (fun c => negb (c =? 47)%N) s = true.
Proof.
  unfold plainSegment. intros H. unbool. destruct H as [[H _] _].
  eapply forallb_impl; [|exact H]. intros x Hx. unfold plainChar in Hx. unbool. tauto.
Qed.

(** *** Table names *)

Lemma lower_ident (c : N) :
  identChar c = true -> URL.lower c <> 37%N /\ URL.lower c <> 46%N.
Proof.
  intros H. apply identChar_range in H. unfold URL.lower, isUpper.
  destruct ((65 <=? c)%N && (c <=? 90)%N) eqn:E; unbool; lia.
Qed.

Lemma validTableName_plain (t : jsstring) :
  validTableName t = true -> plainSegment t = true.
Proof.
  unfold validTableName, plainSegment. destruct t as [|c t]; [discriminate|].
  intros H. pose proof H as H'. cbn [forallb] in H'. apply andb_prop in H'.
  destruct H' as [Hc _].
  destruct (lower_ident c Hc) as [L1 L2].
  assert (c <> 46%N) by (apply identChar_range in Hc; lia).
  apply andb_true_intro; split; [apply andb_true_intro; split|].
  - eapply forallb_impl; [exact identChar_plain | exact H].
  - apply negb_true_iff. unfold URL.isSingleDot. apply orb_false_iff. split;
      apply eqs_false; cbn; congruence.
  - apply negb_true_iff. unfold URL.isDoubleDot. cbv zeta.
    repeat (apply orb_false_iff; split); apply eqs_false; cbn; congruence.
Qed.

Lemma relative_table (base : URL.t) (t : jsstring) :
  wfBase base = true -> validTableName t = true ->
  URL.relative (t ++ $"/" ++ SCHEMA_PATH) base
  = Some (URL.mk (URL.scheme base) (URL.authority base)
                 (URL.shorten (URL.path base) ++ [t; SCHEMA_PATH]) None None).
Proof.
  intros Hb Ht.
  pose proof (validTableName_plain t Ht) as Hplain.
  unfold validTableName in Ht. destruct t as [|c t]; [discriminate|].
  set (name := c :: t) in *.
  assert (Hid : forallb identChar (name ++ $"/" ++ SCHEMA_PATH)
                = forallb identChar name && false).
  { rewrite forallb_app. reflexivity. }
  assert (Hmod : forallb URL.modelled (name ++ $"/" ++ SCHEMA_PATH) = true).
  { rewrite forallb_app. apply andb_true_intro. split; [|reflexivity].
    eapply forallb_impl; [|exact Ht]. intros x Hx.
    apply plainChar_modelled, identChar_plain, Hx. }
  assert (Hns : URL.hasScheme (name ++ $"/" ++ SCHEMA_PATH) = false).
  { apply hasScheme_no_colon. rewrite forallb_app. apply andb_true_intro.
    split; [|reflexivity].
    eapply forallb_impl; [|exact Ht]. intros x Hx.
    apply negb_true_iff, identChar_not_colon, Hx. }
  assert (Hsp : URL.special (URL.scheme base) = false).
  { unfold wfBase in Hb. unbool. tauto. }
  unfold URL.relative. rewrite Hmod, Hns, Hsp. cbn [negb orb].
  assert (Hc : identChar c = true)
    by (cbn [forallb] in Ht; apply andb_prop in Ht; tauto).
  destruct (plainChar_step c (identChar_plain c Hc)) as (H1 & H2 & _).
  apply orb_false_iff in H2. destruct H2 as [H2 H3].
  unfold name at 1. cbn [app]. rewrite H1, H2, H3.
  change (name ++ $"/" ++ SCHEMA_PATH) with (join $"/" ([name] ++ [SCHEMA_PATH])).
  rewrite (pathState_segments [name]); [reflexivity | | reflexivity].
  cbn [forallb]. now rewrite Hplain.
Qed.

Lemma wfBase_shorten (base : URL.t) (t : jsstring) :
  wfBase base = true -> validTableName t = true ->
  wfBase (URL.mk (URL.scheme base) (URL.authority base)
                 (URL.shorten (URL.path base) ++ [t; SCHEMA_PATH]) None None) = true.
Proof.
  intros Hb Ht. unfold wfBase in *. cbn [URL.scheme URL.authority URL.path].
  repeat (apply andb_prop in Hb; destruct Hb as [Hb ?]).
  repeat (apply andb_true_intro; split); try assumption.
  rewrite forallb_app. apply andb_true_intro. split.
  - now apply forallb_removelast.
  - cbn [forallb]. rewrite (validTableName_plain t Ht). reflexivity.
Qed.

Lemma href_table (base : URL.t) (t : jsstring) :
  wfBase base = true ->
  URL.href (URL.mk (URL.scheme base) (URL.authority base)
                   (URL.shorten (URL.path base) ++ [t; SCHEMA_PATH]) None None)
  = baseDirectory base ++ $"/" ++ t ++ $"/" ++ SCHEMA_PATH.
Proof.
  intros Hb. unfold baseDirectory, URL.href, URL.pathname.
  cbn [URL.scheme URL.authority URL.path URL.query URL.fragment].
  assert (exists a, URL.authority base = Some a) as [a ->].
  { unfold wfBase in Hb. destruct (URL.authority base); [eauto|].
    rewrite andb_false_r in Hb. discriminate. }
  rewrite flat_map_app. cbn [flat_map].
  rewrite !app_nil_r, <- !app_assoc. reflexivity.
Qed.

Lemma decode_path (platform : UrlPlatform) (uri : jsstring) (u : URL.t)
      (front : list jsstring) (t : jsstring) :
  URL.parse uri = Some u ->
  split 47 (URL.pathname u) = front ++ [t; SCHEMA_PATH] ->
  decodeUri platform uri = Returned (Some t, Some SCHEMA_PATH).
Proof.
  intros Hp Hs. unfold decodeUri, urlPathname. rewrite Hp, Hs.
  change (front ++ [t; SCHEMA_PATH]) with (front ++ [t] ++ [SCHEMA_PATH]).
  rewrite app_assoc, pop_snoc, pop_snoc. now rewrite eqs_refl.
Qed.

(** The URI built for an unquoted table name, and how it reads back. *)
Lemma table_uri (platform : UrlPlatform) (base : URL.t) (t : jsstring) :
  wfBase base = true -> validTableName t = true ->
  resourceUri base platform t
  = Some (baseDirectory base ++ $"/" ++ t ++ $"/" ++ SCHEMA_PATH)
  /\ decodeUri platform (baseDirectory base ++ $"/" ++ t ++ $"/" ++ SCHEMA_PATH)
     = Returned (Some t, Some SCHEMA_PATH).
Proof.
  intros Hb Ht.
  pose proof (relative_table base t Hb Ht) as Hrel.
  pose proof (href_table base t Hb) as Hhref.
  pose proof (wfBase_shorten base t Hb Ht) as Hwf.
  split.
  - unfold resourceUri. rewrite Hrel. now rewrite Hhref.
  - rewrite <- Hhref.
    assert (exists a, URL.authority base = Some a) as [a Ha].
    { unfold wfBase in Hb. destruct (URL.authority base); [eauto|].
      rewrite andb_false_r in Hb. discriminate. }
    rewrite Ha in *.
    set (dir := URL.shorten (URL.path base)) in *.
    assert (Hparse :
      URL.parse (URL.href (URL.mk (URL.scheme base) (Some a)
                             (dir ++ [t; SCHEMA_PATH]) None None))
      = Some (URL.mk (URL.scheme base) (Some a) (dir ++ [t; SCHEMA_PATH]) None None)).
    { destruct dir as [|d dir']; cbn [app] in *; now apply parse_href. }
    apply (decode_path platform _ _ ([] :: dir) t Hparse).
    unfold URL.pathname. cbn [URL.path].
    apply split_pathname.
    unfold wfBase in Hwf. cbn [URL.path] in Hwf.
    apply andb_prop in Hwf. destruct Hwf as [_ Hsegs].
    eapply forallb_impl; [|exact Hsegs]. exact plainSegment_no_slash.
Qed.

(** C3, as amended. For a base URL as the parser leaves one and a table
    name that MySQL accepts unquoted (ASCII letters, digits, [$] and [_]): the
    resource URI built for the table is <base directory>/<table name>/schema;
    reading it back (the pathname split on [/], the last segment taken as
    the view and the one before it as the table name) gives the same table
    name and the view "schema".  And for every URI: where the [URL]
    constructor throws, reading it back throws that error; where it answers
    a pathname, reading back throws "Invalid resource URI" exactly when the
    last segment of the pathname is not "schema", and returns a pair with
    the view "schema" otherwise. *)
Theorem resource_uri_round_trip (platform : UrlPlatform) (base : URL.t)
        (tableName : jsstring) :
  wfBase base = true ->
  validTableName tableName = true ->
  resourceUri base platform tableName
  = Some (baseDirectory base ++ $"/" ++ tableName ++ $"/" ++ SCHEMA_PATH)
  /\ decodeUri platform (baseDirectory base ++ $"/" ++ tableName ++ $"/" ++ SCHEMA_PATH)
     = Returned (Some tableName, Some SCHEMA_PATH)
  /\ forall uri,
       (urlPathname platform uri = None ->
        decodeUri platform uri = Thrown (Error $"Invalid URL"))
       /\ forall pathname,
            urlPathname platform uri = Some pathname ->
            (decodeUri platform uri = Thrown (Error $"Invalid resource URI")
             <-> last (split 47 pathname) [] <> SCHEMA_PATH)
            /\ (last (split 47 pathname) [] = SCHEMA_PATH ->
                exists t, decodeUri platform uri = Returned (t, Some SCHEMA_PATH)).
Proof.
  intros Hb Ht.
  destruct (table_uri platform base tableName Hb Ht) as [Huri Hback].
  split; [exact Huri|]. split; [exact Hback|].
  intros uri. split.
  - intros Hp. unfold decodeUri. now rewrite Hp.
  - intros pathname Hp.
    pose proof (split_nonempty 47 pathname) as Hne.
    pose proof (pop_last _ Hne) as Hpop.
    unfold decodeUri. rewrite Hp.
    destruct (pop (split 47 pathname)) as [schema rest].
    cbn [fst] in Hpop. subst schema.
    destruct (pop rest) as [t rest'].
    destruct (eqs (last (split 47 pathname) []) SCHEMA_PATH) eqn:E.
    + apply eqs_true in E. split.
      * split; [discriminate | congruence].
      * intros _. exists t. now rewrite E.
    + apply eqs_false in E. split.
      * split; [intros _; exact E | reflexivity].
      * congruence.
Qed.

Lemma resource_uri_round_trip_witness :
  resourceUri defaultBase strictPlatform $"catalog_product_entity"
  = Some (baseDirectory defaultBase ++ $"/" ++ $"catalog_product_entity"
          ++ $"/" ++ SCHEMA_PATH)
  /\ decodeUri strictPlatform
       (baseDirectory defaultBase ++ $"/" ++ $"catalog_product_entity"
        ++ $"/" ++ SCHEMA_PATH)
     = Returned (Some $"catalog_product_entity", Some SCHEMA_PATH)
  /\ forall uri,
       (urlPathname strictPlatform uri = None ->
        decodeUri strictPlatform uri = Thrown (Error $"Invalid URL"))
       /\ forall pathname,
            urlPathname strictPlatform uri = Some pathname ->
            (decodeUri strictPlatform uri = Thrown (Error $"Invalid resource URI")
             <-> last (split 47 pathname) [] <> SCHEMA_PATH)
            /\ (last (split 47 pathname) [] = SCHEMA_PATH ->
                exists t, decodeUri strictPlatform uri = Returned (t, Some SCHEMA_PATH)).
Proof.
  apply (resource_uri_round_trip strictPlatform defaultBase $"catalog_product_entity");
    reflexivity.
Defined.

(** The resource URI of the default database for a table, spelled out. *)
Example resource_uri_default :
  resourceUri defaultBase strictPlatform $"sales_order"
  = Some $"mysql://magento@localhost:3306/sales_order/schema".
Proof. reflexivity. Qed.

(** C3, the claim refuted: MySQL accepts the quoted table name
    [order?details]; its [?] starts the query of the URI built for it, the
    pathname of that URI ends in "order", and reading the URI back throws
    "Invalid resource URI" instead of giving the table name, whatever the
    platform does outside the part modelled. *)
Lemma quoted_name_not_round_trip :
  validTableName $"order?details" = false
  /\ (forall platform,
        resourceUri defaultBase platform $"order?details"
        = Some $"mysql://magento@localhost:3306/order?details/schema"
        /\ urlPathname platform $"mysql://magento@localhost:3306/order?details/schema"
           = Some $"/order"
        /\ decodeUri platform $"mysql://magento@localhost:3306/order?details/schema"
           = Thrown (Error $"Invalid resource URI")).
Proof. split; [reflexivity|]. intros platform. repeat split; reflexivity. Qed.

End UriFacts.

(* ================================================================= *)
(** ** The tool dispatcher of the Drive server *)

Module DispatchFacts.
Import GDrive GDriveServer Samples.

Section Dispatch.

Variable pf : Platform.
Variable be : Backend.

(** *** The search filter *)

Lemma escapeQuery_cons (c : N) (q : jsstring) :
  escapeQuery (c :: q)
  = (if (c =? 92)%N then [92; 92]%N
     else if (c =? 39)%N then [92; 39]%N else [c])
    ++ escapeQuery q.
Proof.
  unfold escapeQuery, replaceAll. cbn [flat_map].
  rewrite flat_map_app. f_equal.
  destruct (N.eqb_spec c 92) as [->|H92]; [reflexivity|].
  cbn. rewrite app_nil_r. reflexivity.
Qed.

(** Read as the body of a quoted literal, the escaped text is the user's
    text: no quote of the input ends the literal early. *)
Lemma readLiteral_escapeQuery (q : jsstring) : readLiteral (escapeQuery q) = Some q.
Proof.
  induction q as [|c q IH]; [reflexivity|].
  rewrite escapeQuery_cons.
  destruct (N.eqb_spec c 92) as [->|H92].
  - cbn. now rewrite IH.
  - destruct (N.eqb_spec c 39) as [->|H39].
    + cbn. now rewrite IH.
    + cbn [app readLiteral].
      apply N.eqb_neq in H92, H39. rewrite H92, H39, IH. reflexivity.
Qed.

(** C10. For every query text [q] given to the search tool, the one call
    made is [drive.files.list] with the filter [fullText contains '<q'>'],
    [q'] being [q] with every backslash doubled and then every single quote
    preceded by a backslash (page size 10 and the field list of the
    source); read back as a quoted literal, [q'] is exactly [q], so no
    quote of the input stands unescaped inside the literal. *)
Theorem search_filter_escaped (q : jsstring) (fileId sheetName range : option jsstring)
        (values : option (list (list Cell))) (formatting : option Formatting)
        (tr : list Ev) :
  snd (callTool pf be
         (mkRequest $"search"
            (Some (mkArgs (Some q) fileId sheetName range values formatting))) tr)
  = tr ++ [EvFilesList
             ($"fullText contains '"
              ++ replaceAll 39 [92; 39]%N (replaceAll 92 [92; 92]%N q) ++ $"'")
             10 $"files(id, name, mimeType, modifiedTime, size)"]
  /\ readLiteral (replaceAll 39 [92; 39]%N (replaceAll 92 [92; 92]%N q)) = Some q.
Proof.
  split; [|apply readLiteral_escapeQuery].
  unfold callTool. cbn [req_name]. change (eqs $"search" $"search") with true.
  cbv iota. unfold search, arg. cbn [req_arguments a_query deref].
  unfold bind, ret, call.
  destruct (files_list be (formatQuery q) tr); reflexivity.
Qed.

(** *** What leaves the handler *)

(** A failure of the Drive call of the search tool leaves the handler as a
    thrown error: there is no [try] around it. *)
Lemma search_propagates (q : jsstring) (e : Exn) (tr : list Ev) :
  files_list be (formatQuery q) tr = Thrown e ->
  fst (callTool pf be (mkRequest $"search" (Some (searchArgs q))) tr) = Thrown e.
Proof.
  intros H. unfold callTool. cbn [req_name]. change (eqs $"search" $"search") with true.
  cbv iota. unfold search, arg. cbn [req_arguments searchArgs a_query deref].
  unfold bind, ret, call. now rewrite H.
Qed.

(** A [try] whose [catch] returns a result never throws. *)
Lemma tryCatch_returns {A} (m : M Ev A) (h : Exn -> A) (tr : list Ev) :
  exists a tr', tryCatch m (fun err => ret (h err)) tr = (Returned a, tr').
Proof.
  unfold tryCatch, ret. destruct (m tr) as [[a|e] tr']; eauto.
Qed.

(** The four sheet tools return a result on every path: whatever the
    arguments and whatever the services answer, a failure comes back as a
    result with [isError] set, or the call succeeds. *)
Lemma sheet_tools_never_throw (request : CallToolRequest) (tr : list Ev) :
  In (req_name request) [$"list_sheets"; $"read_sheet"; $"edit_sheet"; $"format_sheet"] ->
  exists result tr', callTool pf be request tr = (Returned result, tr').
Proof.
  intros Hin. unfold callTool.
  cbn [In] in Hin. destruct Hin as [E|[E|[E|[E|[]]]]]; rewrite <- E;
    cbn [eqs N.eqb Pos.eqb andb str utf16_of_utf8 map list_ascii_of_string N_of_ascii
         N.ltb N.compare Pos.compare Pos.compare_cont];
    apply tryCatch_returns.
Qed.

(** A name that is none of the five tools: the handler throws. *)
Lemma unknown_tool_throws (request : CallToolRequest) (tr : list Ev) :
  ~ In (req_name request) toolNames ->
  callTool pf be request tr = (Thrown (Error $"Tool not found"), tr).
Proof.
  intros Hnot. unfold callTool, toolNames in *. cbn [In] in Hnot.
  repeat match goal with
         | |- context [eqs (req_name request) ?n] =>
             let E := fresh "E" in
             destruct (eqs (req_name request) n) eqn:E;
             [apply eqs_true in E; exfalso; apply Hnot; rewrite E; tauto|]
         end.
  reflexivity.
Qed.

End Dispatch.

(** C2. The search tool with the text "report", against a Drive whose
    calls fail with "Rate Limit Exceeded": the name is that of a
    registered tool, and the handler ends by throwing that backend error;
    no result with [isError] set is produced. *)
Theorem search_backend_failure_is_thrown :
  In $"search" toolNames
  /\ callTool samplePlatform failingBackend
       (mkRequest $"search" (Some (searchArgs $"report"))) []
     = (Thrown backendFailure,
        [EvFilesList $"fullText contains 'report'" 10
           $"files(id, name, mimeType, modifiedTime, size)"]).
Proof. split; [now left | reflexivity]. Qed.

End DispatchFacts.

(* ================================================================= *)
(** ** The range of a whole sheet *)

Module RangeFacts.
Import GDrive GDriveServer Samples.

(** *** Finding a sheet by its title *)

Lemma titled_test (name : jsstring) (s : Sheet) :
  match properties s with
  | Some p => match title p with
              | Some t => eqs t name
              | None => false
              end
  | None => false
  end = true <-> titled name s.
Proof.
  unfold titled. split.
  - destruct (properties s) as [p|]; [|discriminate].
    destruct (title p) as [t|] eqn:Et; [|discriminate].
    intros E. apply eqs_true in E. subst t. now exists p.
  - intros (p & -> & ->). apply eqs_refl.
Qed.

(** The sheet found is the first of the list that carries the name. *)
Lemma findSheet_first (metadata : SpreadsheetData) (name : jsstring)
      (before after : list Sheet) (sheet : Sheet) :
  sheets metadata = Some (before ++ sheet :: after) ->
  (forall s, In s before -> ~ titled name s) ->
  titled name sheet ->
  findSheet metadata name = Some sheet.
Proof.
  intros Hs Hb Ht. unfold findSheet. rewrite Hs. clear Hs.
  induction before as [|s before IH]; cbn [app find].
  - apply titled_test in Ht. now rewrite Ht.
  - destruct (match properties s with Some _ => _ | None => _ end) eqn:E.
    + apply titled_test in E. destruct (Hb s (or_introl eq_refl) E).
    + apply IH. intros s' Hin. apply Hb. now right.
Qed.

(** No sheet is found when none of the list carries the name. *)
Lemma findSheet_none (metadata : SpreadsheetData) (name : jsstring) :
  (forall l s, sheets metadata = Some l -> In s l -> ~ titled name s) ->
  findSheet metadata name = None.
Proof.
  intros H. unfold findSheet. destruct (sheets metadata) as [l|]; [|reflexivity].
  specialize (H l). induction l as [|s l IH]; [reflexivity|]. cbn [find].
  destruct (match properties s with Some _ => _ | None => _ end) eqn:E.
  - apply titled_test in E. destruct (H s eq_refl (or_introl eq_refl) E).
  - apply IH. intros s' _ Hin. apply (H s' eq_refl). now right.
Qed.

Section Range.

Variable be : Backend.


End Range.


(** The whole tool on that book: the values are asked for [Data!A1:C10]. *)
Example read_sheet_asks_for_whole_sheet :
  snd (callTool samplePlatform smallBackend
         (mkRequest $"read_sheet"
            (Some (mkArgs None (Some $"file1") (Some $"Data") None None None))) [])
  = [EvAboutGet $"user(emailAddress)";
     EvFilesGet $"file1" $"id,mimeType,capabilities(canReadRevisions,canEdit),permissions";
     EvPermissionsList $"file1" $"permissions(role,type,emailAddress)";
     EvSpreadsheetsGet $"file1" [] $"sheets.properties";
     EvValuesGet $"file1" $"Data!A1:C10" $"FORMATTED_VALUE" $"ROWS"].
Proof. reflexivity. Qed.

(** *** Index to letter *)

(** For the first 26 columns the letter written is the column's name, and
    converting it back gives the index. *)
Lemma indexToLetter_single (i : nat) :
  (i < 26)%nat ->
  indexToLetter (Z.of_nat i) = nthColumn i
  /\ columnLetterToNumber (indexToLetter (Z.of_nat i)) = Int (Z.of_nat i).
Proof.
  intros H.
  do 26 (destruct i as [|i]; [split; vm_compute; reflexivity|]).
  lia.
Qed.

(** Read back by [columnLetterToNumber], which takes any code unit for a
    letter, the text written gives the index again, also where it is no
    column name. *)
Lemma indexToLetter_number (i : Z) :
  0 <= i <= 701 -> columnLetterToNumber (indexToLetter i) = Int i.
Proof.
  intros H. unfold indexToLetter, lastColumnLetter, fromCharCode, orZ.
  destruct (Z.eqb_spec (i + 1) 0); [lia|].
  unfold columnLetterToNumber, columnLoop, columnStep. cbn [fold_left mul26].
  rewrite Z.mod_small by lia. rewrite Z2N.id by lia.
  assert (E0 : toNumber (0 * 26) = Int 0) by (vm_compute; reflexivity).
  rewrite E0. cbn [addZ].
  rewrite ColumnFacts.toNumber_small
    by (change (2 ^ 53) with 9007199254740992; lia).
  cbn [addZ].
  rewrite ColumnFacts.toNumber_small
    by (change (2 ^ 53) with 9007199254740992; lia).
  f_equal. lia.
Qed.

(** C5. The column of index 26 is "AA", and the letter-to-index conversion
    maps "AA" to 26; the conversion used for a sheet's whole range writes
    the code unit 91, "[", for it, which is no column name, and a sheet named
    "Wide" with 27 columns and 10 rows resolves to the range "Wide!A1:[10". *)
Theorem indexToLetter_not_inverse_at_26 :
  nthColumn 26 = $"AA"
  /\ columnLetterToNumber $"AA" = Int 26
  /\ (forall i, columnLetterToNumber $"AA" = Int i -> indexToLetter i = $"[")
  /\ indexToLetter 26 = $"["
  /\ forallb isUpper (indexToLetter 26) = false
  /\ wholeSheetRange $"Wide" (sheetWith $"Wide" 10 27) = $"Wide!A1:[10".
Proof.
  assert (E : columnLetterToNumber $"AA" = Int 26) by (vm_compute; reflexivity).
  repeat split; try reflexivity; try exact E.
  intros i Hi. rewrite E in Hi. injection Hi as <-. reflexivity.
Qed.

End RangeFacts.

(* ================================================================= *)
(** ** The format object and its field mask *)

Module FormatFacts.
Import GDrive GDriveServer Samples.

(** *** Invariants of the trace of a handler *)

Section Preserves.

Variable P : list Ev -> Prop.

Lemma preserves_ret {A} (a : A) : preserves P (ret a).
Proof. intros tr H. exact H. Qed.

Lemma preserves_throw {A} (e : Exn) : preserves P (@throw Ev A e).
Proof. intros tr H. exact H. Qed.

Lemma preserves_deref {A} (o : option A) : preserves P (@deref Ev A o).
Proof. destruct o; [apply preserves_ret | apply preserves_throw]. Qed.

Lemma preserves_bind {A B} (m : M Ev A) (k : A -> M Ev B) :
  preserves P m -> (forall a, preserves P (k a)) -> preserves P (bind m k).
Proof.
  intros Hm Hk tr H. unfold bind. specialize (Hm tr H).
  destruct (m tr) as [[a|e] tr']; cbn [snd] in *; [now apply Hk | assumption].
Qed.

Lemma preserves_tryCatch {A} (m : M Ev A) (h : Exn -> M Ev A) :
  preserves P m -> (forall e, preserves P (h e)) -> preserves P (tryCatch m h).
Proof.
  intros Hm Hh tr H. unfold tryCatch. specialize (Hm tr H).
  destruct (m tr) as [[a|e] tr']; cbn [snd] in *; [assumption | now apply Hh].
Qed.

Lemma preserves_call {A} (ev : Ev) (ask : list Ev -> Outcome A) :
  (forall tr, P tr -> P (tr ++ [ev])) -> preserves P (call ev ask).
Proof. intros Hev tr H. now apply Hev. Qed.

Lemma preserves_emit (ev : Ev) :
  (forall tr, P tr -> P (tr ++ [ev])) -> preserves P (emit ev).
Proof. intros Hev tr H. now apply Hev. Qed.

End Preserves.

(** *** Keys and mask *)

Section Mask.

Variable pf : Platform.

Lemma keys_userFormatting (f : Formatting) :
  keys (userFormatting pf f) = expectedKeys f.
Proof.
  unfold userFormatting, expectedKeys, withVerticalAlignment, withHorizontalAlignment,
    withItalic, withBold, withFontSize, withTextColor, withBackgroundColor.
  destruct (truthyS (backgroundColor f)), (truthyS (textColor f)),
    (truthyZ (fontSize f)), (bold f), (italic f),
    (truthyS (horizontalAlignment f)), (truthyS (verticalAlignment f));
    vm_compute; reflexivity.
Qed.

Lemma maskNames_fieldMask (f : Formatting) :
  maskNames (fieldMask (userFormatting pf f)) = keys (userFormatting pf f).
Proof.
  unfold fieldMask. rewrite keys_userFormatting. unfold expectedKeys.
  destruct (truthyS (backgroundColor f));
    destruct (truthyS (textColor f) || truthyZ (fontSize f)
              || match bold f with Some _ => true | None => false end
              || match italic f with Some _ => true | None => false end);
    destruct (truthyS (horizontalAlignment f));
    destruct (truthyS (verticalAlignment f)); vm_compute; reflexivity.
Qed.

Lemma expectedKeys_NoDup (f : Formatting) : NoDup (expectedKeys f).
Proof.
  unfold expectedKeys.
  destruct (truthyS (backgroundColor f));
    destruct (truthyS (textColor f) || truthyZ (fontSize f)
              || match bold f with Some _ => true | None => false end
              || match italic f with Some _ => true | None => false end);
    destruct (truthyS (horizontalAlignment f));
    destruct (truthyS (verticalAlignment f)); cbn [app];
    repeat (constructor; [cbn; intuition discriminate|]); constructor.
Qed.

Variable be : Backend.

Ltac other_event :=
  solve [intros ? ?; apply Forall_app; split; [assumption | repeat constructor]].

Ltac step :=
  first
    [ apply preserves_ret | apply preserves_throw | apply preserves_deref
    | apply preserves_bind; [|intros ?]
    | apply preserves_tryCatch; [|intros ?]
    | apply preserves_call; other_event
    | apply preserves_emit; other_event
    | match goal with
      | |- preserves _ (match ?x with _ => _ end) => destruct x
      | |- preserves _ (if ?c then _ else _) => destruct c
      end ].

Lemma getCurrentUserEmail_masked : preserves (Forall maskedEv) (getCurrentUserEmail be).
Proof. unfold getCurrentUserEmail. repeat step. Qed.

Lemma verifyFileAccess_masked (fileId : jsstring) (requireEdit : bool) :
  preserves (Forall maskedEv) (verifyFileAccess be fileId requireEdit).
Proof.
  unfold verifyFileAccess.
  repeat first [ exact getCurrentUserEmail_masked | step ].
Qed.

Lemma extractFileIdFromUrl_masked (input : option jsstring) :
  preserves (Forall maskedEv) (extractFileIdFromUrl pf input).
Proof. unfold extractFileIdFromUrl. repeat step. Qed.

(** A walk through a handler: the three helpers by their lemmas, the rest
    by its structure. *)
Ltac walk :=
  repeat first
    [ match goal with
      | |- preserves _ (getCurrentUserEmail _) => exact getCurrentUserEmail_masked
      | |- preserves _ (verifyFileAccess _ _ _) => apply verifyFileAccess_masked
      | |- preserves _ (extractFileIdFromUrl _ _) => apply extractFileIdFromUrl_masked
      end
    | step ].

Lemma format_sheet_masked (request : CallToolRequest) :
  preserves (Forall maskedEv) (format_sheet pf be request).
Proof.
  unfold format_sheet, checkAccess, qualifyRange, firstSheetId, gridCorners.
  walk.
  apply preserves_call. intros tr Htr. apply Forall_app. split; [assumption|].
  repeat constructor; unfold repeatCell;
    repeat match goal with p : (_ * _)%type |- _ => destruct p end;
    cbn [fields userEnteredFormat]; [reflexivity | apply maskNames_fieldMask].
Qed.

Lemma callTool_masked (request : CallToolRequest) :
  preserves (Forall maskedEv) (callTool pf be request).
Proof.
  unfold callTool.
  destruct (eqs (req_name request) $"search"); [unfold search; walk|].
  destruct (eqs (req_name request) $"list_sheets"); [unfold list_sheets; walk|].
  destruct (eqs (req_name request) $"read_sheet");
    [unfold read_sheet, checkAccess, resolveReadRange; walk|].
  destruct (eqs (req_name request) $"edit_sheet");
    [unfold edit_sheet, checkAccess, qualifyRange; walk|].
  destruct (eqs (req_name request) $"format_sheet");
    [apply format_sheet_masked | apply preserves_throw].
Qed.

End Mask.

End FormatFacts.

(* ================================================================= *)
(** ** Colours *)

Module ColorFacts.
Import GDrive GDriveServer Samples.

Lemma isHex_value (c : N) : isHex c = true -> 0 <= hexValue c <= 15.
Proof.
  unfold isHex, hexValue, isDigit. intros H.
  destruct ((48 <=? c)%N && (c <=? 57)%N) eqn:D.
  - UriFacts.unbool. lia.
  - cbn [orb] in H. destruct (97 <=? c)%N eqn:L; UriFacts.unbool; lia.
Qed.

Lemma parseInt16_pair (c1 c2 : N) : parseInt16 [c1; c2] = 16 * hexValue c1 + hexValue c2.
Proof. unfold parseInt16. cbn [fold_left]. lia. Qed.

Lemma hexToRgb_digits (c1 c2 c3 c4 c5 c6 : N) :
  forallb isHex [c1; c2; c3; c4; c5; c6] = true ->
  hexToRgb (35%N :: [c1; c2; c3; c4; c5; c6])
  = mkRGB (16 * hexValue c1 + hexValue c2) (16 * hexValue c3 + hexValue c4)
          (16 * hexValue c5 + hexValue c6)
  /\ hexToRgb [c1; c2; c3; c4; c5; c6]
     = mkRGB (16 * hexValue c1 + hexValue c2) (16 * hexValue c3 + hexValue c4)
             (16 * hexValue c5 + hexValue c6).
Proof.
  intros H. unfold hexToRgb, hexGroups.
  change (35 =? 35)%N with true. cbv iota.
  assert (Hc1 : (c1 =? 35)%N = false).
  { cbn [forallb] in H. apply andb_prop in H. destruct H as [H _].
    unfold isHex, isDigit in H. UriFacts.unbool. lia. }
  rewrite Hc1, H, !parseInt16_pair. split; reflexivity.
Qed.

Lemma hexGroups_digits (hex g1 g2 g3 : jsstring) :
  hexGroups hex = Some (g1, g2, g3) ->
  exists c1 c2 c3 c4 c5 c6,
    g1 = [c1; c2] /\ g2 = [c3; c4] /\ g3 = [c5; c6]
    /\ forallb isHex [c1; c2; c3; c4; c5; c6] = true.
Proof.
  unfold hexGroups.
  set (body := match hex with
               | c :: rest => if (c =? 35)%N then rest else hex
               | [] => hex
               end).
  destruct body as [|c1 [|c2 [|c3 [|c4 [|c5 [|c6 [|c7 body]]]]]]]; try discriminate.
  destruct (forallb isHex [c1; c2; c3; c4; c5; c6]) eqn:H; [|discriminate].
  intros E. injection E as <- <- <-. exists c1, c2, c3, c4, c5, c6. auto.
Qed.

Lemma hexToRgb_range (hex : jsstring) :
  0 <= r (hexToRgb hex) <= 255 /\ 0 <= g (hexToRgb hex) <= 255
  /\ 0 <= b (hexToRgb hex) <= 255.
Proof.
  unfold hexToRgb. destruct (hexGroups hex) as [[[g1 g2] g3]|] eqn:E.
  - destruct (hexGroups_digits _ _ _ _ E) as (c1 & c2 & c3 & c4 & c5 & c6 & -> & -> & -> & H).
    cbn [forallb] in H.
    repeat (apply andb_prop in H; destruct H as [?H H]).
    repeat match goal with Hc : isHex _ = true |- _ => apply isHex_value in Hc end.
    rewrite !parseInt16_pair. cbn [r g b]. lia.
  - cbn. lia.
Qed.

Lemma wellFormedHex_groups (hex : jsstring) :
  wellFormedHex hex = true -> hexGroups hex <> None.
Proof.
  unfold wellFormedHex, hexGroups. destruct hex as [|c body]; [discriminate|].
  intros H. apply andb_prop in H. destruct H as [H Hhex].
  apply andb_prop in H. destruct H as [Hc Hlen]. rewrite Hc.
  apply Nat.eqb_eq in Hlen.
  destruct body as [|c1 [|c2 [|c3 [|c4 [|c5 [|c6 [|c7 body]]]]]]]; try discriminate.
  rewrite Hhex. discriminate.
Qed.

(** *** Properties of an object under assignment *)

Lemma getProp_setProp_same (o : Obj) (k : jsstring) (v : JsValue) :
  getProp (setProp o k v) k = Some v.
Proof.
  induction o as [|[k' v'] o IH]; cbn.
  - now rewrite eqs_refl.
  - destruct (eqs k' k) eqn:E; cbn; rewrite E; [reflexivity | exact IH].
Qed.

Lemma getProp_setProp_other (o : Obj) (k k0 : jsstring) (v : JsValue) :
  eqs k k0 = false -> getProp (setProp o k v) k0 = getProp o k0.
Proof.
  intros Hk. induction o as [|[k' v'] o IH]; cbn.
  - now rewrite Hk.
  - destruct (eqs k' k) eqn:E; cbn.
    + apply eqs_true in E. subst k'. now rewrite Hk.
    + destruct (eqs k' k0); [reflexivity | exact IH].
Qed.

Lemma spreadProp_setProp_same (o : Obj) (k : jsstring) (props : Obj) :
  spreadProp (setProp o k (VObj props)) k = props.
Proof. unfold spreadProp. now rewrite getProp_setProp_same. Qed.

Lemma spreadProp_setProp_other (o : Obj) (k k0 : jsstring) (v : JsValue) :
  eqs k k0 = false -> spreadProp (setProp o k v) k0 = spreadProp o k0.
Proof. intros H. unfold spreadProp. now rewrite getProp_setProp_other. Qed.

Section Applied.

Variable pf : Platform.

(** What the later blocks leave of a property they do not assign. *)
Ltac later_blocks :=
  unfold withVerticalAlignment, withHorizontalAlignment, withItalic, withBold,
    withFontSize, withTextColor;
  repeat match goal with
         | |- context [if ?c then _ else _] => destruct c
         | |- context [match ?x with Some _ => _ | None => _ end] => destruct x
         end;
  rewrite ?spreadProp_setProp_same;
  repeat first [ rewrite getProp_setProp_other by reflexivity
               | rewrite spreadProp_setProp_other by reflexivity
               | rewrite spreadProp_setProp_same ];
  try reflexivity.

(** The colour a truthy [backgroundColor] or [textColor] leaves in the
    format object is whatever [hexToRgb] made of it. *)
Lemma backgroundColor_applied (f : Formatting) :
  truthyS (backgroundColor f) = true ->
  getProp (userFormatting pf f) $"backgroundColor"
  = Some (colorObject (hexToRgb (orS (backgroundColor f) []))).
Proof.
  intros H.
  assert (E : getProp (withBackgroundColor f []) $"backgroundColor"
              = Some (colorObject (hexToRgb (orS (backgroundColor f) [])))).
  { unfold withBackgroundColor. rewrite H. apply getProp_setProp_same. }
  unfold userFormatting. revert E. generalize (withBackgroundColor f []). intros o E.
  rewrite <- E. clear E H.
  later_blocks.
Qed.

Lemma textColor_applied (f : Formatting) :
  truthyS (textColor f) = true ->
  getProp (spreadProp (userFormatting pf f) $"textFormat") $"foregroundColor"
  = Some (colorObject (hexToRgb (orS (textColor f) []))).
Proof.
  intros H.
  assert (E : forall o,
             getProp (spreadProp (withTextColor f o) $"textFormat") $"foregroundColor"
             = Some (colorObject (hexToRgb (orS (textColor f) [])))).
  { intros o. unfold withTextColor. rewrite H.
    rewrite spreadProp_setProp_same. apply getProp_setProp_same. }
  unfold userFormatting. specialize (E (withBackgroundColor f [])).
  revert E. generalize (withTextColor f (withBackgroundColor f [])). intros o E.
  rewrite <- E. clear E H.
  unfold withVerticalAlignment, withHorizontalAlignment, withItalic, withBold,
    withFontSize.
  repeat match goal with
         | |- context [if ?c then _ else _] => destruct c
         | |- context [match ?x with Some _ => _ | None => _ end] => destruct x
         end;
  repeat first [ rewrite spreadProp_setProp_other by reflexivity
               | rewrite spreadProp_setProp_same
               | rewrite getProp_setProp_other by reflexivity ];
  reflexivity.
Qed.

(** An empty or absent colour leaves no colour in the format object. *)
Lemma backgroundColor_absent (f : Formatting) :
  truthyS (backgroundColor f) = false ->
  getProp (userFormatting pf f) $"backgroundColor" = None.
Proof.
  intros H. unfold userFormatting, withBackgroundColor. rewrite H.
  later_blocks.
Qed.

Lemma textColor_absent (f : Formatting) :
  truthyS (textColor f) = false ->
  getProp (spreadProp (userFormatting pf f) $"textFormat") $"foregroundColor" = None.
Proof.
  intros H. unfold userFormatting, withTextColor. rewrite H.
  assert (E : getProp (spreadProp (withBackgroundColor f []) $"textFormat")
                      $"foregroundColor" = None).
  { unfold withBackgroundColor. destruct (truthyS (backgroundColor f)); [|reflexivity].
    unfold spreadProp. now rewrite getProp_setProp_other by reflexivity. }
  revert E. generalize (withBackgroundColor f []). intros o E.
  unfold withVerticalAlignment, withHorizontalAlignment, withItalic, withBold,
    withFontSize.
  repeat match goal with
         | |- context [if ?c then _ else _] => destruct c
         | |- context [match ?x with Some _ => _ | None => _ end] => destruct x
         end;
  repeat first [ rewrite spreadProp_setProp_other by reflexivity
               | rewrite spreadProp_setProp_same
               | rewrite getProp_setProp_other by reflexivity ];
  exact E.
Qed.

(** *** The strings the pattern matches *)

Lemma isHex_not_hash : isHex 35 = false.
Proof. reflexivity. Qed.

Lemma length_six {A} (l : list A) :
  List.length l = 6%nat -> exists c1 c2 c3 c4 c5 c6, l = [c1; c2; c3; c4; c5; c6].
Proof.
  destruct l as [|c1 [|c2 [|c3 [|c4 [|c5 [|c6 [|c7 l]]]]]]]; try discriminate.
  intros _. now exists c1, c2, c3, c4, c5, c6.
Qed.

Lemma hexGroups_sixHex (hex : jsstring) : hexGroups hex <> None <-> sixHex hex.
Proof.
  split.
  - intros H. destruct (hexGroups hex) as [[[g1 g2] g3]|] eqn:E; [clear H|congruence].
    unfold hexGroups in E.
    set (body := match hex with
                 | c :: rest => if (c =? 35)%N then rest else hex
                 | [] => hex
                 end) in *.
    assert (Hbody : hex = body \/ hex = 35%N :: body).
    { unfold body. destruct hex as [|c rest]; [now left|].
      destruct (c =? 35)%N eqn:Hc; [right | now left].
      apply N.eqb_eq in Hc. now subst c. }
    exists body. split; [exact Hbody|].
    destruct body as [|c1 [|c2 [|c3 [|c4 [|c5 [|c6 [|c7 body']]]]]]]; try discriminate E.
    destruct (forallb isHex [c1; c2; c3; c4; c5; c6]) eqn:Hh; [|discriminate E].
    split; [reflexivity | now apply Forall_forall, forallb_forall].
  - intros (digits & Hshape & Hlen & Hhex).
    destruct (length_six digits Hlen) as (c1 & c2 & c3 & c4 & c5 & c6 & ->).
    assert (Hb : forallb isHex [c1; c2; c3; c4; c5; c6] = true)
      by now apply forallb_forall, Forall_forall.
    assert (Hc1 : (c1 =? 35)%N = false).
    { apply N.eqb_neq. intros ->. inversion Hhex as [|? ? Hx _]. discriminate Hx. }
    unfold hexGroups. destruct Hshape as [-> | ->].
    + rewrite Hc1, Hb. discriminate.
    + change (35 =? 35)%N with true. cbv iota. rewrite Hb. discriminate.
Qed.

Lemma not_sixHex_black (hex : jsstring) : ~ sixHex hex -> hexToRgb hex = mkRGB 0 0 0.
Proof.
  intros H. unfold hexToRgb.
  destruct (hexGroups hex) as [[[g1 g2] g3]|] eqn:E; [|reflexivity].
  exfalso. apply H, hexGroups_sixHex. now rewrite E.
Qed.

Lemma seven_digits_no_sixHex : ~ sixHex $"#ff00000".
Proof.
  intros (digits & [E | E] & Hlen & Hhex); subst digits || (injection E as <-);
    try discriminate Hlen.
Qed.

End Applied.

End ColorFacts.

(* ================================================================= *)
(** ** Access verification *)

Module AccessFacts.
Import GDrive GDriveServer Samples.

Lemma startsWith_app (p s : jsstring) : startsWith p (p ++ s) = true.
Proof.
  induction p as [|c p IH]; cbn; [now destruct s|].
  now rewrite N.eqb_refl, IH.
Qed.

Lemma includes_here (p s : jsstring) : includes p (p ++ s) = true.
Proof.
  destruct (p ++ s) eqn:E; cbn; rewrite <- E, startsWith_app; reflexivity.
Qed.

Lemma includes_after (p a s : jsstring) : includes p s = true -> includes p (a ++ s) = true.
Proof.
  intros H. induction a as [|c a IH]; [exact H|].
  cbn [app includes]. rewrite IH. apply orb_true_r.
Qed.

(** Both denial messages carry the email they are given. *)
Lemma editDenied_has_email (email : jsstring) :
  includes email (editDeniedMessage email) = true.
Proof.
  unfold editDeniedMessage. do 3 apply includes_after. apply includes_here.
Qed.

Section Policy.

Variable be : Backend.

(** [getCurrentUserEmail] always returns: the address the Drive reports,
    or the empty string. *)
Lemma getCurrentUserEmail_returns (tr : list Ev) :
  exists email tr',
    getCurrentUserEmail be tr = (Returned email, tr')
    /\ (forall about, about_get be tr = Returned about ->
                      email = orS (user_emailAddress about) []).
Proof.
  unfold getCurrentUserEmail, tryCatch, bind, call, ret, emit.
  destruct (about_get be tr) as [about|e].
  - eexists _, _. split; [reflexivity|]. intros a E. now injection E as <-.
  - eexists _, _. split; [reflexivity|]. intros a E. discriminate.
Qed.

(** C9, as amended. For a file that the Drive reports as a spreadsheet
    (its MIME type contains "spreadsheet") and whose permission list it
    answers: when the capabilities do not report [canEdit] as true, a
    verification that requires edit access throws the edit-denied error,
    whose message carries the email of the current identity as
    [getCurrentUserEmail] obtained it; when a permission of type "anyone" or
    "domain" is listed, a verification that does not require edit access
    returns true, also with [canEdit] and the read capability both false. *)
Theorem verifyFileAccess_policy (fileId : jsstring) (file : FileData)
        (perms : PermissionsData) (tr : list Ev) :
  files_get be fileId tr = Returned file ->
  isSpreadsheet file = true ->
  permissions_list be fileId (tr ++ [filesGetEv fileId]) = Returned perms ->
  let tr2 := tr ++ [filesGetEv fileId] ++ [permissionsListEv fileId] in
  (hasEditAccess file = false ->
   exists email tr3,
     getCurrentUserEmail be tr2 = (Returned email, tr3)
     /\ (forall about, about_get be tr2 = Returned about ->
                       email = orS (user_emailAddress about) [])
     /\ verifyFileAccess be fileId true tr
        = (Thrown (Error (editDeniedMessage email)), tr3)
     /\ includes email (editDeniedMessage email) = true)
  /\ (isPublic perms = true ->
      verifyFileAccess be fileId false tr = (Returned true, tr2)).
Proof.
  intros Hfile Hsheet Hperms tr2. subst tr2. rewrite app_assoc.
  unfold filesGetEv, permissionsListEv in *.
  split.
  - intros Hedit.
    match goal with |- context [getCurrentUserEmail be ?t] =>
      destruct (getCurrentUserEmail_returns t) as (email & tr3 & Hmail & Habout) end.
    exists email, tr3. repeat split; try assumption.
    + unfold verifyFileAccess, tryCatch, bind, call.
      rewrite Hfile, Hsheet. cbn [negb]. rewrite Hperms, Hedit. cbn [negb andb].
      rewrite Hmail. reflexivity.
    + apply editDenied_has_email.
  - intros Hpublic.
    unfold verifyFileAccess, tryCatch, bind, call.
    rewrite Hfile, Hsheet. cbn [negb]. rewrite Hperms, Hpublic. reflexivity.
Qed.

End Policy.

Lemma verifyFileAccess_policy_witness :
  (exists email tr3,
     getCurrentUserEmail sharedSheetBackend
       ([] ++ [filesGetEv $"sheet1"] ++ [permissionsListEv $"sheet1"])
     = (Returned email, tr3)
     /\ (forall about,
           about_get sharedSheetBackend
             ([] ++ [filesGetEv $"sheet1"] ++ [permissionsListEv $"sheet1"])
           = Returned about ->
           email = orS (user_emailAddress about) [])
     /\ verifyFileAccess sharedSheetBackend $"sheet1" true []
        = (Thrown (Error (editDeniedMessage email)), tr3)
     /\ includes email (editDeniedMessage email) = true)
  /\ verifyFileAccess sharedSheetBackend $"sheet1" false []
     = (Returned true, [] ++ [filesGetEv $"sheet1"] ++ [permissionsListEv $"sheet1"]).
Proof.
  destruct (verifyFileAccess_policy sharedSheetBackend $"sheet1"
              (mkFileData (Some $"application/vnd.google-apps.spreadsheet")
                 (Some (mkCapabilities (Some false) (Some false))))
              (mkPermissionsData
                 (Some [mkPermission (Some $"reader") (Some $"anyone") None]))
              [] eq_refl eq_refl eq_refl) as [Hedit Hread].
  split; [apply Hedit | apply Hread]; reflexivity.
Defined.

(** C9, the claim refuted: the object is shared with anyone and its
    capabilities report [canEdit] false; a verification that does not
    require edit access fails all the same, and one that does require it
    fails with the error that the file is no spreadsheet, which carries no
    email, both before the permission list is even asked for. *)
Lemma public_object_not_readable :
  verifyFileAccess sharedPdfBackend $"doc1" false []
  = (Thrown (Error notSpreadsheetMessage), [filesGetEv $"doc1"])
  /\ verifyFileAccess sharedPdfBackend $"doc1" true []
     = (Thrown (Error notSpreadsheetMessage), [filesGetEv $"doc1"])
  /\ includes $"reader@example.com" notSpreadsheetMessage = false.
Proof. repeat split; vm_compute; reflexivity. Qed.

End AccessFacts.

(* ================================================================= *)
(** ** The resource handlers of the MySQL server *)

Module MySqlResourceFacts.
Import MySql MySqlNotions.

Section Handlers.

Variable Row : Type.
Variable TABLE_NAME : Row -> jsstring.
Variable JSON_stringify : list Row -> jsstring.
Variable pool : list Ev -> Outcome (Connection Row).
Variable base : URL.t.
Variable platform : UrlPlatform.

(** Building the resources of the rows calls nothing. *)
Lemma mapM_resources (rows : list Row) (tr : list Ev) :
  mapM (fun row =>
          match resourceUri base platform (TABLE_NAME row) with
          | Some u =>
              ret (mkResource u $"application/json"
                     (dquote ++ TABLE_NAME row ++ dquote ++ $" database schema"))
          | None => throw (Error $"Invalid URL")
          end) rows tr
  = (match allSome (map (fun row => resourceOf base platform (TABLE_NAME row)) rows) with
     | Some rs => Returned rs
     | None => Thrown (Error $"Invalid URL")
     end, tr).
Proof.
  induction rows as [|row rows IH]; [reflexivity|].
  cbn [mapM map allSome]. unfold bind at 1, resourceOf at 1.
  destruct (resourceUri base platform (TABLE_NAME row)) as [u|]; cbn [option_map];
    [|reflexivity].
  unfold ret at 1. unfold bind. rewrite IH.
  destruct (allSome _); reflexivity.
Qed.

(** X1. Listing the resources: once the pool has handed out a connection,
    the handler makes one query (the fixed table listing, no parameters)
    and releases the connection exactly once, as its last action, whether
    the query fails, a URI cannot be built, or all goes well; it then
    answers the query's error, "Invalid URL", or one resource per row in the
    order of the rows, each with the URI that the [URL] constructor gives
    for <table name>/schema against the base. *)
Theorem listResources_releases_once (c : Connection Row) (tr0 : list Ev) :
  pool tr0 = Returned c ->
  let tr1 := tr0 ++ [EvAcquire (conn_id c)] in
  listResources TABLE_NAME pool base platform tr0
  = (match ask_query c (Some tablesSql) [] tr1 with
     | Thrown e => Thrown e
     | Returned rows =>
         match allSome (map (fun row => resourceOf base platform (TABLE_NAME row)) rows) with
         | Some rs => Returned rs
         | None => Thrown (Error $"Invalid URL")
         end
     end,
     tr0 ++ [EvAcquire (conn_id c); EvQuery (conn_id c) (Some tablesSql) [];
             EvRelease (conn_id c)]).
Proof.
  intros Hpool tr1.
  unfold listResources, bind at 1, getConnection. rewrite Hpool. fold tr1.
  unfold tryFinally, bind, query, call, release, emit.
  destruct (ask_query c _ [] tr1) as [rows|e].
  - rewrite mapM_resources. unfold tr1. rewrite <- !app_assoc.
    destruct (allSome _); reflexivity.
  - unfold tr1. rewrite <- !app_assoc. reflexivity.
Qed.

Lemma allSome_map {A B} (g : A -> option B) (h : A -> B) (l : list A) :
  (forall a, In a l -> g a = Some (h a)) -> allSome (map g l) = Some (map h l).
Proof.
  induction l as [|a l IH]; intros H; [reflexivity|].
  cbn [map allSome]. rewrite (H a (or_introl eq_refl)), IH; [reflexivity|].
  intros x Hx. apply H. now right.
Qed.

Lemma listResources_valid_rows (rows : list Row) (c : Connection Row) (tr0 : list Ev) :
  wfBase base = true ->
  (forall row, In row rows -> validTableName (TABLE_NAME row) = true) ->
  pool tr0 = Returned c ->
  ask_query c (Some tablesSql) [] (tr0 ++ [EvAcquire (conn_id c)]) = Returned rows ->
  fst (listResources TABLE_NAME pool base platform tr0)
  = Returned
      (map (fun row =>
              mkResource
                (baseDirectory base ++ $"/" ++ TABLE_NAME row ++ $"/" ++ SCHEMA_PATH)
                $"application/json"
                (dquote ++ TABLE_NAME row ++ dquote ++ $" database schema")) rows).
Proof.
  intros Hb Hrows Hpool Hq.
  unfold listResources, bind at 1, getConnection. rewrite Hpool.
  unfold tryFinally, bind, query, call, release, emit.
  rewrite Hq, mapM_resources.
  erewrite allSome_map; [reflexivity|].
  intros row Hin. unfold resourceOf.
  destruct (UriFacts.table_uri platform base (TABLE_NAME row) Hb (Hrows row Hin)) as [-> _].
  reflexivity.
Qed.

Lemma readResource_table (t : jsstring) (c' : Connection Row) (tr' : list Ev) :
  wfBase base = true -> validTableName t = true ->
  pool tr' = Returned c' ->
  snd (readResource JSON_stringify pool platform
         (baseDirectory base ++ $"/" ++ t ++ $"/" ++ SCHEMA_PATH) tr')
  = tr' ++ [EvAcquire (conn_id c');
            EvQuery (conn_id c') (Some columnsSql) [Some t];
            EvRelease (conn_id c')].
Proof.
  intros Hb Ht Hpool'.
  destruct (UriFacts.table_uri platform base t Hb Ht) as [_ Hd].
  unfold readResource. rewrite Hd.
  unfold bind at 1, getConnection. rewrite Hpool'.
  unfold tryFinally, bind, query, call, release, emit, ret.
  destruct (ask_query c' _ [Some t] _); cbn [snd];
    rewrite <- app_assoc; rewrite <- app_assoc; reflexivity.
Qed.

(** X4. What is listed can be read: when every table name the database
    reports is an unquoted identifier, the listing answers one resource per
    table, with the URI <base directory>/<table>/schema, and reading any of
    these URIs queries the columns of exactly that table (and releases its
    connection). *)
Theorem listed_resources_are_readable (rows : list Row) (c : Connection Row)
        (tr0 : list Ev) :
  wfBase base = true ->
  forallb (fun row => validTableName (TABLE_NAME row)) rows = true ->
  pool tr0 = Returned c ->
  ask_query c (Some tablesSql) [] (tr0 ++ [EvAcquire (conn_id c)]) = Returned rows ->
  exists rs,
    fst (listResources TABLE_NAME pool base platform tr0) = Returned rs
    /\ map uri rs
       = map (fun row => baseDirectory base ++ $"/" ++ TABLE_NAME row ++ $"/" ++ SCHEMA_PATH)
             rows
    /\ forall row c' tr',
         In row rows ->
         pool tr' = Returned c' ->
         snd (readResource JSON_stringify pool platform
                (baseDirectory base ++ $"/" ++ TABLE_NAME row ++ $"/" ++ SCHEMA_PATH) tr')
         = tr' ++ [EvAcquire (conn_id c');
                   EvQuery (conn_id c') (Some columnsSql) [Some (TABLE_NAME row)];
                   EvRelease (conn_id c')].
Proof.
  intros Hb Hrows Hpool Hq.
  rewrite forallb_forall in Hrows.
  eexists. split; [|split].
  - exact (listResources_valid_rows rows c tr0 Hb Hrows Hpool Hq).
  - rewrite map_map. reflexivity.
  - intros row c' tr' Hin Hpool'. apply readResource_table; auto.
Qed.

Lemma pop_twice {A} (l : list A) :
  fst (pop l) = lastOf l /\ fst (pop (snd (pop l))) = secondToLast l.
Proof.
  unfold pop, lastOf, secondToLast.
  destruct (rev l) as [|x r]; cbn [fst snd nth_error]; [split; reflexivity|].
  rewrite rev_involutive. destruct r; split; reflexivity.
Qed.

Lemma decodeUri_cases (uri : jsstring) :
  match urlPathname platform uri with
  | None => decodeUri platform uri = Thrown (Error $"Invalid URL")
  | Some pathname =>
      (lastOf (split 47 pathname) <> Some SCHEMA_PATH
       /\ decodeUri platform uri = Thrown (Error $"Invalid resource URI"))
      \/ (lastOf (split 47 pathname) = Some SCHEMA_PATH
          /\ decodeUri platform uri
             = Returned (secondToLast (split 47 pathname), Some SCHEMA_PATH))
  end.
Proof.
  unfold decodeUri. destruct (urlPathname platform uri) as [pathname|]; [|reflexivity].
  destruct (pop_twice (split 47 pathname)) as [H1 H2].
  destruct (pop (split 47 pathname)) as [schema rest]. cbn [fst snd] in *.
  destruct (pop rest) as [t rest']. cbn [fst] in *. subst schema t.
  destruct (lastOf (split 47 pathname)) as [s|].
  - destruct (eqs s SCHEMA_PATH) eqn:E.
    + apply eqs_true in E. subst s. right. split; reflexivity.
    + apply eqs_false in E. left. split; [congruence | reflexivity].
  - left. split; [discriminate | reflexivity].
Qed.

(** X2. Reading a resource.  A URI that the [URL] constructor refuses is
    refused with its error, and a URI whose pathname, split on [/], does
    not end in the segment "schema" is refused with "Invalid resource URI",
    both before the pool is touched.  Otherwise the handler asks the pool
    for a connection; if there is none, it throws the pool's error; once a
    connection is handed out, it makes one query, the fixed column listing
    with the segment before the last one (or nothing, if there is none) as
    its only bound parameter, releases the connection exactly once as its
    last action whether the query fails or not, and answers one content
    that carries the request's URI. *)
Theorem readResource_releases_once (uri : jsstring) (tr0 : list Ev) :
  (urlPathname platform uri = None ->
   readResource JSON_stringify pool platform uri tr0
   = (Thrown (Error $"Invalid URL"), tr0))
  /\ (forall pathname,
        urlPathname platform uri = Some pathname ->
        (lastOf (split 47 pathname) <> Some SCHEMA_PATH ->
         readResource JSON_stringify pool platform uri tr0
         = (Thrown (Error $"Invalid resource URI"), tr0))
        /\ (lastOf (split 47 pathname) = Some SCHEMA_PATH ->
            (forall e, pool tr0 = Thrown e ->
                       readResource JSON_stringify pool platform uri tr0 = (Thrown e, tr0))
            /\ (forall c,
                  pool tr0 = Returned c ->
                  readResource JSON_stringify pool platform uri tr0
                  = (match ask_query c (Some columnsSql)
                             [secondToLast (split 47 pathname)]
                             (tr0 ++ [EvAcquire (conn_id c)]) with
                     | Thrown e => Thrown e
                     | Returned rows =>
                         Returned [mkContents uri $"application/json"
                                     (JSON_stringify rows)]
                     end,
                     tr0 ++ [EvAcquire (conn_id c);
                             EvQuery (conn_id c) (Some columnsSql)
                               [secondToLast (split 47 pathname)];
                             EvRelease (conn_id c)])))).
Proof.
  pose proof (decodeUri_cases uri) as Hd.
  split.
  - intros Hp. rewrite Hp in Hd. unfold readResource. now rewrite Hd.
  - intros pathname Hp. rewrite Hp in Hd. split.
    + intros Hlast. destruct Hd as [[_ Hd]|[Hd _]]; [|contradiction].
      unfold readResource. now rewrite Hd.
    + intros Hlast. destruct Hd as [[Hd _]|[_ Hd]]; [contradiction|].
      unfold readResource. rewrite Hd. split.
      * intros e Hpool. unfold bind, getConnection. now rewrite Hpool.
      * intros c Hpool. unfold bind at 1, getConnection. rewrite Hpool.
        unfold tryFinally, bind, query, call, release, emit, ret.
        destruct (ask_query c _ [secondToLast (split 47 pathname)] _);
          rewrite <- !app_assoc; reflexivity.
Qed.

(** X3. The tool handler of the MySQL server serves the one tool the
    server lists: a name that is not listed is refused with "Unknown tool:
    <name>" without touching the pool, and when the pool hands out no
    connection the listed tool throws the pool's error and neither rolls
    back nor releases anything. *)
Theorem mysql_callTool_refusals (request : CallToolRequest) (tr0 : list Ev) :
  (~ In (req_name request) (map Tools.td_name Tools.mysqlTools) ->
   callTool JSON_stringify pool request tr0
   = (Thrown (Error ($"Unknown tool: " ++ req_name request)), tr0))
  /\ (forall e, In (req_name request) (map Tools.td_name Tools.mysqlTools) ->
                pool tr0 = Thrown e ->
                callTool JSON_stringify pool request tr0 = (Thrown e, tr0)).
Proof.
  unfold Tools.mysqlTools. cbn [map Tools.td_name In]. split.
  - intros Hname. unfold callTool.
    assert (E : eqs (req_name request) $"query" = false).
    { apply eqs_false. intros E. apply Hname. left. now rewrite E. }
    now rewrite E.
  - intros e [Hname|[]] Hpool. unfold callTool. rewrite <- Hname, eqs_refl.
    unfold bind, getConnection. now rewrite Hpool.
Qed.

End Handlers.

Lemma listResources_releases_once_witness :
  listResources (fun name : jsstring => name) (fun _ => Returned tablesConnection)
    defaultBase strictPlatform []
  = (Returned
       [mkResource $"mysql://magento@localhost:3306/customer/schema"
          $"application/json" (dquote ++ $"customer" ++ dquote ++ $" database schema");
        mkResource $"mysql://magento@localhost:3306/sales_order/schema"
          $"application/json" (dquote ++ $"sales_order" ++ dquote ++ $" database schema");
        mkResource $"mysql://magento@localhost:3306/catalog_product_entity/schema"
          $"application/json"
          (dquote ++ $"catalog_product_entity" ++ dquote ++ $" database schema")],
     [] ++ [EvAcquire 3; EvQuery 3 (Some tablesSql) []; EvRelease 3]).
Proof.
  exact (listResources_releases_once jsstring (fun name => name)
           (fun _ => Returned tablesConnection) defaultBase strictPlatform
           tablesConnection [] eq_refl).
Defined.

Lemma listed_resources_are_readable_witness :
  exists rs,
    fst (listResources (fun name : jsstring => name) (fun _ => Returned tablesConnection)
           defaultBase strictPlatform []) = Returned rs
    /\ map uri rs
       = map (fun row => baseDirectory defaultBase ++ $"/" ++ row ++ $"/" ++ SCHEMA_PATH)
             [$"customer"; $"sales_order"; $"catalog_product_entity"]
    /\ forall row c' tr',
         In row [$"customer"; $"sales_order"; $"catalog_product_entity"] ->
         (fun _ : list Ev => Returned tablesConnection) tr' = Returned c' ->
         snd (readResource (fun _ : list jsstring => $"[]")
                (fun _ => Returned tablesConnection) strictPlatform
                (baseDirectory defaultBase ++ $"/" ++ row ++ $"/" ++ SCHEMA_PATH) tr')
         = tr' ++ [EvAcquire (conn_id c');
                   EvQuery (conn_id c') (Some columnsSql) [Some row];
                   EvRelease (conn_id c')].
Proof.
  exact (listed_resources_are_readable jsstring (fun name => name)
           (fun _ => $"[]") (fun _ => Returned tablesConnection) defaultBase
           strictPlatform [$"customer"; $"sales_order"; $"catalog_product_entity"]
           tablesConnection [] eq_refl eq_refl eq_refl eq_refl).
Defined.

End MySqlResourceFacts.

(* ================================================================= *)
(** ** The resource handlers of the Drive server *)

Module DriveResourceFacts.
Import GDriveResources ResourceNotions.

(** *** Taking the prefix out *)

Lemma skipn_length_app {A} (p s : list A) : skipn (List.length p) (p ++ s) = s.
Proof. induction p as [|a p IH]; [reflexivity | exact IH]. Qed.

Lemma removeFirst_prefix (p s : jsstring) : removeFirst p (p ++ s) = s.
Proof.
  destruct (p ++ s) as [|c r] eqn:E; cbn [removeFirst];
    rewrite <- E, AccessFacts.startsWith_app; apply skipn_length_app.
Qed.

Lemma startsWith_includes (p s : jsstring) : startsWith p s = true -> includes p s = true.
Proof. intros H. destruct s; cbn [includes]; now rewrite H. Qed.

Lemma removeFirst_absent (p s : jsstring) : includes p s = false -> removeFirst p s = s.
Proof.
  induction s as [|c s IH]; cbn [includes removeFirst]; intros H;
    apply orb_false_iff in H; destruct H as [H1 H2]; rewrite H1; [reflexivity|].
  now rewrite IH.
Qed.

(** *** Splitting what was joined *)

Lemma split_plain (sep : N) (s : jsstring) :
  forallb (fun c => negb (c =? sep)%N) s = true -> split sep s = [s].
Proof.
  intros H. rewrite <- (app_nil_r s) at 1.
  rewrite (UriFacts.split_app_nosep sep s [] H). cbn. now rewrite app_nil_r.
Qed.

Lemma split_join (sep : N) (parts : list jsstring) :
  parts <> [] ->
  forallb (forallb (fun c => negb (c =? sep)%N)) parts = true ->
  split sep (join [sep] parts) = parts.
Proof.
  induction parts as [|p parts IH]; [congruence|]. intros _ H.
  cbn [forallb] in H. apply andb_prop in H. destruct H as [Hp Hparts].
  destruct parts as [|q parts].
  - cbn [join]. now apply split_plain.
  - rewrite UriFacts.join_cons by discriminate.
    rewrite (UriFacts.split_app_nosep sep p _ Hp).
    cbn [app split]. rewrite N.eqb_refl. cbn [hd tl].
    rewrite app_nil_r, IH; [reflexivity | discriminate | assumption].
Qed.

Lemma join_free (sep c : N) (parts : list jsstring) :
  (sep =? c)%N = false ->
  forallb (forallb (fun x => negb (x =? c)%N)) parts = true ->
  forallb (fun x => negb (x =? c)%N) (join [sep] parts) = true.
Proof.
  intros Hsep. induction parts as [|p parts IH]; [reflexivity|]. intros H.
  cbn [forallb] in H. apply andb_prop in H. destruct H as [Hp Hparts].
  destruct parts as [|q parts]; [exact Hp|].
  rewrite UriFacts.join_cons by discriminate.
  rewrite !forallb_app, Hp, (IH Hparts). cbn. now rewrite Hsep.
Qed.

Lemma plainText_split (t : jsstring) :
  plainText t = true ->
  forallb (fun c => negb (c =? 44)%N) t = true
  /\ forallb (fun c => negb (c =? 10)%N) t = true.
Proof.
  unfold plainText. rewrite !forallb_forall. intros H.
  split; intros c Hc; specialize (H c Hc); apply andb_prop in H; tauto.
Qed.

(** X8. The text made of a sheet's rows can be taken apart again: when
    there is at least one row, every row has at least one cell and no cell
    text holds a comma or a line feed, splitting the text at the line feeds
    and each line at the commas gives back the cell texts, row by row (a
    cell without formatted value reads as the empty text). *)
Theorem csvText_reads_back (rows : list RowData) :
  csvSafe (map rowTexts rows) = true ->
  readCsv (csvText (Some rows)) = map rowTexts rows.
Proof.
  unfold csvSafe, readCsv, csvText. intros H.
  destruct rows as [|row0 rows0]; [discriminate|].
  set (rows := row0 :: rows0) in *.
  change (match map rowTexts rows with [] => false | _ => _ end)
    with (forallb (fun row => match row with
                              | [] => false
                              | _ => forallb plainText row
                              end) (map rowTexts rows)) in H.
  rewrite forallb_forall in H.
  assert (Hrow : forall row, In row rows ->
            rowTexts row <> []
            /\ csvRow row = join [44%N] (rowTexts row)
            /\ forallb (forallb (fun c => negb (c =? 44)%N)) (rowTexts row) = true
            /\ forallb (forallb (fun c => negb (c =? 10)%N)) (rowTexts row) = true).
  { intros row Hin. specialize (H (rowTexts row) (in_map rowTexts _ _ Hin)).
    unfold csvRow, rowTexts in *. destruct (rd_values row) as [cells|]; [|discriminate].
    fold cellText. destruct (map cellText cells) as [|t ts] eqn:E; [discriminate|].
    rewrite forallb_forall in H.
    repeat split; try discriminate; rewrite forallb_forall; intros x Hx;
      apply (plainText_split x (H x Hx)). }
  rewrite split_join.
  - rewrite map_map. apply map_ext_in. intros row Hin.
    destruct (Hrow row Hin) as (Hne & -> & H44 & _). now apply split_join.
  - discriminate.
  - rewrite forallb_forall. intros line Hline. apply in_map_iff in Hline.
    destruct Hline as (row & <- & Hin).
    destruct (Hrow row Hin) as (_ & -> & _ & H10). now apply join_free.
Qed.

Lemma csvText_reads_back_witness :
  readCsv (csvText (Some sampleRows)) = [[$"name"; $"qty"]; [$"bolt"; []]].
Proof. exact (csvText_reads_back sampleRows eq_refl). Defined.

(** The export type, by cases on the type of the document. *)
Lemma exportMimeType_cases (m : jsstring) :
  (m = $"application/vnd.google-apps.document" /\ exportMimeType m = $"text/markdown")
  \/ (m = $"application/vnd.google-apps.drawing" /\ exportMimeType m = $"image/png")
  \/ (m <> $"application/vnd.google-apps.document"
      /\ m <> $"application/vnd.google-apps.drawing"
      /\ exportMimeType m = $"text/plain").
Proof.
  unfold exportMimeType.
  destruct (eqs m $"application/vnd.google-apps.document") eqn:E1.
  { apply eqs_true in E1. left. split; [exact E1 | reflexivity]. }
  apply eqs_false in E1.
  destruct (eqs m $"application/vnd.google-apps.presentation") eqn:E2.
  { apply eqs_true in E2. right; right. split; [exact E1|]. split; [|reflexivity].
    subst m. intros H. vm_compute in H. discriminate H. }
  destruct (eqs m $"application/vnd.google-apps.drawing") eqn:E3.
  { apply eqs_true in E3. right; left. split; [exact E3 | reflexivity]. }
  apply eqs_false in E3. right; right. split; [exact E1|]. split; [exact E3 | reflexivity].
Qed.

Section Handlers.

Variable Bytes : Type.
Variable toUtf8 : Bytes -> jsstring.
Variable toBase64 : Bytes -> jsstring.
Variable be : Backend Bytes.

(** X5. What the Drive listing names can be read: for a page of files, the
    listing answers one resource per file, in order, with the URI
    gdrive:///<id>, and hands on the page token as the next cursor; reading
    the URI of any file id, whatever characters it holds, starts by asking
    the Drive for exactly that id. *)
Theorem drive_listed_uri_reads_file (cursor : option jsstring) (page : FileListPage)
        (files : list ListedFile) (tr : list Ev) :
  files_list be (if truthyS cursor then cursor else None) tr = Returned page ->
  page_files page = Some files ->
  (exists rs,
     fst (listResources be cursor tr) = Returned (mkListResult rs (nextPageToken page))
     /\ map res_uri rs = map (fun file => $"gdrive:///" ++ showS (lf_id file)) files
     /\ map res_name rs = map lf_name files
     /\ map res_mimeType rs = map lf_mimeType files)
  /\ forall id tr',
       fileIdOfUri ($"gdrive:///" ++ id) = id
       /\ exists rest,
            snd (readResource toUtf8 toBase64 be ($"gdrive:///" ++ id) tr')
            = tr' ++ EvGetMimeType id :: rest.
Proof.
  intros Hlist Hfiles. split.
  - eexists. split; [|split; [|split]].
    + unfold listResources, bind, call. rewrite Hlist, Hfiles. reflexivity.
    + now rewrite map_map.
    + now rewrite map_map.
    + now rewrite map_map.
  - intros id tr'.
    assert (E : fileIdOfUri ($"gdrive:///" ++ id) = id)
      by apply (removeFirst_prefix uriPrefix id).
    split; [exact E|].
    unfold readResource. rewrite E. unfold bind, call at 1.
    destruct (files_get_mimeType be id tr') as [m|e]; [|now exists []].
    destruct (isGoogleApps m).
    + destruct (eqs (orS m []) _).
      * unfold call. destruct (spreadsheets_get_grid be id _);
          eexists; cbn [snd]; rewrite <- app_assoc; reflexivity.
      * unfold call. destruct (files_export be id _ _);
          eexists; cbn [snd]; rewrite <- app_assoc; reflexivity.
    + unfold call. destruct (files_get_media be id _).
      * destruct (_ || _); eexists; cbn [snd]; rewrite <- app_assoc; reflexivity.
      * eexists; cbn [snd]; rewrite <- app_assoc; reflexivity.
Qed.

(** X6. One listing after another: the cursor is sent to the Drive as the
    page token exactly as it came; without a cursor, and also with the
    empty text as cursor, no page token is sent and the listing starts over
    from the first page; a page without a file list makes the handler throw
    instead of answering an empty listing. *)
Theorem drive_listing_cursor (cursor : option jsstring) (tr : list Ev) :
  (forall token, cursor = Some token -> token <> [] ->
     snd (listResources be cursor tr)
     = tr ++ [EvList 10 $"nextPageToken, files(id, name, mimeType)" (Some token)])
  /\ (cursor = None \/ cursor = Some [] ->
      snd (listResources be cursor tr)
      = tr ++ [EvList 10 $"nextPageToken, files(id, name, mimeType)" None])
  /\ (forall page,
        files_list be (if truthyS cursor then cursor else None) tr = Returned page ->
        page_files page = None ->
        fst (listResources be cursor tr) = Thrown TypeError)
  /\ (forall e,
        files_list be (if truthyS cursor then cursor else None) tr = Thrown e ->
        fst (listResources be cursor tr) = Thrown e).
Proof.
  assert (Htr : snd (listResources be cursor tr)
                = tr ++ [EvList 10 $"nextPageToken, files(id, name, mimeType)"
                           (if truthyS cursor then cursor else None)]).
  { unfold listResources, bind, call.
    destruct (files_list be _ tr) as [page|e]; [|reflexivity].
    destruct (page_files page); reflexivity. }
  split; [|split; [|split]].
  - intros token -> Hne. rewrite Htr. destruct token; [congruence | reflexivity].
  - intros [-> | ->]; rewrite Htr; reflexivity.
  - intros page Hp Hf. unfold listResources, bind, call. now rewrite Hp, Hf.
  - intros e He. unfold listResources, bind, call. now rewrite He.
Qed.

(** X7. Reading a Drive resource makes the MIME type lookup and, when that
    answers, exactly one more call chosen by the type: the grid of a
    spreadsheet, an export for every other Google document (as Markdown for
    a document, PNG for a drawing, plain text otherwise), the raw content
    for every other file.  A URI without the gdrive:/// prefix is not
    refused: its whole text serves as the file id.  A successful answer is
    one content carrying the request's URI; it is a base64 blob exactly
    for a downloaded file whose type neither starts with text/ nor is
    application/json, a missing type counting as
    application/octet-stream. *)
Theorem drive_readResource_calls (uri : jsstring) (mimeType : option jsstring)
        (tr : list Ev) :
  files_get_mimeType be (fileIdOfUri uri) tr = Returned mimeType ->
  snd (readResource toUtf8 toBase64 be uri tr)
  = tr ++ [EvGetMimeType (fileIdOfUri uri); secondCall (fileIdOfUri uri) mimeType]
  /\ (includes $"gdrive:///" uri = false -> fileIdOfUri uri = uri)
  /\ (forall m, exportMimeType m = $"text/markdown"
                \/ exportMimeType m = $"image/png"
                \/ exportMimeType m = $"text/plain")
  /\ (forall m, exportMimeType m = $"text/markdown"
                <-> m = $"application/vnd.google-apps.document")
  /\ (forall m, exportMimeType m = $"image/png"
                <-> m = $"application/vnd.google-apps.drawing")
  /\ (forall cs,
        fst (readResource toUtf8 toBase64 be uri tr) = Returned cs ->
        exists mime body,
          cs = [mkContent uri mime body]
          /\ (isBlob body = true
              <-> isGoogleApps mimeType = false
                  /\ startsWith $"text/" (orS mimeType $"application/octet-stream") = false
                  /\ orS mimeType $"application/octet-stream" <> $"application/json")).
Proof.
  intros Hm.
  pose proof exportMimeType_cases as Hexp.
  split; [|split; [|split; [|split; [|split]]]].
  - unfold readResource, secondCall, bind, call at 1. rewrite Hm.
    destruct (isGoogleApps mimeType).
    + destruct (eqs (orS mimeType []) _); unfold call;
        [destruct (spreadsheets_get_grid be _ _) | destruct (files_export be _ _ _)];
        cbn [snd]; rewrite <- app_assoc; reflexivity.
    + unfold call. destruct (files_get_media be _ _);
        [destruct (_ || _)|]; cbn [snd]; rewrite <- app_assoc; reflexivity.
  - apply removeFirst_absent.
  - intros m. destruct (Hexp m) as [[_ H]|[[_ H]|[_ [_ H]]]]; tauto.
  - intros m. destruct (Hexp m) as [[Hm' H]|[[Hm' H]|[Hm' [_ H]]]]; rewrite H.
    + split; intros _; [exact Hm' | reflexivity].
    + split; intros E; [|rewrite Hm' in E]; vm_compute in E; discriminate E.
    + split; intros E; [vm_compute in E; discriminate E | destruct (Hm' E)].
  - intros m. destruct (Hexp m) as [[Hm' H]|[[Hm' H]|[_ [Hm' H]]]]; rewrite H.
    + split; intros E; [|rewrite Hm' in E]; vm_compute in E; discriminate E.
    + split; intros _; [exact Hm' | reflexivity].
    + split; intros E; [vm_compute in E; discriminate E | destruct (Hm' E)].
  - intros cs. unfold readResource, bind, call at 1. rewrite Hm.
    destruct (isGoogleApps mimeType).
    + destruct (eqs (orS mimeType []) _); unfold call;
        [destruct (spreadsheets_get_grid be _ _) | destruct (files_export be _ _ _)];
        cbn [fst]; intros E; try discriminate E; injection E as <-;
        eexists _, _; (split; [reflexivity|]); cbn [isBlob];
        (split; [discriminate | intros [? _]; discriminate]).
    + unfold call. destruct (files_get_media be _ _); [|discriminate].
      destruct (startsWith $"text/" _) eqn:Et; cbn [orb].
      * cbn [fst]. intros E. injection E as <-. eexists _, _.
        split; [reflexivity|]. cbn [isBlob].
        split; [discriminate | intros (_ & ? & _); discriminate].
      * destruct (eqs _ $"application/json") eqn:Ej; cbn [fst]; intros E;
          injection E as <-; eexists _, _; (split; [reflexivity|]); cbn [isBlob].
        -- apply eqs_true in Ej.
           split; [discriminate | intros (_ & _ & ?); congruence].
        -- apply eqs_false in Ej. split; auto.
Qed.

End Handlers.

Lemma drive_listed_uri_reads_file_witness :
  (exists rs,
     fst (listResources sampleDrive None []) = Returned (mkListResult rs (Some $"page2"))
     /\ map res_uri rs = map (fun file => $"gdrive:///" ++ showS (lf_id file)) twoFiles
     /\ map res_name rs = map lf_name twoFiles
     /\ map res_mimeType rs = map lf_mimeType twoFiles)
  /\ forall id tr',
       fileIdOfUri ($"gdrive:///" ++ id) = id
       /\ exists rest,
            snd (readResource (fun _ : unit => $"text") (fun _ : unit => $"dGV4dA==")
                   sampleDrive ($"gdrive:///" ++ id) tr')
            = tr' ++ EvGetMimeType id :: rest.
Proof.
  exact (drive_listed_uri_reads_file unit (fun _ => $"text") (fun _ => $"dGV4dA==")
           sampleDrive None (mkPage (Some twoFiles) (Some $"page2")) twoFiles []
           eq_refl eq_refl).
Defined.

Lemma drive_readResource_calls_witness :
  snd (readResource (fun _ : unit => $"text") (fun _ : unit => $"dGV4dA==")
         sampleDrive $"gdrive:///9xYz" [])
  = [] ++ [EvGetMimeType $"9xYz"; EvGetMedia $"9xYz"].
Proof.
  exact (proj1 (drive_readResource_calls unit (fun _ => $"text") (fun _ => $"dGV4dA==")
                  sampleDrive $"gdrive:///9xYz" (Some $"text/plain") [] eq_refl)).
Defined.

End DriveResourceFacts.

(* ================================================================= *)
(** ** File ids, the current identity and the access decision *)

Module DriveAccessFacts.
Import GDrive GDriveServer Samples ToolNotions.

(** *** The patterns of [extractFileIdFromUrl] *)

Lemma span_fst_nil (p : N -> bool) (s : jsstring) :
  fst (span p s) = [] <-> match s with c :: _ => p c | [] => false end = false.
Proof.
  destruct s as [|c r]; cbn; [tauto|].
  destruct (p c); [|tauto]. destruct (span p r). cbn. split; discriminate.
Qed.

Lemma span_all (p : N -> bool) (a : jsstring) :
  forallb p a = true -> span p a = (a, []).
Proof.
  induction a as [|c a IH]; cbn; [reflexivity|]. intros H.
  apply andb_prop in H. destruct H as [Hc Ha]. now rewrite Hc, IH.
Qed.

Lemma span_prefix (p : N -> bool) (a rest : jsstring) :
  forallb p a = true ->
  match rest with c :: _ => p c | [] => false end = false ->
  span p (a ++ rest) = (a, rest).
Proof.
  intros Ha Hrest. destruct rest as [|c r].
  - rewrite app_nil_r. now apply span_all.
  - now apply UriFacts.span_stop.
Qed.

(** The match at the start of [s], as a test. *)
Lemma matchId_here (prefix s : jsstring) :
  idAt prefix s = true ->
  matchId prefix s = Some (fst (span idChar (skipn (List.length prefix) s))).
Proof.
  unfold idAt. intros H. apply andb_prop in H. destruct H as [Hp Hc].
  destruct s as [|c r]; cbn [matchId]; rewrite Hp;
    destruct (fst (span idChar (skipn (List.length prefix) _))) eqn:E;
    try reflexivity; apply span_fst_nil in E; rewrite E in Hc; discriminate.
Qed.

Lemma matchId_later (prefix : jsstring) (c : N) (r : jsstring) :
  idAt prefix (c :: r) = false -> matchId prefix (c :: r) = matchId prefix r.
Proof.
  unfold idAt. intros H. cbn [matchId].
  destruct (startsWith prefix (c :: r)); [|reflexivity].
  cbn [andb] in H. apply span_fst_nil in H. now rewrite H.
Qed.

Lemma matchId_none (prefix s : jsstring) :
  matchId prefix s = None <-> forall k, idAt prefix (skipn k s) = false.
Proof.
  induction s as [|c r IH].
  - split.
    + intros _ k. rewrite skipn_nil. unfold idAt. rewrite skipn_nil. apply andb_false_r.
    + intros H. specialize (H 0%nat). cbn [skipn] in H.
      destruct (idAt prefix []) eqn:E; [discriminate|].
      unfold idAt in E. cbn [matchId].
      destruct (startsWith prefix []); [|reflexivity].
      cbn [andb] in E. apply span_fst_nil in E. now rewrite E.
  - destruct (idAt prefix (c :: r)) eqn:E.
    + split.
      * intros H. rewrite (matchId_here _ _ E) in H. discriminate.
      * intros H. specialize (H 0%nat). cbn [skipn] in H. congruence.
    + rewrite (matchId_later _ _ _ E), IH. split.
      * intros H [|k]; [exact E | apply H].
      * intros H k. apply (H (S k)).
Qed.

Lemma matchId_nonempty (prefix s id : jsstring) : matchId prefix s = Some id -> id <> [].
Proof.
  induction s as [|c r IH]; cbn [matchId].
  - destruct (startsWith prefix []); [|discriminate].
    destruct (fst (span idChar _)); [discriminate|]. intros E. injection E as <-. discriminate.
  - destruct (startsWith prefix (c :: r)); [|exact IH].
    destruct (fst (span idChar _)); [exact IH|]. intros E. injection E as <-. discriminate.
Qed.

Lemma startsWith_skip (a b s : jsstring) :
  startsWith (a ++ b) s = true -> startsWith b (skipn (List.length a) s) = true.
Proof.
  revert s. induction a as [|x a IH]; intros s; [trivial|].
  destruct s as [|y s]; cbn; [discriminate|].
  intros H. apply andb_prop in H. now apply IH.
Qed.

Lemma idAt_skip (a b s : jsstring) :
  idAt (a ++ b) s = true -> idAt b (skipn (List.length a) s) = true.
Proof.
  unfold idAt. intros H. apply andb_prop in H. destruct H as [Hp Hc].
  rewrite (startsWith_skip _ _ _ Hp). cbn [andb].
  rewrite skipn_skipn. now rewrite length_app, Nat.add_comm in Hc.
Qed.

Lemma matchId_longer_prefix (a b s : jsstring) :
  matchId b s = None -> matchId (a ++ b) s = None.
Proof.
  rewrite !matchId_none. intros H k.
  destruct (idAt (a ++ b) (skipn k s)) eqn:E; [|reflexivity].
  apply idAt_skip in E. rewrite skipn_skipn in E. now rewrite H in E.
Qed.

(** The cases of an outcome, each by what the run gave. *)
Ltac outcomes :=
  cbn [fst snd]; repeat split; intros;
  repeat match goal with
         | H : Some _ = Some _ |- _ => injection H as <-
         | H : Returned _ = Returned _ |- _ => injection H as <-
         | H : Thrown _ = Thrown _ |- _ => injection H as <-
         end;
  try congruence; try discriminate.

Section Ids.

Variable pf : Platform.

(** X9. [extractFileIdFromUrl] calls nothing outside.  A text without
    "http" is the id as it stands; an id taken from a link is never the
    empty text; whatever goes wrong with a link (the URL constructor
    throwing, or no pattern and no id parameter) leaves the function as the
    one error "URL không hợp lệ"; a missing argument is a TypeError. *)
Theorem extractFileIdFromUrl_outcomes (input : option jsstring) (tr : list Ev) :
  snd (extractFileIdFromUrl pf input tr) = tr
  /\ (forall s, input = Some s -> includes $"http" s = false ->
        fst (extractFileIdFromUrl pf input tr) = Returned s)
  /\ (forall s id, input = Some s -> includes $"http" s = true ->
        fst (extractFileIdFromUrl pf input tr) = Returned id -> id <> [])
  /\ (forall s e, input = Some s ->
        fst (extractFileIdFromUrl pf input tr) = Thrown e ->
        e = Error $"URL không hợp lệ")
  /\ (input = None -> fst (extractFileIdFromUrl pf input tr) = Thrown TypeError).
Proof.
  unfold extractFileIdFromUrl.
  destruct input as [s|]; cbn [deref]; unfold bind, ret, throw, tryCatch.
  2:{ outcomes. }
  destruct (includes $"http" s) eqn:Hh; cbn [negb].
  2:{ outcomes. }
  destruct (newURL pf s) as [url|].
  2:{ outcomes. }
  destruct (matchId $"/d/" (u_pathname url)) as [d|] eqn:Ed.
  { outcomes. now apply matchId_nonempty in Ed. }
  destruct (matchId $"/spreadsheets/d/" (u_pathname url)) as [d|] eqn:Es.
  { outcomes. now apply matchId_nonempty in Es. }
  destruct (u_id url) as [[|c id]|]; cbn [truthyS orS]; outcomes.
Qed.

(** X10. The second pattern of [extractFileIdFromUrl] never decides: a
    path in which /d/<id> is not found has no /spreadsheets/d/<id> either, so
    for a link without /d/<id> in its path the result is the id parameter of
    the query when that is a non-empty text, and the error "URL không hợp
    lệ" otherwise. *)
Theorem spreadsheets_pattern_is_shadowed (s : jsstring) (url : UrlView) (tr : list Ev) :
  includes $"http" s = true ->
  newURL pf s = Some url ->
  matchId $"/d/" (u_pathname url) = None ->
  matchId $"/spreadsheets/d/" (u_pathname url) = None
  /\ fst (extractFileIdFromUrl pf (Some s) tr)
     = match u_id url with
       | Some (c :: id) => Returned (c :: id)
       | _ => Thrown (Error $"URL không hợp lệ")
       end.
Proof.
  intros Hh Hurl Hd.
  assert (Hs : matchId $"/spreadsheets/d/" (u_pathname url) = None).
  { assert (E : $"/spreadsheets/d/" = $"/spreadsheets" ++ $"/d/")
      by (vm_compute; reflexivity).
    rewrite E. now apply matchId_longer_prefix. }
  split; [exact Hs|].
  unfold extractFileIdFromUrl. cbn [deref]. unfold bind, ret, throw, tryCatch.
  rewrite Hh. cbn [negb]. rewrite Hurl, Hd, Hs.
  destruct (u_id url) as [[|c id]|]; reflexivity.
Qed.

(** X11. The link of a spreadsheet: when the path of the link is
    /spreadsheets/d/<id> followed by nothing or by a slash and more, [id]
    being a non-empty text of letters, digits, hyphens and underscores,
    the function returns exactly [id]. *)
Theorem sheet_link_gives_id (s : jsstring) (url : UrlView) (id rest : jsstring)
        (tr : list Ev) :
  includes $"http" s = true ->
  newURL pf s = Some url ->
  id <> [] ->
  forallb idChar id = true ->
  u_pathname url = $"/spreadsheets/d/" ++ id ++ rest ->
  rest = [] \/ startsWith $"/" rest = true ->
  extractFileIdFromUrl pf (Some s) tr = (Returned id, tr).
Proof.
  intros Hh Hurl Hne Hid Hpath Hrest.
  assert (Hspan : span idChar (id ++ rest) = (id, rest)).
  { apply span_prefix; [exact Hid|].
    destruct Hrest as [->|Hr]; [reflexivity|].
    destruct rest as [|c r]; [reflexivity|].
    change ($"/") with [47%N] in Hr. cbn [startsWith] in Hr.
    apply andb_prop in Hr. destruct Hr as [Hc _]. apply N.eqb_eq in Hc. now subst c. }
  assert (Hm : matchId $"/d/" (u_pathname url) = Some id).
  { rewrite Hpath.
    assert (E : $"/spreadsheets/d/" = $"/spreadsheets" ++ $"/d/")
      by (vm_compute; reflexivity).
    rewrite E, <- app_assoc.
    assert (Hhere : idAt $"/d/" ($"/d/" ++ id ++ rest) = true).
    { unfold idAt. rewrite AccessFacts.startsWith_app. cbn [andb].
      rewrite DriveResourceFacts.skipn_length_app.
      destruct id as [|c id']; [congruence|]. cbn in Hid |- *.
      now apply andb_prop in Hid. }
    change ($"/spreadsheets") with [47; 115; 112; 114; 101; 97; 100; 115; 104; 101; 101; 116; 115]%N.
    cbn [app].
    repeat (rewrite matchId_later; [|reflexivity]).
    rewrite (matchId_here _ _ Hhere), DriveResourceFacts.skipn_length_app, Hspan.
    reflexivity. }
  unfold extractFileIdFromUrl. cbn [deref]. unfold bind, ret, throw, tryCatch.
  rewrite Hh. cbn [negb]. now rewrite Hurl, Hm.
Qed.

End Ids.

Lemma spreadsheets_pattern_is_shadowed_witness :
  matchId $"/spreadsheets/d/" $"/open" = None
  /\ fst (extractFileIdFromUrl linkPlatform
            (Some $"https://drive.google.com/open?id=1AbC-9_z") [])
     = Returned $"1AbC-9_z".
Proof.
  exact (spreadsheets_pattern_is_shadowed linkPlatform
           $"https://drive.google.com/open?id=1AbC-9_z"
           (mkUrlView $"/open" (Some $"1AbC-9_z")) [] eq_refl eq_refl eq_refl).
Defined.

Lemma sheet_link_gives_id_witness :
  extractFileIdFromUrl linkPlatform
    (Some $"https://docs.google.com/spreadsheets/d/1AbC-9_z/edit") []
  = (Returned $"1AbC-9_z", []).
Proof.
  refine (sheet_link_gives_id linkPlatform
            $"https://docs.google.com/spreadsheets/d/1AbC-9_z/edit"
            (mkUrlView $"/spreadsheets/d/1AbC-9_z/edit" None) $"1AbC-9_z" $"/edit" []
            eq_refl eq_refl _ eq_refl eq_refl (or_intror eq_refl)).
  discriminate.
Defined.

(** *** The current identity and the decision *)

(** The test of the [catch] block of [verifyFileAccess]. *)
Lemma code_404 {A} (o : option Z) (x y : A) :
  match o with Some 404 => x | _ => y end
  = if match o with Some z => z =? 404 | None => false end then x else y.
Proof.
  destruct o as [z|]; [|reflexivity].
  destruct (Z.eqb_spec z 404) as [->|H]; [reflexivity|].
  destruct z as [|p|p]; try reflexivity.
  repeat (destruct p as [p|p|]; try reflexivity).
  exfalso. apply H. reflexivity.
Qed.

Section Access.

Variable be : Backend.

(** X12. [getCurrentUserEmail] never throws.  When the Drive answers, the
    result is the address it reports, or the empty text when it reports
    none, after the one call; when the call fails, the failure is written
    to the error console and the result is the empty text. *)
Theorem getCurrentUserEmail_never_throws (tr : list Ev) :
  exists email,
    fst (getCurrentUserEmail be tr) = Returned email
    /\ (forall about, about_get be tr = Returned about ->
          email = orS (user_emailAddress about) []
          /\ snd (getCurrentUserEmail be tr) = tr ++ [EvAboutGet $"user(emailAddress)"])
    /\ (forall e, about_get be tr = Thrown e ->
          email = []
          /\ snd (getCurrentUserEmail be tr)
             = tr ++ [EvAboutGet $"user(emailAddress)";
                      EvConsoleError $"Không thể lấy thông tin người dùng:" e]).
Proof.
  unfold getCurrentUserEmail, tryCatch, bind, call, ret, emit.
  destruct (about_get be tr) as [about|e]; cbn [fst snd]; eexists;
    (split; [reflexivity|]); split; intros x E; try discriminate E;
    injection E as <-; split; try reflexivity.
  now rewrite <- app_assoc.
Qed.

Lemma email_then_throw (msg : jsstring -> jsstring) (tr : list Ev) :
  exists e tr',
    bind (getCurrentUserEmail be) (fun userEmail => @throw Ev bool (Error (msg userEmail))) tr
    = (Thrown e, tr') /\ code e = None.
Proof.
  unfold bind. destruct (AccessFacts.getCurrentUserEmail_returns be tr) as (email & tr' & -> & _).
  eexists _, _. split; reflexivity.
Qed.

(** What the [catch] block of [verifyFileAccess] ends in. *)
Lemma verify_handler_throws (err : Exn) (tr : list Ev) :
  exists e tr',
    match code err with
    | Some 404 =>
        bind (getCurrentUserEmail be)
             (fun userEmail => @throw Ev bool (Error (notFoundMessage userEmail)))
    | _ => throw err
    end tr = (Thrown e, tr').
Proof.
  rewrite code_404.
  destruct (match code err with Some z => z =? 404 | None => false end).
  - destruct (email_then_throw notFoundMessage tr) as (e & tr' & E & _). eauto.
  - eexists _, _. reflexivity.
Qed.

(** The two ways [verifyFileAccess] ends. *)
Lemma verify_cases (fileId : jsstring) (requireEdit : bool) (tr : list Ev) :
  (verifyFileAccess be fileId requireEdit tr
   = (Returned true, tr ++ [filesGetEv fileId; permissionsListEv fileId])
   /\ exists file perms,
        files_get be fileId tr = Returned file
        /\ permissions_list be fileId (tr ++ [filesGetEv fileId]) = Returned perms
        /\ isSpreadsheet file = true
        /\ (requireEdit = true -> hasEditAccess file = true)
        /\ (isPublic perms = true \/ hasReadAccess file = true))
  \/ ((exists e tr', verifyFileAccess be fileId requireEdit tr = (Thrown e, tr'))
      /\ ~ exists file perms,
            files_get be fileId tr = Returned file
            /\ permissions_list be fileId (tr ++ [filesGetEv fileId]) = Returned perms
            /\ isSpreadsheet file = true
            /\ (requireEdit = true -> hasEditAccess file = true)
            /\ (isPublic perms = true \/ hasReadAccess file = true)).
Proof.
  unfold filesGetEv, permissionsListEv.
  remember (verifyFileAccess be fileId requireEdit tr) as r eqn:E.
  unfold verifyFileAccess, tryCatch in E.
  unfold bind at 1 in E. unfold call at 1 in E. cbv beta iota in E.
  destruct (files_get be fileId tr) as [file|e].
  2:{ right. split; [subst r; apply verify_handler_throws|].
      intros (f & p & H & _). discriminate H. }
  destruct (isSpreadsheet file) eqn:Hs; cbn [negb] in E; cbv beta iota in E.
  2:{ right. split; [subst r; eexists _, _; reflexivity|].
      intros (f & p & H & _ & H' & _). injection H as <-. congruence. }
  unfold bind at 1 in E. unfold call at 1 in E. cbv beta iota in E.
  destruct (permissions_list be fileId _) as [perms|e].
  2:{ right. split; [subst r; apply verify_handler_throws|].
      intros (f & p & _ & H & _). discriminate H. }
  destruct (requireEdit && negb (hasEditAccess file)) eqn:He.
  { right. split.
    - match type of E with context [bind (getCurrentUserEmail be) _ ?t] =>
        destruct (email_then_throw editDeniedMessage t) as (e' & tr' & E' & Hc) end.
      rewrite E', Hc in E. subst r. eexists _, _. reflexivity.
    - intros (f & p & Hf & Hp & _ & Hedit & _).
      injection Hf as <-. apply andb_prop in He. destruct He as [-> Hn].
      rewrite Hedit in Hn by reflexivity. discriminate. }
  destruct (negb (isPublic perms) && negb (hasReadAccess file)) eqn:Hr.
  { right. split.
    - match type of E with context [bind (getCurrentUserEmail be) _ ?t] =>
        destruct (email_then_throw readDeniedMessage t) as (e' & tr' & E' & Hc) end.
      rewrite E', Hc in E. subst r. eexists _, _. reflexivity.
    - intros (f & p & Hf & Hp & _ & _ & Hread).
      injection Hf as <-. injection Hp as <-.
      apply andb_prop in Hr. destruct Hr as [Hn1 Hn2].
      destruct Hread as [H|H]; rewrite H in *; discriminate. }
  left. split.
  - subst r. unfold ret. now rewrite <- app_assoc.
  - exists file, perms.
    split; [reflexivity|]. split; [reflexivity|]. split; [exact Hs|]. split.
    + intros ->. cbn [andb] in He. now destruct (hasEditAccess file).
    + destruct (isPublic perms); [now left|]. destruct (hasReadAccess file); [now right|].
      discriminate.
Qed.

(** X13. The decision of [verifyFileAccess].  It returns true exactly when
    the Drive answers the file and its permission list, the MIME type
    contains "spreadsheet", the file can be edited if edit access is
    required, and the file is shared with anyone or a domain or its
    revisions can be read; then the two calls are all it did.  It never
    returns false: every refusal is a thrown error. *)
Theorem verifyFileAccess_grants_iff (fileId : jsstring) (requireEdit : bool)
        (tr : list Ev) :
  (fst (verifyFileAccess be fileId requireEdit tr) = Returned true
   <-> exists file perms,
         files_get be fileId tr = Returned file
         /\ permissions_list be fileId (tr ++ [filesGetEv fileId]) = Returned perms
         /\ isSpreadsheet file = true
         /\ (requireEdit = true -> hasEditAccess file = true)
         /\ (isPublic perms = true \/ hasReadAccess file = true))
  /\ (forall b tr',
        verifyFileAccess be fileId requireEdit tr = (Returned b, tr') ->
        b = true /\ tr' = tr ++ [filesGetEv fileId; permissionsListEv fileId]).
Proof.
  destruct (verify_cases fileId requireEdit tr) as [[E Hc]|[(e & tr' & E) Hc]];
    rewrite E; cbn [fst]; split.
  - split; [intros _; exact Hc | reflexivity].
  - intros b t H. injection H as <- <-. split; reflexivity.
  - split; [discriminate | intros H; destruct (Hc H)].
  - intros b t H. discriminate H.
Qed.

Lemma verify_files_get_thrown (fileId : jsstring) (requireEdit : bool)
      (e : Exn) (tr : list Ev) :
  files_get be fileId tr = Thrown e ->
  verifyFileAccess be fileId requireEdit tr
  = if match code e with Some z => z =? 404 | None => false end
    then bind (getCurrentUserEmail be)
              (fun userEmail => throw (Error (notFoundMessage userEmail)))
              (tr ++ [filesGetEv fileId])
    else (Thrown e, tr ++ [filesGetEv fileId]).
Proof.
  intros Hget. unfold filesGetEv, verifyFileAccess, tryCatch.
  unfold bind at 1. unfold call at 1. cbv beta iota. rewrite Hget, code_404.
  now destruct (match code e with Some z => z =? 404 | None => false end).
Qed.

(** X14. A failure of the first Drive call of [verifyFileAccess]: with any
    code but 404 the error is thrown on as it came, after that one call;
    with the code 404 the current identity is looked up and the error
    thrown is the not-found text carrying that email. *)
Theorem verifyFileAccess_backend_errors (fileId : jsstring) (requireEdit : bool)
        (e : Exn) (tr : list Ev) :
  files_get be fileId tr = Thrown e ->
  (code e <> Some 404 ->
   verifyFileAccess be fileId requireEdit tr = (Thrown e, tr ++ [filesGetEv fileId]))
  /\ (code e = Some 404 ->
      exists email,
        fst (getCurrentUserEmail be (tr ++ [filesGetEv fileId])) = Returned email
        /\ verifyFileAccess be fileId requireEdit tr
           = (Thrown (Error (notFoundMessage email)),
              snd (getCurrentUserEmail be (tr ++ [filesGetEv fileId])))).
Proof.
  intros Hget. rewrite (verify_files_get_thrown fileId requireEdit e tr Hget).
  split.
  - intros Hc. destruct (code e) as [z|]; [|reflexivity].
    destruct (Z.eqb_spec z 404) as [->|H]; [congruence | reflexivity].
  - intros ->. cbn [Z.eqb Pos.eqb]. unfold bind.
    destruct (AccessFacts.getCurrentUserEmail_returns be (tr ++ [filesGetEv fileId]))
      as (email & tr' & E & _).
    exists email. rewrite E. split; reflexivity.
Qed.

End Access.

Lemma verifyFileAccess_backend_errors_witness :
  verifyFileAccess failingBackend $"1AbC" true []
  = (Thrown backendFailure, [] ++ [filesGetEv $"1AbC"])
  /\ exists email,
       fst (getCurrentUserEmail missingFileBackend ([] ++ [filesGetEv $"1AbC"]))
       = Returned email
       /\ verifyFileAccess missingFileBackend $"1AbC" false []
          = (Thrown (Error (notFoundMessage email)),
             snd (getCurrentUserEmail missingFileBackend ([] ++ [filesGetEv $"1AbC"]))).
Proof.
  split.
  - apply (proj1 (verifyFileAccess_backend_errors failingBackend $"1AbC" true
                    backendFailure [] eq_refl)).
    discriminate.
  - apply (proj2 (verifyFileAccess_backend_errors missingFileBackend $"1AbC" false
                    notFound [] eq_refl)).
    reflexivity.
Defined.

End DriveAccessFacts.

(* ================================================================= *)
(** ** The sheet tools: what they call, and for which file *)

Module DriveToolFacts.
Import GDrive GDriveServer Samples ToolNotions.

(** *** Runs and what they end in *)

Lemma ends_ret {A} (a : A) (tr : list Ev) (Q : Outcome A -> list Ev -> Prop) :
  Q (Returned a) tr -> ends (ret a) tr Q.
Proof. trivial. Qed.

Lemma ends_throw {A} (e : Exn) (tr : list Ev) (Q : Outcome A -> list Ev -> Prop) :
  Q (Thrown e) tr -> ends (throw e) tr Q.
Proof. trivial. Qed.

Lemma ends_bind {A B} (m : M Ev A) (k : A -> M Ev B) (tr : list Ev)
      (Q : Outcome B -> list Ev -> Prop) :
  ends m tr (fun o tr' => match o with
                          | Returned a => ends (k a) tr' Q
                          | Thrown e => Q (Thrown e) tr'
                          end) ->
  ends (bind m k) tr Q.
Proof. unfold ends, bind. destruct (m tr) as [[a|e] tr']; trivial. Qed.

Lemma ends_bind_post {A B} (m : M Ev A) (k : A -> M Ev B) (tr : list Ev)
      (R : Outcome A -> list Ev -> Prop) (Q : Outcome B -> list Ev -> Prop) :
  ends m tr R ->
  (forall o tr', R o tr' -> match o with
                            | Returned a => ends (k a) tr' Q
                            | Thrown e => Q (Thrown e) tr'
                            end) ->
  ends (bind m k) tr Q.
Proof. intros Hm Hk. apply ends_bind. apply Hk, Hm. Qed.

Lemma ends_tryCatch {A} (m : M Ev A) (h : Exn -> M Ev A) (tr : list Ev)
      (Q : Outcome A -> list Ev -> Prop) :
  ends m tr (fun o tr' => match o with
                          | Returned a => Q (Returned a) tr'
                          | Thrown e => ends (h e) tr' Q
                          end) ->
  ends (tryCatch m h) tr Q.
Proof. unfold ends, tryCatch. destruct (m tr) as [[a|e] tr']; trivial. Qed.

Lemma ends_call {A} (ev : Ev) (ask : list Ev -> Outcome A) (tr : list Ev)
      (Q : Outcome A -> list Ev -> Prop) :
  Q (ask tr) (tr ++ [ev]) -> ends (call ev ask) tr Q.
Proof. trivial. Qed.

Lemma ends_keeps {A} (P : list Ev -> Prop) (m : M Ev A) (tr : list Ev)
      (Q : Outcome A -> list Ev -> Prop) :
  preserves P m -> P tr -> (forall o tr', P tr' -> Q o tr') -> ends m tr Q.
Proof. intros Hm Htr HQ. apply HQ, Hm, Htr. Qed.

(** One step through a handler; [evt] shows that the event of a call is
    allowed. *)
Ltac step evt :=
  first
    [ apply FormatFacts.preserves_ret | apply FormatFacts.preserves_throw
    | apply FormatFacts.preserves_deref
    | apply FormatFacts.preserves_bind; [|intros ?]
    | apply FormatFacts.preserves_tryCatch; [|intros ?]
    | apply FormatFacts.preserves_call;
      solve [intros ? ?; apply Forall_app; split;
             [assumption | constructor; [evt | constructor]]]
    | apply FormatFacts.preserves_emit;
      solve [intros ? ?; apply Forall_app; split;
             [assumption | constructor; [evt | constructor]]]
    | match goal with
      | |- preserves _ (match ?x with _ => _ end) => destruct x
      | |- preserves _ (if ?c then _ else _) => destruct c
      end ].

Ltac unfold_tools :=
  unfold search, list_sheets, read_sheet, edit_sheet, format_sheet, checkAccess,
    resolveReadRange, qualifyRange, firstSheetId, gridCorners, verifyFileAccess,
    getCurrentUserEmail, extractFileIdFromUrl.

Section Tools.

Variable pf : Platform.
Variable be : Backend.

(** *** Which tool sends which call *)

(** X15. The calls that carry cell data belong to one tool each: a tool
    call whose name is not edit_sheet sends no [values.update], one whose
    name is not format_sheet sends no [batchUpdate], and one whose name is
    not read_sheet sends no [values.get], whatever the arguments and the
    answers of the services. *)
Theorem data_calls_belong_to_their_tool (request : CallToolRequest) (tr : list Ev) :
  (req_name request <> $"edit_sheet" ->
   Forall (fun ev => isValuesUpdate ev = false) tr ->
   Forall (fun ev => isValuesUpdate ev = false) (snd (callTool pf be request tr)))
  /\ (req_name request <> $"format_sheet" ->
      Forall (fun ev => isBatchUpdate ev = false) tr ->
      Forall (fun ev => isBatchUpdate ev = false) (snd (callTool pf be request tr)))
  /\ (req_name request <> $"read_sheet" ->
      Forall (fun ev => isValuesGet ev = false) tr ->
      Forall (fun ev => isValuesGet ev = false) (snd (callTool pf be request tr))).
Proof.
  split; [|split]; intros Hname;
    match goal with
    | |- Forall ?Q tr -> _ =>
        revert tr; change (preserves (Forall Q) (callTool pf be request))
    end;
    unfold callTool;
    repeat match goal with
           | |- preserves _ (if eqs (req_name request) ?n then _ else _) =>
               let E := fresh "E" in
               destruct (eqs (req_name request) n) eqn:E;
               [ first [ apply eqs_true in E; exfalso; exact (Hname E)
                       | unfold_tools; repeat step ltac:(reflexivity) ] |]
           end;
    apply FormatFacts.preserves_throw.
Qed.

(** *** Every data call comes after the access check *)

Lemma snoc_split {A} (tr pre post : list A) (ev ev' : A) :
  tr ++ [ev] = pre ++ ev' :: post ->
  (post = [] /\ pre = tr /\ ev' = ev)
  \/ exists post', post = post' ++ [ev] /\ tr = pre ++ ev' :: post'.
Proof.
  intros H. destruct (@exists_last _ (ev' :: post)) as (l & x & E); [discriminate|].
  rewrite E, app_assoc in H. apply app_inj_tail in H. destruct H as [-> <-].
  destruct post as [|y post].
  - left. destruct l as [|z l]; [|destruct l; discriminate E].
    injection E as ->. now rewrite app_nil_r.
  - right. destruct l as [|z l]; [discriminate E|]. injection E as <- E.
    exists l. split; [exact E | reflexivity].
Qed.

Lemma guarded_snoc_quiet (tr : list Ev) (ev : Ev) :
  guardedTrace be tr -> accessNeeded ev = None -> guardedTrace be (tr ++ [ev]).
Proof.
  intros Hg Hq pre ev' post fid edit E Hneed.
  destruct (snoc_split _ _ _ _ _ E) as [(_ & _ & ->)|(post' & _ & ->)].
  - congruence.
  - eapply Hg; [reflexivity | exact Hneed].
Qed.

Lemma guarded_snoc_data (tr : list Ev) (ev : Ev) (fileId : jsstring) (requireEdit : bool) :
  guardedTrace be tr ->
  accessNeeded ev = Some (fileId, requireEdit) ->
  checkedBefore be tr fileId requireEdit ->
  guardedTrace be (tr ++ [ev]).
Proof.
  intros Hg Hd Hc pre ev' post fid edit E Hneed.
  destruct (snoc_split _ _ _ _ _ E) as [(_ & -> & ->)|(post' & _ & ->)].
  - rewrite Hd in Hneed. injection Hneed as <- <-. exact Hc.
  - eapply Hg; [reflexivity | exact Hneed].
Qed.

Lemma checked_more (pre more : list Ev) (fileId : jsstring) (requireEdit : bool) :
  checkedBefore be pre fileId requireEdit ->
  checkedBefore be (pre ++ more) fileId requireEdit.
Proof.
  intros (t0 & rest & -> & Hv). exists t0, (rest ++ more).
  split; [now rewrite <- app_assoc | exact Hv].
Qed.

Lemma checked_read (pre : list Ev) (fileId : jsstring) :
  checkedBefore be pre fileId true -> checkedBefore be pre fileId false.
Proof.
  intros (t0 & rest & -> & Hv). exists t0, rest. split; [reflexivity|].
  destruct (DriveAccessFacts.verify_cases be fileId true t0)
    as [[_ (file & perms & Hf & Hp & Hs & _ & Hr)]|[(e & tr' & E) _]].
  - destruct (DriveAccessFacts.verify_cases be fileId false t0) as [[E _]|[_ Hn]].
    + exact E.
    + exfalso. apply Hn. exists file, perms. repeat split; try assumption. discriminate.
  - rewrite E in Hv. discriminate Hv.
Qed.

Lemma checked_here (fileId : jsstring) (requireEdit b : bool) (tr tr' : list Ev) :
  verifyFileAccess be fileId requireEdit tr = (Returned b, tr') ->
  checkedBefore be tr' fileId requireEdit.
Proof.
  intros E. exists tr, [].
  destruct (DriveAccessFacts.verify_cases be fileId requireEdit tr)
    as [[E' _]|[(e & t & E') _]]; rewrite E' in E; [|discriminate E].
  injection E as <- <-. split; [now rewrite app_nil_r | exact E'].
Qed.

(** A call that is no data call. *)
Ltac quiet :=
  idtac;
  intros ? ?; apply guarded_snoc_quiet; [assumption | reflexivity].

(** A call made after the check of [fileId]. *)
Ltac checked :=
  idtac;
  let Hg := fresh in
  let Hc := fresh in
  intros ? [Hg Hc]; split;
  [ first [ apply guarded_snoc_quiet; [exact Hg | reflexivity]
          | eapply guarded_snoc_data;
            [ exact Hg | reflexivity
            | first [ exact Hc | apply checked_read; exact Hc ] ] ]
  | apply checked_more; exact Hc ].

Ltac stepw closer :=
  first
    [ apply FormatFacts.preserves_ret | apply FormatFacts.preserves_throw
    | apply FormatFacts.preserves_deref
    | apply FormatFacts.preserves_bind; [|intros ?]
    | apply FormatFacts.preserves_tryCatch; [|intros ?]
    | apply FormatFacts.preserves_call; solve [closer]
    | apply FormatFacts.preserves_emit; solve [closer]
    | match goal with
      | |- preserves _ (match ?x with _ => _ end) => destruct x
      | |- preserves _ (if ?c then _ else _) => destruct c
      end ].

Lemma checkAccess_quiet (fileId userEmail : jsstring) (requireEdit : bool) :
  preserves (guardedTrace be) (checkAccess be fileId userEmail requireEdit).
Proof.
  unfold checkAccess, verifyFileAccess, getCurrentUserEmail. repeat stepw ltac:(quiet).
Qed.

Lemma verifyFileAccess_quiet (fileId : jsstring) (requireEdit : bool) :
  preserves (guardedTrace be) (verifyFileAccess be fileId requireEdit).
Proof. unfold verifyFileAccess, getCurrentUserEmail. repeat stepw ltac:(quiet). Qed.

(** What follows the verification runs only when it succeeded, and then
    after it. *)
Lemma after_verify {B} (fileId : jsstring) (requireEdit : bool) (k : bool -> M Ev B) :
  (forall b, preserves (fun tr => guardedTrace be tr
                                  /\ checkedBefore be tr fileId requireEdit) (k b)) ->
  preserves (guardedTrace be) (bind (verifyFileAccess be fileId requireEdit) k).
Proof.
  intros Hk tr H. unfold bind.
  pose proof (verifyFileAccess_quiet fileId requireEdit tr H) as Hv.
  destruct (verifyFileAccess be fileId requireEdit tr) as [[b|e] tr'] eqn:E;
    cbn [snd] in *; [|assumption].
  apply (Hk b tr'). split; [assumption | eapply checked_here, E].
Qed.

Lemma after_checkAccess {B} (fileId userEmail : jsstring) (requireEdit : bool)
      (k : option ToolCallResult -> M Ev B) :
  (forall result, preserves (guardedTrace be) (k (Some result))) ->
  preserves (fun tr => guardedTrace be tr /\ checkedBefore be tr fileId requireEdit)
            (k None) ->
  preserves (guardedTrace be) (bind (checkAccess be fileId userEmail requireEdit) k).
Proof.
  intros Hs Hn tr H. unfold bind.
  pose proof (checkAccess_quiet fileId userEmail requireEdit tr H) as Hc.
  destruct (checkAccess be fileId userEmail requireEdit tr) as [[[result|]|e] tr'] eqn:E;
    cbn [snd] in *; [now apply Hs | | assumption].
  apply (Hn tr'). split; [assumption|].
  unfold checkAccess, tryCatch in E. unfold bind at 1 in E.
  destruct (verifyFileAccess be fileId requireEdit tr) as [[b|e] t] eqn:V.
  - unfold ret in E. injection E as <-. eapply checked_here, V.
  - discriminate E.
Qed.

(** A walk through a tool: up to the access check no data call is made;
    what follows the check is made after it. *)
Ltac walk :=
  repeat first
    [ match goal with
      | |- preserves (guardedTrace _) (bind (checkAccess _ _ _ _) _) =>
          apply after_checkAccess; [intros ?|]
      | |- preserves (guardedTrace _) (bind (verifyFileAccess _ _ _) _) =>
          apply after_verify; intros ?
      | |- preserves (guardedTrace _) _ => stepw ltac:(quiet)
      | |- preserves _ _ => stepw ltac:(checked)
      end ].

(** X16. No data call without the access check.  In the trace of a tool
    call, every call that reads cells or sheet metadata ([spreadsheets.get],
    [values.get]) and every call that writes ([values.update],
    [batchUpdate]) comes after the two calls of a verification of the same
    file id that returned true, with edit access required if the call
    writes.  A trace in which this holds still has the property after any
    tool call, whatever the request and the answers. *)
Theorem data_calls_are_guarded (request : CallToolRequest) (tr : list Ev) :
  guardedTrace be tr ->
  guardedTrace be (snd (callTool pf be request tr)).
Proof.
  revert tr. change (preserves (guardedTrace be) (callTool pf be request)).
  unfold callTool.
  destruct (eqs (req_name request) $"search"); [unfold search; walk|].
  destruct (eqs (req_name request) $"list_sheets");
    [unfold list_sheets, extractFileIdFromUrl; walk|].
  destruct (eqs (req_name request) $"read_sheet");
    [unfold read_sheet, resolveReadRange, extractFileIdFromUrl, getCurrentUserEmail; walk|].
  destruct (eqs (req_name request) $"edit_sheet");
    [unfold edit_sheet, qualifyRange, extractFileIdFromUrl, getCurrentUserEmail; walk|].
  destruct (eqs (req_name request) $"format_sheet");
    [unfold format_sheet, qualifyRange, firstSheetId, gridCorners, extractFileIdFromUrl,
       getCurrentUserEmail; walk|].
  apply FormatFacts.preserves_throw.
Qed.

(** *** The sheet id 0 *)

Lemma checkAccess_result (P : list Ev -> Prop) (fileId userEmail : jsstring)
      (requireEdit : bool) (tr : list Ev) :
  preserves P (checkAccess be fileId userEmail requireEdit) ->
  P tr ->
  ends (checkAccess be fileId userEmail requireEdit) tr
       (fun o tr' => P tr'
                     /\ match o with
                        | Returned (Some result) => exists t, result = textResult t true
                        | Returned None => True
                        | Thrown _ => False
                        end).
Proof.
  intros Hp Htr. unfold ends. split; [now apply Hp|].
  unfold checkAccess, tryCatch. unfold bind at 1.
  destruct (verifyFileAccess be fileId requireEdit tr) as [[b|e] t]; cbn; eauto.
Qed.

(** X17. [format_sheet] takes a sheet id of 0 for a missing one.  With a
    Sheets service that reports, for the range asked, a first sheet whose id
    is 0 (or none at all), as it is for the first sheet of a new
    spreadsheet, a call of the tool sends no [batchUpdate], whatever its
    arguments, and its result is an error. *)
Theorem format_sheet_refuses_sheet_id_zero (request : CallToolRequest) (tr : list Ev) :
  (forall fileId ranges tr' spreadsheet,
     spreadsheets_get be fileId ranges tr' = Returned spreadsheet ->
     truthyZ (firstSheetIdOf spreadsheet) = false) ->
  Forall (fun ev => isBatchUpdate ev = false) tr ->
  Forall (fun ev => isBatchUpdate ev = false) (snd (format_sheet pf be request tr))
  /\ exists t, fst (format_sheet pf be request tr) = Returned (textResult t true).
Proof.
  intros Hzero Htr.
  set (P := Forall (fun ev => isBatchUpdate ev = false)) in *.
  change (ends (format_sheet pf be request) tr
               (fun o tr' => P tr' /\ exists t, o = Returned (textResult t true))).
  assert (Hcatch : forall e tr',
             P tr' ->
             ends (ret (textResult (formatSheetFailureText (message e)) true)) tr'
                  (fun o tr'' => P tr'' /\ exists t, o = Returned (textResult t true))).
  { intros e tr' H. split; [exact H | eexists; reflexivity]. }
  unfold format_sheet. apply ends_tryCatch. apply ends_bind.
  apply (ends_keeps P); [unfold extractFileIdFromUrl; repeat step ltac:(reflexivity)
                        | exact Htr |].
  intros [fileId|e] tr1 H1; [|now apply Hcatch].
  apply ends_bind.
  apply (ends_keeps P); [unfold getCurrentUserEmail; repeat step ltac:(reflexivity)
                        | exact H1 |].
  intros [userEmail|e] tr2 H2; [|now apply Hcatch].
  assert (Hc : preserves P (checkAccess be fileId userEmail true)).
  { unfold checkAccess, verifyFileAccess, getCurrentUserEmail.
    repeat step ltac:(reflexivity). }
  apply (ends_bind_post _ _ _ _ _ (checkAccess_result P fileId userEmail true tr2 Hc H2)).
  intros [[result|]|e] tr3 [H3 Hr]; [|clear Hr|destruct Hr].
  { destruct Hr as [t ->]. split; [exact H3 | eexists; reflexivity]. }
  destruct (arg request a_formatting) as [formatting|]; [|now apply Hcatch].
  apply ends_bind.
  apply (ends_keeps P); [unfold qualifyRange; repeat step ltac:(reflexivity)
                        | exact H3 |].
  intros [actualRange|e] tr4 H4; [|now apply Hcatch].
  apply ends_bind. apply ends_call.
  assert (H5 : P (tr4 ++ [EvSpreadsheetsGet fileId [actualRange]
                            $"sheets.properties,sheets.merges"])).
  { apply Forall_app. split; [exact H4 | repeat constructor]. }
  destruct (spreadsheets_get be fileId [actualRange] tr4) as [spreadsheet|e] eqn:Hget;
    [|now apply Hcatch].
  specialize (Hzero _ _ _ _ Hget). unfold firstSheetIdOf in Hzero.
  apply ends_bind. unfold firstSheetId.
  destruct (sheets spreadsheet) as [[|s rest]|].
  - now apply Hcatch.
  - unfold ends, ret. cbn [fst snd]. rewrite Hzero. now apply Hcatch.
  - now apply Hcatch.
Qed.

End Tools.

Lemma format_sheet_refuses_sheet_id_zero_witness :
  Forall (fun ev => isBatchUpdate ev = false)
    (snd (format_sheet samplePlatform newBookBackend
            (mkRequest $"format_sheet" (Some (formatArgs $"1AbC" $"A1:B2" boldOnRed))) []))
  /\ exists t,
       fst (format_sheet samplePlatform newBookBackend
              (mkRequest $"format_sheet" (Some (formatArgs $"1AbC" $"A1:B2" boldOnRed))) [])
       = Returned (textResult t true).
Proof.
  apply (format_sheet_refuses_sheet_id_zero samplePlatform newBookBackend).
  - intros fileId ranges tr' spreadsheet H. injection H as <-. reflexivity.
  - constructor.
Defined.

Lemma data_calls_are_guarded_witness :
  guardedTrace smallBackend
    (snd (callTool samplePlatform smallBackend
            (mkRequest $"edit_sheet"
               (Some (mkArgs None (Some $"1AbC") None (Some $"A1") (Some [[Some $"x"]]) None)))
            [])).
Proof.
  apply (data_calls_are_guarded samplePlatform smallBackend).
  intros pre ev post fileId requireEdit H. destruct pre; discriminate H.
Defined.

End DriveToolFacts.

(* ================================================================= *)
(** ** Range texts: qualifying, reading back, turning into indices *)

Module RangeTextFacts.
Import GDrive GDriveServer Samples ToolNotions.

(** *** Texts with and without the separator *)

Lemma includes_single (c : N) (s : jsstring) :
  includes [c] s = existsb (fun x => (c =? x)%N) s.
Proof.
  induction s as [|x s IH]; [reflexivity|].
  cbn [includes startsWith existsb]. rewrite IH. now rewrite andb_true_r.
Qed.

Lemma not_includes_plain (c : N) (s : jsstring) :
  includes [c] s = false -> forallb (fun x => negb (x =? c)%N) s = true.
Proof.
  rewrite includes_single. induction s as [|x s IH]; [reflexivity|].
  cbn [existsb forallb]. intros H. apply orb_false_iff in H. destruct H as [Hx Hs].
  rewrite N.eqb_sym, Hx. cbn. now apply IH.
Qed.

Lemma split_two (sep : N) (s : jsstring) :
  includes [sep] s = true -> exists a b rest, split sep s = a :: b :: rest.
Proof.
  rewrite includes_single. induction s as [|x s IH]; [discriminate|].
  cbn [existsb split]. rewrite N.eqb_sym. destruct (x =? sep)%N; cbn [orb].
  - intros _. destruct (split sep s) as [|b rest] eqn:E.
    + now destruct (UriFacts.split_nonempty sep s).
    + eauto.
  - intros H. destruct (IH H) as (a & b & rest & ->). eauto.
Qed.

Lemma split_at_first (sep : N) (a b : jsstring) :
  forallb (fun x => negb (x =? sep)%N) a = true ->
  forallb (fun x => negb (x =? sep)%N) b = true ->
  split sep (a ++ [sep] ++ b) = [a; b].
Proof.
  intros Ha Hb. rewrite (UriFacts.split_app_nosep sep a _ Ha).
  cbn [app split]. rewrite N.eqb_refl. cbn [hd tl].
  now rewrite app_nil_r, (DriveResourceFacts.split_plain sep b Hb).
Qed.

(** Qualifying a range that is given, as one equation. *)
Lemma qualifyRange_eq (sheetName : option jsstring) (range : jsstring) (tr : list Ev) :
  qualifyRange sheetName (Some range) tr
  = (Returned (if includes [33%N] range then range
               else orS sheetName $"Sheet1" ++ [33%N] ++ range), tr).
Proof.
  assert (ES : $"Sheet1!" = $"Sheet1" ++ [33%N]) by (vm_compute; reflexivity).
  unfold qualifyRange. change ($"!") with [33%N]. rewrite ES.
  assert (Hi : forall name, includes [33%N] (name ++ [33%N] ++ range) = true)
    by (intros name; apply AccessFacts.includes_after, AccessFacts.includes_here).
  destruct sheetName as [[|c name]|]; cbn [truthyS orS deref]; unfold bind, ret;
    cbv beta iota; destruct (includes [33%N] range) eqn:Hr; cbn [negb deref];
    unfold ret; cbv beta iota; rewrite ?Hr, ?Hi; cbn [negb];
    rewrite <- ?app_assoc; reflexivity.
Qed.

(** X18. The range [edit_sheet] and [format_sheet] work with.  For a
    range given, qualifying calls nothing and always returns a text that
    contains "!": the range itself when it already contains one, else the
    range prefixed with the sheet name, or with Sheet1 when no name is
    given; so the part after the first "!" always exists.  When neither the
    name used nor the range contains "!", splitting the result at "!"
    gives back exactly the two.  A missing range is a TypeError. *)
Theorem qualifyRange_result (sheetName : option jsstring) (range : jsstring)
        (tr : list Ev) :
  (exists actualRange,
     qualifyRange sheetName (Some range) tr = (Returned actualRange, tr)
     /\ includes $"!" actualRange = true
     /\ (includes $"!" range = true -> actualRange = range)
     /\ (includes $"!" range = false ->
         actualRange = orS sheetName $"Sheet1" ++ $"!" ++ range
         /\ (includes $"!" (orS sheetName $"Sheet1") = false ->
             bangPart 0 actualRange = Some (orS sheetName $"Sheet1")
             /\ bangPart 1 actualRange = Some range))
     /\ exists a1, bangPart 1 actualRange = Some a1)
  /\ fst (qualifyRange sheetName None tr) = Thrown TypeError.
Proof.
  change ($"!") with [33%N].
  split.
  2:{ unfold qualifyRange. destruct (truthyS sheetName); reflexivity. }
  rewrite qualifyRange_eq. eexists. split; [reflexivity|].
  destruct (includes [33%N] range) eqn:Hr.
  - split; [exact Hr|]. split; [reflexivity|]. split; [discriminate|].
    destruct (split_two 33 range Hr) as (a & b & rest & E).
    exists b. unfold bangPart. now rewrite E.
  - assert (Hi : includes [33%N] (orS sheetName $"Sheet1" ++ [33%N] ++ range) = true)
      by (apply AccessFacts.includes_after, AccessFacts.includes_here).
    split; [exact Hi|]. split; [discriminate|]. split.
    + intros _. split; [reflexivity|]. intros Hn. unfold bangPart.
      rewrite split_at_first by now apply not_includes_plain.
      split; reflexivity.
    + destruct (split_two 33 _ Hi) as (a & b & rest & E).
      exists b. unfold bangPart. now rewrite E.
Qed.

(** *** The range asked of [values.get] *)

Section Read.

Variable be : Backend.

(** X19. The range [read_sheet] asks for.  A range given is used exactly
    as it is, with no lookup and without the sheet name, also when a name
    is given; with neither, the range is Sheet1!A1:Z1000; with a name
    only, the sheet list is asked for once, and when no sheet of the list
    answered carries the name as its title (or no list is answered) the
    tool ends in the error that the sheet was not found. *)
Theorem read_range_resolution (fileId : jsstring) (sheetName range : option jsstring)
        (tr : list Ev) :
  (truthyS range = true ->
   resolveReadRange be fileId sheetName range tr = (Returned (orS range []), tr))
  /\ (truthyS range = false -> truthyS sheetName = false ->
      resolveReadRange be fileId sheetName range tr
      = (Returned $"Sheet1!A1:Z1000", tr))
  /\ (truthyS range = false -> truthyS sheetName = true ->
      forall metadata,
        spreadsheets_get be fileId [] tr = Returned metadata ->
        (forall l s, sheets metadata = Some l -> In s l ->
                     ~ titled (orS sheetName []) s) ->
        resolveReadRange be fileId sheetName range tr
        = (Thrown (Error ($"Không tìm thấy sheet có tên " ++ dquote
                          ++ orS sheetName [] ++ dquote)),
           tr ++ [EvSpreadsheetsGet fileId [] $"sheets.properties"])).
Proof.
  unfold resolveReadRange. split; [|split].
  - intros Hr. rewrite Hr, andb_false_r. unfold bind, ret. cbv beta iota.
    now rewrite Hr.
  - intros Hr Hs. rewrite Hr, Hs. cbn [andb]. unfold bind, ret. cbv beta iota.
    now rewrite Hr.
  - intros Hr Hs metadata Hget Hnone.
    pose proof (RangeFacts.findSheet_none metadata (orS sheetName []) Hnone) as Hfind.
    rewrite Hr, Hs. cbn [andb negb].
    unfold bind at 1. unfold bind at 1. unfold call. cbv beta iota.
    now rewrite Hget, Hfind.
Qed.

End Read.

(** *** Rows as text *)

Lemma csv_round_trip (rows : list (list jsstring)) :
  ResourceNotions.csvSafe rows = true ->
  GDriveResources.readCsv (join nl (map (join $",") rows)) = rows.
Proof.
  unfold ResourceNotions.csvSafe, GDriveResources.readCsv. intros H.
  destruct rows as [|row0 rows0]; [discriminate|].
  set (rows := row0 :: rows0) in *.
  change (match rows with [] => false | _ => _ end)
    with (forallb (fun row => match row with
                              | [] => false
                              | _ => forallb ResourceNotions.plainText row
                              end) rows) in H.
  rewrite forallb_forall in H.
  assert (Hrow : forall row, In row rows ->
            row <> []
            /\ forallb (forallb (fun c => negb (c =? 44)%N)) row = true
            /\ forallb (forallb (fun c => negb (c =? 10)%N)) row = true).
  { intros row Hin. specialize (H row Hin).
    destruct row as [|t ts]; [discriminate|].
    rewrite forallb_forall in H.
    repeat split; try discriminate; rewrite forallb_forall; intros x Hx;
      apply (DriveResourceFacts.plainText_split x (H x Hx)). }
  change nl with [10%N]. change ($",") with [44%N].
  rewrite DriveResourceFacts.split_join.
  - rewrite map_map. rewrite <- (map_id rows) at 2. apply map_ext_in. intros row Hin.
    destruct (Hrow row Hin) as (Hne & H44 & _).
    now apply DriveResourceFacts.split_join.
  - discriminate.
  - rewrite forallb_forall. intros line Hline. apply in_map_iff in Hline.
    destruct Hline as (row & <- & Hin).
    destruct (Hrow row Hin) as (_ & _ & H10). now apply DriveResourceFacts.join_free.
Qed.

(** X20. The rows [read_sheet] prints can be read back: when there is at
    least one row, every row has at least one cell and no cell holds a
    comma or a line feed, splitting the text at the line feeds and each
    line at the commas gives the cells back, a missing cell as the empty
    text. *)
Theorem formatRows_reads_back (rows : list (list Cell)) :
  ResourceNotions.csvSafe (map (map (fun cell => orS cell [])) rows) = true ->
  GDriveResources.readCsv (formatRows rows) = map (map (fun cell => orS cell [])) rows.
Proof.
  intros H. unfold formatRows.
  rewrite <- (map_map (map (fun cell : Cell => orS cell [])) (join $",")).
  exact (csv_round_trip _ H).
Qed.

Lemma formatRows_reads_back_witness :
  GDriveResources.readCsv (formatRows [[Some $"name"; Some $"qty"]; [Some $"bolt"; None]])
  = [[$"name"; $"qty"]; [$"bolt"; []]].
Proof.
  exact (formatRows_reads_back [[Some $"name"; Some $"qty"]; [Some $"bolt"; None]] eq_refl).
Defined.

(** *** From A1 notation to indices *)

Lemma cellAt_cell (col row rest : jsstring) :
  col <> [] -> forallb isUpper col = true ->
  row <> [] -> forallb isDigit row = true ->
  match rest with c :: _ => isDigit c | [] => false end = false ->
  cellAt (col ++ row ++ rest) = Some (col, row, rest).
Proof.
  intros Hc Hcol Hr Hrow Hrest. unfold cellAt.
  rewrite (DriveAccessFacts.span_prefix isUpper col (row ++ rest) Hcol).
  2:{ destruct row as [|d row]; [congruence|]. cbn in Hrow |- *.
      apply andb_prop in Hrow. destruct Hrow as [Hd _].
      unfold isDigit, isUpper in *. UriFacts.unbool. lia. }
  rewrite (DriveAccessFacts.span_prefix isDigit row rest Hrow Hrest).
  destruct col; [congruence|]. destruct row; [congruence|]. reflexivity.
Qed.

Lemma cellAt_suffix (q : N -> bool) (s col row rest : jsstring) :
  forallb q s = true -> cellAt s = Some (col, row, rest) -> forallb q rest = true.
Proof.
  unfold cellAt. intros Hs.
  pose proof (UriFacts.span_snd_forall isUpper q s Hs) as H1.
  destruct (span isUpper s) as [[|c col'] r1]; [discriminate|]. cbn [snd] in H1.
  pose proof (UriFacts.span_snd_forall isDigit q r1 H1) as H2.
  destruct (span isDigit r1) as [[|d row'] r2]; [discriminate|]. cbn [snd] in H2.
  intros E. now injection E as <- <- <-.
Qed.

Lemma matchRange_no_colon (s : jsstring) :
  forallb (fun c => negb (c =? 58)%N) s = true -> matchRange s = None.
Proof.
  assert (Hat : forall t, forallb (fun c => negb (c =? 58)%N) t = true -> rangeAt t = None).
  { intros t Ht. unfold rangeAt.
    destruct (cellAt t) as [[[col row] [|c rest]]|] eqn:E; try reflexivity.
    pose proof (cellAt_suffix _ _ _ _ _ Ht E) as Hc. cbn [forallb] in Hc.
    apply andb_prop in Hc. destruct Hc as [Hc _].
    now destruct (c =? 58)%N. }
  induction s as [|c s IH]; intros H; cbn [matchRange]; rewrite (Hat _ H); [reflexivity|].
  cbn [forallb] in H. apply andb_prop in H. now apply IH.
Qed.

Lemma matchCell_here (s col row rest : jsstring) :
  cellAt s = Some (col, row, rest) -> matchCell s = Some (col, row).
Proof. intros E. destruct s; cbn [matchCell]; now rewrite E. Qed.

Lemma matchRange_here (s : jsstring) (groups : jsstring * jsstring * jsstring * jsstring) :
  rangeAt s = Some groups -> matchRange s = Some groups.
Proof. intros E. destruct s; cbn [matchRange]; now rewrite E. Qed.

Lemma no_upper_no_cell (s : jsstring) :
  forallb (fun c => negb (isUpper c)) s = true -> matchCell s = None /\ matchRange s = None.
Proof.
  assert (Hat : forall t, forallb (fun c => negb (isUpper c)) t = true -> cellAt t = None).
  { intros [|c t] Ht; [reflexivity|]. unfold cellAt. cbn [span forallb] in *.
    apply andb_prop in Ht. destruct Ht as [Hc _]. apply negb_true_iff in Hc.
    now rewrite Hc. }
  induction s as [|c s IH]; intros H.
  - split; reflexivity.
  - cbn [matchCell matchRange]. unfold rangeAt. rewrite (Hat _ H).
    cbn [forallb] in H. apply andb_prop in H. now apply IH.
Qed.

Lemma letters_not_colon (s : jsstring) (p : N -> bool) :
  (forall c, p c = true -> (c =? 58)%N = false) ->
  forallb p s = true -> forallb (fun c => negb (c =? 58)%N) s = true.
Proof.
  intros Hp. apply UriFacts.forallb_impl. intros c Hc. now rewrite (Hp c Hc).
Qed.

(** *** Row numbers and column names that are exact *)

Lemma decimal_snoc (s : jsstring) (c : N) :
  decimal (s ++ [c]) = decimal s * 10 + (Z.of_N c - 48).
Proof. unfold decimal. now rewrite fold_left_app. Qed.

Lemma decimal_bound (s : jsstring) :
  forallb isDigit s = true -> 0 <= decimal s < 10 ^ Z.of_nat (List.length s).
Proof.
  induction s as [|c s IH] using rev_ind; intros H.
  - cbn. lia.
  - rewrite forallb_app in H. apply andb_prop in H. destruct H as [Hs Hc].
    cbn [forallb] in Hc. rewrite andb_true_r in Hc.
    specialize (IH Hs). rewrite decimal_snoc, length_app. cbn [List.length].
    replace (Z.of_nat (List.length s + 1)) with (Z.of_nat (List.length s) + 1) by lia.
    rewrite Z.pow_add_r by lia. change (10 ^ 1) with 10.
    unfold isDigit in Hc. UriFacts.unbool. lia.
Qed.

(** Up to fifteen digits, the number read is the number written. *)
Lemma decimal_safe (s : jsstring) :
  forallb isDigit s = true -> (List.length s <= 15)%nat ->
  0 <= decimal s < 2 ^ 53 - 1.
Proof.
  intros Hd Hn. pose proof (decimal_bound s Hd) as Hb.
  assert (Hp : 10 ^ Z.of_nat (List.length s) <= 10 ^ 15)
    by (apply Z.pow_le_mono_r; lia).
  change (10 ^ 15) with 1000000000000000 in Hp.
  change (2 ^ 53) with 9007199254740992. lia.
Qed.

Lemma parseInt_exact (s : jsstring) :
  forallb isDigit s = true -> (List.length s <= 15)%nat ->
  parseInt s = Int (decimal s)
  /\ addZ (parseInt s) (-1) = Int (decimal s - 1)
  /\ addZ (addZ (parseInt s) (-1)) 1 = Int (decimal s).
Proof.
  intros Hd Hn. pose proof (decimal_safe s Hd Hn) as Hb.
  assert (E : parseInt s = Int (decimal s)).
  { unfold parseInt. apply ColumnFacts.toNumber_small.
    change (2 ^ 53) with 9007199254740992 in *. lia. }
  rewrite E. cbn [addZ].
  rewrite (ColumnFacts.toNumber_small (decimal s + -1))
    by (change (2 ^ 53) with 9007199254740992 in *; lia).
  cbn [addZ].
  rewrite (ColumnFacts.toNumber_small (decimal s + -1 + 1))
    by (change (2 ^ 53) with 9007199254740992 in *; lia).
  repeat split; f_equal; lia.
Qed.

Lemma letters_forallb (s : jsstring) : forallb isUpper s = true -> letters s.
Proof. intros H. apply Forall_forall. now apply forallb_forall. Qed.

Lemma column_exact (s : jsstring) :
  forallb isUpper s = true -> (List.length s <= 11)%nat ->
  columnLetterToNumber s = Int (positional s - 1)
  /\ addZ (columnLetterToNumber s) 1 = Int (positional s).
Proof.
  intros Hu Hn. pose proof (letters_forallb s Hu) as Hl.
  rewrite (ColumnFacts.columnLetterToNumber_exact s Hl Hn). split; [reflexivity|].
  cbn [addZ].
  assert (Hb : 0 <= exactLoop s < 2 ^ 53).
  { apply (ColumnFacts.exactLoop_safe_integer s []); now rewrite app_nil_r. }
  rewrite ColumnFacts.exactLoop_positional in Hb.
  rewrite ColumnFacts.toNumber_small by lia. f_equal. lia.
Qed.

(** X21. The corners of a range in A1 notation.  For column names of one
    to eleven capital letters and row numbers of one to fifteen decimal
    digits, the range col1row1:col2row2 gives the 0-based columns of the two
    names (their value as bijective base-26 numerals, less one) and the two
    row numbers less one, all of them exact; a single cell colrow gives the
    same corner twice.  Nothing is called. *)
Theorem gridCorners_of_a1 (col1 row1 col2 row2 : jsstring) (tr : list Ev) :
  col1 <> [] -> forallb isUpper col1 = true -> (List.length col1 <= 11)%nat ->
  row1 <> [] -> forallb isDigit row1 = true -> (List.length row1 <= 15)%nat ->
  col2 <> [] -> forallb isUpper col2 = true -> (List.length col2 <= 11)%nat ->
  row2 <> [] -> forallb isDigit row2 = true -> (List.length row2 <= 15)%nat ->
  gridCorners (col1 ++ row1 ++ $":" ++ col2 ++ row2) tr
  = (Returned (Int (positional col1 - 1), Int (decimal row1 - 1),
               Int (positional col2 - 1), Int (decimal row2 - 1)), tr)
  /\ gridCorners (col1 ++ row1) tr
     = (Returned (Int (positional col1 - 1), Int (decimal row1 - 1),
                  Int (positional col1 - 1), Int (decimal row1 - 1)), tr).
Proof.
  intros Hc1 Hcol1 Hn1 Hr1 Hrow1 Hm1 Hc2 Hcol2 Hn2 Hr2 Hrow2 Hm2.
  destruct (column_exact col1 Hcol1 Hn1) as [Ecol1 _].
  destruct (column_exact col2 Hcol2 Hn2) as [Ecol2 _].
  destruct (parseInt_exact row1 Hrow1 Hm1) as (_ & Erow1 & _).
  destruct (parseInt_exact row2 Hrow2 Hm2) as (_ & Erow2 & _).
  change ($":") with [58%N]. unfold gridCorners. split.
  - assert (E1 : cellAt (col1 ++ row1 ++ [58%N] ++ col2 ++ row2)
                 = Some (col1, row1, [58%N] ++ col2 ++ row2))
      by now apply cellAt_cell.
    assert (E2 : cellAt (col2 ++ row2) = Some (col2, row2, [])).
    { rewrite <- (app_nil_r row2) at 1. now apply cellAt_cell. }
    rewrite (matchRange_here _ (col1, row1, col2, row2)).
    + now rewrite Ecol1, Ecol2, Erow1, Erow2.
    + unfold rangeAt. rewrite E1. cbn [app]. rewrite N.eqb_refl, E2. reflexivity.
  - assert (E : cellAt (col1 ++ row1) = Some (col1, row1, [])).
    { rewrite <- (app_nil_r row1) at 1. now apply cellAt_cell. }
    rewrite matchRange_no_colon, (matchCell_here _ _ _ _ E).
    + now rewrite Ecol1, Erow1.
    + rewrite forallb_app. apply andb_true_intro. split.
      * apply (letters_not_colon col1 isUpper); [|exact Hcol1].
        intros c Hc. unfold isUpper in Hc. UriFacts.unbool. lia.
      * apply (letters_not_colon row1 isDigit); [|exact Hrow1].
        intros c Hc. unfold isDigit in Hc. UriFacts.unbool. lia.
Qed.

Lemma gridCorners_of_a1_witness :
  gridCorners ($"B" ++ $"2" ++ $":" ++ $"AA" ++ $"10") []
  = (Returned (Int (positional $"B" - 1), Int (decimal $"2" - 1),
               Int (positional $"AA" - 1), Int (decimal $"10" - 1)), [])
  /\ gridCorners ($"B" ++ $"2") []
     = (Returned (Int (positional $"B" - 1), Int (decimal $"2" - 1),
                  Int (positional $"B" - 1), Int (decimal $"2" - 1)), []).
Proof.
  apply (gridCorners_of_a1 $"B" $"2" $"AA" $"10" []);
    first [reflexivity | discriminate | cbn; lia].
Defined.

(** X22. A range text without any capital letter names no cell for
    [format_sheet]: a range written in small letters, such as a1:b2, or
    made of row numbers only, ends in the error that the range format is
    invalid. *)
Theorem gridCorners_needs_capitals (a1 : jsstring) (tr : list Ev) :
  forallb (fun c => negb (isUpper c)) a1 = true ->
  gridCorners a1 tr = (Thrown (Error $"Định dạng range không hợp lệ"), tr).
Proof.
  intros H. destruct (no_upper_no_cell a1 H) as [Hc Hr].
  unfold gridCorners. now rewrite Hr, Hc.
Qed.

Lemma gridCorners_needs_capitals_witness :
  gridCorners $"a1:b2" [] = (Thrown (Error $"Định dạng range không hợp lệ"), []).
Proof. exact (gridCorners_needs_capitals $"a1:b2" [] eq_refl). Defined.

End RangeTextFacts.

(* ================================================================= *)
(** ** The tools listed and the tools dispatched *)

Module ToolListFacts.
Import GDrive GDriveServer Samples ToolNotions Tools.

Lemma driveTools_names : map td_name driveTools = toolNames.
Proof. reflexivity. Qed.

Section Dispatch.

Variable pf : Platform.
Variable be : Backend.

(** X23. The tools the Drive server lists are the tools it dispatches.
    A call of a listed tool other than search always ends in a result,
    never in a thrown error; a call under any name that is not listed is
    refused with "Tool not found" and nothing is called. *)
Theorem listed_tools_are_dispatched (request : CallToolRequest) (tr : list Ev) :
  (In (req_name request) (map td_name driveTools) ->
   req_name request <> $"search" ->
   exists result tr', callTool pf be request tr = (Returned result, tr'))
  /\ (~ In (req_name request) (map td_name driveTools) ->
      callTool pf be request tr = (Thrown (Error $"Tool not found"), tr)).
Proof.
  rewrite driveTools_names. split.
  - intros Hin Hname. apply DispatchFacts.sheet_tools_never_throw.
    unfold toolNames in Hin. cbn [In] in Hin |- *.
    destruct Hin as [E|Hin]; [congruence | exact Hin].
  - apply DispatchFacts.unknown_tool_throws.
Qed.

(** X24. Listing the sheets of a spreadsheet given by its id: when the
    id holds no "http", the Drive reports a spreadsheet that is shared
    with anyone or a domain, or whose revisions can be read, and the
    Sheets service answers a sheet list, the tool makes the three calls
    (file, permissions, sheet properties) and answers, without error, the
    serialised summaries of the sheets, one per sheet and in their order. *)
Theorem list_sheets_lists_every_sheet (fileId : jsstring) (file : FileData)
        (perms : PermissionsData) (response : SpreadsheetData) (sheetList : list Sheet)
        (tr : list Ev) :
  includes $"http" fileId = false ->
  files_get be fileId tr = Returned file ->
  isSpreadsheet file = true ->
  permissions_list be fileId (tr ++ [filesGetEv fileId]) = Returned perms ->
  isPublic perms = true \/ hasReadAccess file = true ->
  spreadsheets_get be fileId [] (tr ++ [filesGetEv fileId; permissionsListEv fileId])
  = Returned response ->
  sheets response = Some sheetList ->
  callTool pf be
    (mkRequest $"list_sheets" (Some (mkArgs None (Some fileId) None None None None))) tr
  = (Returned (textResult ($"Danh sách các sheet:" ++ nl
                           ++ JSON_stringify pf (map summary sheetList)) false),
     tr ++ [filesGetEv fileId; permissionsListEv fileId;
            EvSpreadsheetsGet fileId [] $"sheets.properties"]).
Proof.
  intros Hh Hfile Hs Hperms Hread Hget Hsheets.
  assert (Hname : callTool pf be
                    (mkRequest $"list_sheets"
                       (Some (mkArgs None (Some fileId) None None None None)))
                  = list_sheets pf be
                      (mkRequest $"list_sheets"
                         (Some (mkArgs None (Some fileId) None None None None))))
    by (unfold callTool; cbn [req_name];
        assert (E1 : eqs $"list_sheets" $"search" = false) by (vm_compute; reflexivity);
        rewrite E1, eqs_refl; reflexivity).
  rewrite Hname.
  destruct (DriveAccessFacts.verify_cases be fileId false tr) as [[E _]|[_ Hn]].
  2:{ exfalso. apply Hn. exists file, perms. repeat split; try assumption. discriminate. }
  unfold list_sheets, tryCatch, arg. cbn [req_arguments a_fileId].
  unfold bind at 1. unfold extractFileIdFromUrl. cbn [deref].
  unfold bind at 1. unfold ret at 1. cbv beta iota. rewrite Hh. cbn [negb].
  unfold ret at 1. cbv beta iota.
  unfold bind at 1. rewrite E. cbv beta iota.
  unfold bind at 1. unfold call. cbv beta iota. rewrite Hget, Hsheets.
  unfold ret. cbn [option_map showS]. now rewrite <- app_assoc.
Qed.

(** X25. [edit_sheet] without usable values: when the request carries no
    array of values, the tool sends no [values.update], whatever the other
    arguments and the answers of the services, and its result is an
    error. *)
Theorem edit_sheet_needs_values (request : CallToolRequest) (tr : list Ev) :
  arg request a_values = None ->
  Forall (fun ev => isValuesUpdate ev = false) tr ->
  Forall (fun ev => isValuesUpdate ev = false) (snd (edit_sheet pf be request tr))
  /\ exists t, fst (edit_sheet pf be request tr) = Returned (textResult t true).
Proof.
  intros Hvalues Htr.
  set (P := Forall (fun ev => isValuesUpdate ev = false)) in *.
  change (ends (edit_sheet pf be request) tr
               (fun o tr' => P tr' /\ exists t, o = Returned (textResult t true))).
  assert (Hcatch : forall e tr',
             P tr' ->
             ends (ret (textResult (editSheetFailureText (message e)) true)) tr'
                  (fun o tr'' => P tr'' /\ exists t, o = Returned (textResult t true))).
  { intros e tr' H. split; [exact H | eexists; reflexivity]. }
  unfold edit_sheet. rewrite Hvalues.
  apply DriveToolFacts.ends_tryCatch. apply DriveToolFacts.ends_bind.
  apply (DriveToolFacts.ends_keeps P);
    [unfold extractFileIdFromUrl; repeat DriveToolFacts.step ltac:(reflexivity)
    | exact Htr |].
  intros [fileId|e] tr1 H1; [|now apply Hcatch].
  apply DriveToolFacts.ends_bind.
  apply (DriveToolFacts.ends_keeps P);
    [unfold getCurrentUserEmail; repeat DriveToolFacts.step ltac:(reflexivity)
    | exact H1 |].
  intros [userEmail|e] tr2 H2; [|now apply Hcatch].
  assert (Hc : preserves P (checkAccess be fileId userEmail true)).
  { unfold checkAccess, verifyFileAccess, getCurrentUserEmail.
    repeat DriveToolFacts.step ltac:(reflexivity). }
  apply (DriveToolFacts.ends_bind_post _ _ _ _ _
           (DriveToolFacts.checkAccess_result be P fileId userEmail true tr2 Hc H2)).
  intros [[result|]|e] tr3 [H3 Hr]; [| |destruct Hr].
  - destruct Hr as [t ->]. split; [exact H3 | eexists; reflexivity].
  - now apply Hcatch.
Qed.

End Dispatch.

Lemma list_sheets_lists_every_sheet_witness :
  callTool samplePlatform smallBackend
    (mkRequest $"list_sheets" (Some (mkArgs None (Some $"1AbC") None None None None))) []
  = (Returned (textResult ($"Danh sách các sheet:" ++ nl ++ $"[]") false),
     [] ++ [filesGetEv $"1AbC"; permissionsListEv $"1AbC";
            EvSpreadsheetsGet $"1AbC" [] $"sheets.properties"]).
Proof.
  exact (list_sheets_lists_every_sheet samplePlatform smallBackend $"1AbC"
           (mkFileData (Some $"application/vnd.google-apps.spreadsheet")
              (Some (mkCapabilities (Some true) (Some true))))
           (mkPermissionsData (Some [])) smallBook
           [sheetWith $"Summary" 1000 26; sheetWith $"Data" 10 3] []
           eq_refl eq_refl eq_refl eq_refl (or_intror eq_refl) eq_refl eq_refl).
Defined.

Lemma edit_sheet_needs_values_witness :
  Forall (fun ev => isValuesUpdate ev = false)
    (snd (edit_sheet samplePlatform smallBackend
            (mkRequest $"edit_sheet"
               (Some (mkArgs None (Some $"1AbC") None (Some $"A1") None None))) []))
  /\ exists t,
       fst (edit_sheet samplePlatform smallBackend
              (mkRequest $"edit_sheet"
                 (Some (mkArgs None (Some $"1AbC") None (Some $"A1") None None))) [])
       = Returned (textResult t true).
Proof.
  exact (edit_sheet_needs_values samplePlatform smallBackend
           (mkRequest $"edit_sheet"
              (Some (mkArgs None (Some $"1AbC") None (Some $"A1") None None)))
           [] eq_refl (Forall_nil _)).
Defined.

End ToolListFacts.

(* ================================================================= *)
(** ** The sheet tools from end to end *)

Module ToolRunFacts.
Import GDrive GDriveServer Samples ToolNotions.

(** *** Running a handler step by step *)

Lemma bind_returned {A B} (m : M Ev A) (k : A -> M Ev B) (tr tr' : list Ev) (a : A) :
  m tr = (Returned a, tr') -> bind m k tr = k a tr'.
Proof. intros H. unfold bind. now rewrite H. Qed.

Lemma bind_thrown {A B} (m : M Ev A) (k : A -> M Ev B) (tr tr' : list Ev) (e : Exn) :
  m tr = (Thrown e, tr') -> bind m k tr = (Thrown e, tr').
Proof. intros H. unfold bind. now rewrite H. Qed.

(** A [catch] block that returns a result adds nothing to the trace. *)
Lemma tryCatch_ret {A} (m : M Ev A) (g : Exn -> A) (tr : list Ev) :
  tryCatch m (fun err => ret (g err)) tr
  = (match fst (m tr) with
     | Returned a => Returned a
     | Thrown e => Returned (g e)
     end, snd (m tr)).
Proof. unfold tryCatch, ret. now destruct (m tr) as [[a|e] tr']. Qed.

Lemma firstSheetId_some (spreadsheet : SpreadsheetData) (sid : Z) (tr : list Ev) :
  firstSheetIdOf spreadsheet = Some sid ->
  firstSheetId spreadsheet tr = (Returned (Some sid), tr).
Proof.
  unfold firstSheetIdOf, firstSheetId.
  destruct (sheets spreadsheet) as [[|s rest]|]; try discriminate.
  now intros ->.
Qed.

Lemma plain_range (s : jsstring) (p : N -> bool) :
  (forall c, p c = true -> (c =? 33)%N = false) ->
  forallb p s = true -> forallb (fun c => negb (c =? 33)%N) s = true.
Proof.
  intros Hp. apply UriFacts.forallb_impl. intros c Hc. now rewrite (Hp c Hc).
Qed.

Lemma plain_not_includes (c : N) (s : jsstring) :
  forallb (fun x => negb (x =? c)%N) s = true -> includes [c] s = false.
Proof.
  rewrite RangeTextFacts.includes_single. induction s as [|x s IH]; [reflexivity|].
  cbn [forallb existsb]. intros H. apply andb_prop in H. destruct H as [Hx Hs].
  rewrite N.eqb_sym. apply negb_true_iff in Hx. now rewrite Hx, IH.
Qed.

Section Granted.

Variable pf : Platform.
Variable be : Backend.

(** The spreadsheet is given by its id, the identity is known, and the
    verification of edit access succeeds. *)
Variable fileId : jsstring.
Variable about : AboutData.
Variable file : FileData.
Variable perms : PermissionsData.
Variable tr : list Ev.

Let tr1 : list Ev := tr ++ [EvAboutGet $"user(emailAddress)"].
Let tr2 : list Ev := tr1 ++ [filesGetEv fileId; permissionsListEv fileId].

Hypothesis Hplain : includes $"http" fileId = false.
Hypothesis Habout : about_get be tr = Returned about.
Hypothesis Hfile : files_get be fileId tr1 = Returned file.
Hypothesis Hsheet : isSpreadsheet file = true.
Hypothesis Hperms : permissions_list be fileId (tr1 ++ [filesGetEv fileId]) = Returned perms.
Hypothesis Hedit : hasEditAccess file = true.
Hypothesis Hread : isPublic perms = true \/ hasReadAccess file = true.

Lemma extract_plain : extractFileIdFromUrl pf (Some fileId) tr = (Returned fileId, tr).
Proof. unfold extractFileIdFromUrl. cbn [deref]. unfold bind, ret. now rewrite Hplain. Qed.

Lemma email_known :
  getCurrentUserEmail be tr = (Returned (orS (user_emailAddress about) []), tr1).
Proof. unfold getCurrentUserEmail, tryCatch, bind, call, ret. now rewrite Habout. Qed.

Lemma access_granted (userEmail : jsstring) :
  checkAccess be fileId userEmail true tr1 = (Returned None, tr2).
Proof.
  unfold checkAccess, tryCatch. unfold bind at 1.
  destruct (DriveAccessFacts.verify_cases be fileId true tr1) as [[E _]|[_ Hn]].
  - now rewrite E.
  - exfalso. apply Hn. exists file, perms. repeat split; try assumption.
    intros _. exact Hedit.
Qed.

(** X26. [edit_sheet] from end to end.  For a spreadsheet given by its id
    and verified for editing, with a range and values given, the tool sends
    exactly one [values.update], after the three calls of the checks: to
    that file, for the range qualified with the sheet name (or Sheet1), with
    the input option USER_ENTERED and the values as they were given.  Its
    result is no error exactly when the service answers with status 200;
    any other status is reported as an error although the update was
    sent. *)
Theorem edit_sheet_sends_the_values (sheetName : option jsstring) (range : jsstring)
        (values : list (list Cell)) :
  let actualRange := if includes $"!" range then range
                     else orS sheetName $"Sheet1" ++ $"!" ++ range in
  exists result,
    callTool pf be
      (mkRequest $"edit_sheet"
         (Some (mkArgs None (Some fileId) sheetName (Some range) (Some values) None))) tr
    = (Returned result,
       tr2 ++ [EvValuesUpdate fileId actualRange $"USER_ENTERED" values])
    /\ (isError result = false
        <-> exists response,
              values_update be fileId actualRange values tr2 = Returned response
              /\ ur_status response = 200).
Proof.
  change ($"!") with [33%N]. intros actualRange.
  assert (Hname : callTool pf be
                    (mkRequest $"edit_sheet"
                       (Some (mkArgs None (Some fileId) sheetName (Some range)
                                (Some values) None)))
                  = edit_sheet pf be
                      (mkRequest $"edit_sheet"
                         (Some (mkArgs None (Some fileId) sheetName (Some range)
                                  (Some values) None)))).
  { unfold callTool. cbn [req_name].
    assert (E1 : eqs $"edit_sheet" $"search" = false) by (vm_compute; reflexivity).
    assert (E2 : eqs $"edit_sheet" $"list_sheets" = false) by (vm_compute; reflexivity).
    assert (E3 : eqs $"edit_sheet" $"read_sheet" = false) by (vm_compute; reflexivity).
    now rewrite E1, E2, E3, eqs_refl. }
  rewrite Hname. unfold edit_sheet, arg.
  cbn [req_arguments a_fileId a_sheetName a_range a_values].
  rewrite tryCatch_ret.
  rewrite (bind_returned _ _ _ _ _ extract_plain).
  rewrite (bind_returned _ _ _ _ _ email_known).
  rewrite (bind_returned _ _ _ _ _ (access_granted _)).
  rewrite (bind_returned _ _ _ _ _ (RangeTextFacts.qualifyRange_eq sheetName range tr2)).
  fold actualRange. unfold bind, call.
  destruct (values_update be fileId actualRange values tr2) as [response|e].
  - destruct (ur_status response =? 200) eqn:Hstatus; cbn [negb fst snd].
    + eexists. split; [reflexivity|]. cbn [isError textResult].
      split; [intros _ | reflexivity].
      exists response. split; [reflexivity | now apply Z.eqb_eq].
    + eexists. split; [reflexivity|]. cbn [isError textResult].
      split; [discriminate|]. intros (r & E & Hr). injection E as <-.
      apply Z.eqb_neq in Hstatus. contradiction.
  - cbn [fst snd]. eexists. split; [reflexivity|]. cbn [isError textResult].
    split; [discriminate | intros (r & E & _); discriminate E].
Qed.

(** X27. [format_sheet] from end to end.  For a spreadsheet given by its
    id and verified for editing, a range col1row1:col2row2 of column names
    of one to eleven capital letters and row numbers of one to fifteen
    digits, and a sheet (named, or Sheet1) whose name holds no "!" and whose
    id, as the Sheets service reports it for the qualified range, is not 0,
    the tool sends exactly one [batchUpdate] with one request: its grid
    range has that sheet id, the rows from row1 - 1 up to but not
    including row2, and the columns from the 0-based index of col1 up to
    but not including the index of col2 plus one, all of them exact; its
    format object and field mask are those computed from the formatting.
    The result is no error exactly when the service answers with status
    200. *)
Theorem format_sheet_sends_the_range (sheetName : option jsstring)
        (col1 row1 col2 row2 : jsstring) (formatting : Formatting)
        (spreadsheet : SpreadsheetData) (sid : Z) :
  col1 <> [] -> forallb isUpper col1 = true -> (List.length col1 <= 11)%nat ->
  row1 <> [] -> forallb isDigit row1 = true -> (List.length row1 <= 15)%nat ->
  col2 <> [] -> forallb isUpper col2 = true -> (List.length col2 <= 11)%nat ->
  row2 <> [] -> forallb isDigit row2 = true -> (List.length row2 <= 15)%nat ->
  includes $"!" (orS sheetName $"Sheet1") = false ->
  let range := col1 ++ row1 ++ $":" ++ col2 ++ row2 in
  let actualRange := orS sheetName $"Sheet1" ++ $"!" ++ range in
  let tr3 := tr2 ++ [EvSpreadsheetsGet fileId [actualRange]
                       $"sheets.properties,sheets.merges"] in
  let requests :=
    [mkRepeatCell
       (mkGridRange sid (Int (decimal row1 - 1)) (Int (decimal row2))
                    (Int (positional col1 - 1)) (Int (positional col2)))
       (userFormatting pf formatting)
       (fieldMask (userFormatting pf formatting))] in
  spreadsheets_get be fileId [actualRange] tr2 = Returned spreadsheet ->
  firstSheetIdOf spreadsheet = Some sid ->
  sid <> 0 ->
  exists result,
    callTool pf be
      (mkRequest $"format_sheet"
         (Some (mkArgs None (Some fileId) sheetName (Some range) None (Some formatting)))) tr
    = (Returned result, tr3 ++ [EvBatchUpdate fileId requests])
    /\ (isError result = false
        <-> exists response,
              batchUpdate be fileId requests tr3 = Returned response
              /\ br_status response = 200).
Proof.
  change ($"!") with [33%N]. change ($":") with [58%N].
  intros Hc1 Hcol1 Hn1 Hr1 Hrow1 Hm1 Hc2 Hcol2 Hn2 Hr2 Hrow2 Hm2 Hsheetname
         range actualRange tr3 requests Hget Hsid Hnz.
  assert (Hupper : forall c, isUpper c = true -> (c =? 33)%N = false)
    by (intros c Hc; unfold isUpper in Hc; UriFacts.unbool; lia).
  assert (Hdigit : forall c, isDigit c = true -> (c =? 33)%N = false)
    by (intros c Hc; unfold isDigit in Hc; UriFacts.unbool; lia).
  assert (Hplainr : forallb (fun c => negb (c =? 33)%N) range = true).
  { unfold range. rewrite !forallb_app. cbn [forallb].
    rewrite (plain_range col1 isUpper Hupper Hcol1), (plain_range row1 isDigit Hdigit Hrow1),
      (plain_range col2 isUpper Hupper Hcol2), (plain_range row2 isDigit Hdigit Hrow2).
    reflexivity. }
  assert (Hq : qualifyRange sheetName (Some range) tr2 = (Returned actualRange, tr2)).
  { rewrite RangeTextFacts.qualifyRange_eq.
    now rewrite (plain_not_includes 33 range Hplainr). }
  assert (Hpart : bangPart 1 actualRange = Some range
                  /\ bangPart 0 actualRange = Some (orS sheetName $"Sheet1")).
  { unfold bangPart, actualRange.
    rewrite RangeTextFacts.split_at_first;
      [split; reflexivity | now apply RangeTextFacts.not_includes_plain | exact Hplainr]. }
  destruct Hpart as [Hpart1 Hpart0].
  assert (Hcorners : gridCorners range tr3
                     = (Returned (columnLetterToNumber col1, addZ (parseInt row1) (-1),
                                  columnLetterToNumber col2, addZ (parseInt row2) (-1)),
                        tr3)).
  { unfold gridCorners, range.
    assert (E1 : cellAt (col1 ++ row1 ++ [58%N] ++ col2 ++ row2)
                 = Some (col1, row1, [58%N] ++ col2 ++ row2))
      by now apply RangeTextFacts.cellAt_cell.
    assert (E2 : cellAt (col2 ++ row2) = Some (col2, row2, [])).
    { rewrite <- (app_nil_r row2) at 1. now apply RangeTextFacts.cellAt_cell. }
    rewrite (RangeTextFacts.matchRange_here _ (col1, row1, col2, row2)); [reflexivity|].
    unfold rangeAt. rewrite E1. cbn [app]. rewrite N.eqb_refl, E2. reflexivity. }
  assert (Hname : callTool pf be
                    (mkRequest $"format_sheet"
                       (Some (mkArgs None (Some fileId) sheetName (Some range) None
                                (Some formatting))))
                  = format_sheet pf be
                      (mkRequest $"format_sheet"
                         (Some (mkArgs None (Some fileId) sheetName (Some range) None
                                  (Some formatting))))).
  { unfold callTool. cbn [req_name].
    assert (E1 : eqs $"format_sheet" $"search" = false) by (vm_compute; reflexivity).
    assert (E2 : eqs $"format_sheet" $"list_sheets" = false) by (vm_compute; reflexivity).
    assert (E3 : eqs $"format_sheet" $"read_sheet" = false) by (vm_compute; reflexivity).
    assert (E4 : eqs $"format_sheet" $"edit_sheet" = false) by (vm_compute; reflexivity).
    now rewrite E1, E2, E3, E4, eqs_refl. }
  rewrite Hname. unfold format_sheet, arg.
  cbn [req_arguments a_fileId a_sheetName a_range a_formatting].
  rewrite tryCatch_ret.
  rewrite (bind_returned _ _ _ _ _ extract_plain).
  rewrite (bind_returned _ _ _ _ _ email_known).
  rewrite (bind_returned _ _ _ _ _ (access_granted _)).
  rewrite (bind_returned _ _ _ _ _ Hq).
  assert (Hcall : call (EvSpreadsheetsGet fileId [actualRange]
                          $"sheets.properties,sheets.merges")
                       (spreadsheets_get be fileId [actualRange]) tr2
                  = (Returned spreadsheet, tr3))
    by (unfold call; now rewrite Hget).
  rewrite (bind_returned _ _ _ _ _ Hcall).
  rewrite (bind_returned _ _ _ _ _ (firstSheetId_some spreadsheet sid tr3 Hsid)).
  assert (Htruthy : truthyZ (Some sid) = true)
    by (cbn [truthyZ]; apply negb_true_iff; now apply Z.eqb_neq).
  rewrite Htruthy. cbn [negb]. rewrite Hpart1, Hpart0. cbn [deref].
  rewrite (bind_returned _ _ _ _ _ (eq_refl : ret range tr3 = (Returned range, tr3))).
  rewrite (bind_returned _ _ _ _ _ Hcorners).
  assert (Hreq : [repeatCell pf (orZ (Some sid) 0)
                    (columnLetterToNumber col1, addZ (parseInt row1) (-1),
                     columnLetterToNumber col2, addZ (parseInt row2) (-1)) formatting]
                 = requests).
  { unfold repeatCell, requests. cbn [orZ].
    apply Z.eqb_neq in Hnz. rewrite Hnz.
    destruct (RangeTextFacts.column_exact col1 Hcol1 Hn1) as [-> _].
    destruct (RangeTextFacts.column_exact col2 Hcol2 Hn2) as [_ ->].
    destruct (RangeTextFacts.parseInt_exact row1 Hrow1 Hm1) as (_ & -> & _).
    destruct (RangeTextFacts.parseInt_exact row2 Hrow2 Hm2) as (_ & _ & ->).
    reflexivity. }
  rewrite Hreq. unfold bind, call.
  destruct (batchUpdate be fileId requests tr3) as [response|e].
  - destruct (br_status response =? 200) eqn:Hstatus; cbn [negb fst snd].
    + eexists. split; [reflexivity|]. cbn [isError textResult].
      split; [intros _ | reflexivity].
      exists response. split; [reflexivity | now apply Z.eqb_eq].
    + eexists. split; [reflexivity|]. cbn [isError textResult].
      split; [discriminate|]. intros (r & E & Hr). injection E as <-.
      apply Z.eqb_neq in Hstatus. contradiction.
  - cbn [fst snd]. eexists. split; [reflexivity|]. cbn [isError textResult].
    split; [discriminate | intros (r & E & _); discriminate E].
Qed.

Lemma read_access_granted (userEmail : jsstring) :
  checkAccess be fileId userEmail false tr1 = (Returned None, tr2).
Proof.
  unfold checkAccess, tryCatch. unfold bind at 1.
  destruct (DriveAccessFacts.verify_cases be fileId false tr1) as [[E _]|[_ Hn]].
  - now rewrite E.
  - exfalso. apply Hn. exists file, perms. repeat split; try assumption. discriminate.
Qed.

Lemma read_sheet_name (args : Args) :
  callTool pf be (mkRequest $"read_sheet" (Some args))
  = read_sheet pf be (mkRequest $"read_sheet" (Some args)).
Proof.
  unfold callTool. cbn [req_name].
  assert (E1 : eqs $"read_sheet" $"search" = false) by (vm_compute; reflexivity).
  assert (E2 : eqs $"read_sheet" $"list_sheets" = false) by (vm_compute; reflexivity).
  now rewrite E1, E2, eqs_refl.
Qed.

(** X28. [read_sheet] with a range.  For a spreadsheet given by its id
    and verified for reading, and a non-empty range given, the tool asks
    [values.get] once, for exactly that range (formatted values, by rows),
    also when a sheet name is given besides; an answer without rows is
    reported as "Sheet không có dữ liệu" and is no error, and rows are
    printed after the heading, one line per row. *)
Theorem read_sheet_reads_the_range (sheetName : option jsstring) (range : jsstring)
        (response : ValueRange) :
  range <> [] ->
  values_get be fileId range tr2 = Returned response ->
  callTool pf be
    (mkRequest $"read_sheet"
       (Some (mkArgs None (Some fileId) sheetName (Some range) None None))) tr
  = (Returned
       (textResult
          (match values response with
           | None | Some [] => $"Sheet không có dữ liệu"
           | Some rows => $"Dữ liệu sheet:" ++ nl ++ formatRows rows
           end) false),
     tr2 ++ [EvValuesGet fileId range $"FORMATTED_VALUE" $"ROWS"]).
Proof.
  intros Hrange Hget. rewrite read_sheet_name. unfold read_sheet, arg.
  cbn [req_arguments a_fileId a_sheetName a_range].
  rewrite tryCatch_ret.
  rewrite (bind_returned _ _ _ _ _ extract_plain).
  rewrite (bind_returned _ _ _ _ _ email_known).
  rewrite (bind_returned _ _ _ _ _ (read_access_granted _)).
  assert (Hr : truthyS (Some range) = true) by (destruct range; [congruence | reflexivity]).
  assert (Hres : resolveReadRange be fileId sheetName (Some range) tr2
                 = (Returned range, tr2)).
  { unfold resolveReadRange. rewrite Hr, andb_false_r. unfold bind, ret.
    rewrite Hr. destruct range; [congruence | reflexivity]. }
  rewrite (bind_returned _ _ _ _ _ Hres).
  unfold bind, call. rewrite Hget.
  destruct (values response) as [[|row rows]|]; reflexivity.
Qed.

(** X29. [read_sheet] with a sheet name only.  For a spreadsheet given
    by its id and verified for reading, a non-empty sheet name and no
    range: the sheet list is asked for once; when no sheet of the list
    answered carries the name as its title, the result is the error that
    the sheet was not found and [values.get] is never asked; when some
    sheet does, [values.get] is asked next, for the whole-sheet range built
    from the counts of the first sheet of the list that carries the name:
    for [rows] rows and [cols] columns, none of them 0, the name, "!A1:",
    the character of code 64 + cols and the decimal digits of rows. *)
Theorem read_sheet_by_sheet_name (name : jsstring) (range : option jsstring)
        (metadata : SpreadsheetData) :
  name <> [] ->
  truthyS range = false ->
  spreadsheets_get be fileId [] tr2 = Returned metadata ->
  let tr3 := tr2 ++ [EvSpreadsheetsGet fileId [] $"sheets.properties"] in
  let request :=
    mkRequest $"read_sheet" (Some (mkArgs None (Some fileId) (Some name) range None None)) in
  ((forall l s, sheets metadata = Some l -> In s l -> ~ titled name s) ->
   callTool pf be request tr
   = (Returned (textResult
                  (readSheetFailureText
                     ($"Không tìm thấy sheet có tên " ++ dquote ++ name ++ dquote)) true),
      tr3))
  /\ (forall before sheet after,
        sheets metadata = Some (before ++ sheet :: after) ->
        (forall s, In s before -> ~ titled name s) ->
        titled name sheet ->
        snd (callTool pf be request tr)
        = tr3 ++ [EvValuesGet fileId (wholeSheetRange name sheet)
                    $"FORMATTED_VALUE" $"ROWS"]
        /\ forall rows cols,
             gridOf sheet = Some (mkGrid (Some rows) (Some cols)) ->
             rows <> 0 -> cols <> 0 ->
             wholeSheetRange name sheet
             = name ++ $"!A1:" ++ fromCharCode (64 + cols) ++ numToString rows).
Proof.
  intros Hname Hrange Hget tr3 request. unfold request.
  rewrite read_sheet_name. unfold read_sheet, arg.
  cbn [req_arguments a_fileId a_sheetName a_range].
  rewrite tryCatch_ret.
  rewrite (bind_returned _ _ _ _ _ extract_plain).
  rewrite (bind_returned _ _ _ _ _ email_known).
  rewrite (bind_returned _ _ _ _ _ (read_access_granted _)).
  assert (Hn : truthyS (Some name) = true) by (destruct name; [congruence | reflexivity]).
  assert (Ho : orS (Some name) [] = name) by (destruct name; [congruence | reflexivity]).
  assert (Hcall : call (EvSpreadsheetsGet fileId [] $"sheets.properties")
                       (spreadsheets_get be fileId []) tr2
                  = (Returned metadata, tr3))
    by (unfold call; now rewrite Hget).
  split.
  - intros Hnone.
    pose proof (RangeFacts.findSheet_none metadata name Hnone) as Hfind.
    assert (Hres : resolveReadRange be fileId (Some name) range tr2
                   = (Thrown (Error ($"Không tìm thấy sheet có tên " ++ dquote
                                     ++ name ++ dquote)), tr3)).
    { unfold resolveReadRange. rewrite Hn, Hrange, Ho. cbn [andb negb].
      rewrite (bind_thrown _ _ tr2 tr3 (Error ($"Không tìm thấy sheet có tên " ++ dquote
                                                ++ name ++ dquote))); [reflexivity|].
      rewrite (bind_returned _ _ _ _ _ Hcall). now rewrite Hfind. }
    rewrite (bind_thrown _ _ _ _ _ Hres). reflexivity.
  - intros before sheet after Hsheets Hbefore Htitled.
    pose proof (RangeFacts.findSheet_first metadata name before after sheet
                  Hsheets Hbefore Htitled) as Hfind.
    assert (Hres : resolveReadRange be fileId (Some name) range tr2
                   = (Returned (wholeSheetRange name sheet), tr3)).
    { unfold resolveReadRange. rewrite Hn, Hrange, Ho. cbn [andb negb].
      rewrite (bind_returned _ _ tr2 tr3 (Some (wholeSheetRange name sheet))).
      - unfold ret. cbn [truthyS orS]. unfold wholeSheetRange.
        destruct name as [|c name']; [congruence | reflexivity].
      - rewrite (bind_returned _ _ _ _ _ Hcall). now rewrite Hfind. }
    rewrite (bind_returned _ _ _ _ _ Hres).
    split.
    + unfold bind, call.
      destruct (values_get be fileId (wholeSheetRange name sheet) tr3) as [response|e];
        [destruct (values response) as [[|row rows]|]|]; reflexivity.
    + intros rows cols Hgrid Hrows Hcols.
      unfold wholeSheetRange, lastColumnLetter. rewrite Hgrid.
      cbn [rowCount columnCount orZ].
      apply Z.eqb_neq in Hrows. apply Z.eqb_neq in Hcols. now rewrite Hrows, Hcols.
Qed.

End Granted.

Lemma edit_sheet_sends_the_values_witness :
  exists result,
    callTool samplePlatform smallBackend
      (mkRequest $"edit_sheet"
         (Some (mkArgs None (Some $"1AbC") None (Some $"A1") (Some [[Some $"x"]]) None))) []
    = (Returned result,
       (([] ++ [EvAboutGet $"user(emailAddress)"])
        ++ [filesGetEv $"1AbC"; permissionsListEv $"1AbC"])
       ++ [EvValuesUpdate $"1AbC"
             (if includes $"!" $"A1" then $"A1" else orS None $"Sheet1" ++ $"!" ++ $"A1")
             $"USER_ENTERED" [[Some $"x"]]])
    /\ (isError result = false
        <-> exists response,
              values_update smallBackend $"1AbC"
                (if includes $"!" $"A1" then $"A1" else orS None $"Sheet1" ++ $"!" ++ $"A1")
                [[Some $"x"]]
                (([] ++ [EvAboutGet $"user(emailAddress)"])
                 ++ [filesGetEv $"1AbC"; permissionsListEv $"1AbC"])
              = Returned response
              /\ ur_status response = 200).
Proof.
  exact (edit_sheet_sends_the_values samplePlatform smallBackend $"1AbC"
           (mkAboutData (Some $"user@example.com"))
           (mkFileData (Some $"application/vnd.google-apps.spreadsheet")
              (Some (mkCapabilities (Some true) (Some true))))
           (mkPermissionsData (Some [])) []
           eq_refl eq_refl eq_refl eq_refl eq_refl eq_refl (or_intror eq_refl)
           None $"A1" [[Some $"x"]]).
Defined.

Lemma format_sheet_sends_the_range_witness :
  exists result,
    callTool samplePlatform smallBackend
      (mkRequest $"format_sheet"
         (Some (mkArgs None (Some $"1AbC") None
                  (Some ($"B" ++ $"2" ++ $":" ++ $"AA" ++ $"10")) None (Some boldOnRed)))) []
    = (Returned result,
       ((([] ++ [EvAboutGet $"user(emailAddress)"])
         ++ [filesGetEv $"1AbC"; permissionsListEv $"1AbC"])
        ++ [EvSpreadsheetsGet $"1AbC"
              [orS None $"Sheet1" ++ $"!" ++ $"B" ++ $"2" ++ $":" ++ $"AA" ++ $"10"]
              $"sheets.properties,sheets.merges"])
       ++ [EvBatchUpdate $"1AbC"
             [mkRepeatCell
                (mkGridRange 7 (Int (decimal $"2" - 1)) (Int (decimal $"10"))
                   (Int (positional $"B" - 1)) (Int (positional $"AA")))
                (userFormatting samplePlatform boldOnRed)
                (fieldMask (userFormatting samplePlatform boldOnRed))]])
    /\ (isError result = false
        <-> exists response,
              batchUpdate smallBackend $"1AbC"
                [mkRepeatCell
                   (mkGridRange 7 (Int (decimal $"2" - 1)) (Int (decimal $"10"))
                      (Int (positional $"B" - 1)) (Int (positional $"AA")))
                   (userFormatting samplePlatform boldOnRed)
                   (fieldMask (userFormatting samplePlatform boldOnRed))]
                ((([] ++ [EvAboutGet $"user(emailAddress)"])
                  ++ [filesGetEv $"1AbC"; permissionsListEv $"1AbC"])
                 ++ [EvSpreadsheetsGet $"1AbC"
                       [orS None $"Sheet1" ++ $"!" ++ $"B" ++ $"2" ++ $":" ++ $"AA" ++ $"10"]
                       $"sheets.properties,sheets.merges"])
              = Returned response
              /\ br_status response = 200).
Proof.
  refine (format_sheet_sends_the_range samplePlatform smallBackend $"1AbC"
            (mkAboutData (Some $"user@example.com"))
            (mkFileData (Some $"application/vnd.google-apps.spreadsheet")
               (Some (mkCapabilities (Some true) (Some true))))
            (mkPermissionsData (Some [])) []
            eq_refl eq_refl eq_refl eq_refl eq_refl eq_refl (or_intror eq_refl)
            None $"B" $"2" $"AA" $"10" boldOnRed smallBook 7
            _ eq_refl _ _ eq_refl _ _ eq_refl _ _ eq_refl _ eq_refl eq_refl eq_refl _);
    first [discriminate | cbn; lia].
Defined.

Lemma read_sheet_reads_the_range_witness :
  callTool samplePlatform smallBackend
    (mkRequest $"read_sheet"
       (Some (mkArgs None (Some $"1AbC") (Some $"Data") (Some $"A1:B1") None None))) []
  = (Returned (textResult ($"Dữ liệu sheet:" ++ nl ++ formatRows [[Some $"a"; Some $"b"]])
                 false),
     (([] ++ [EvAboutGet $"user(emailAddress)"])
      ++ [filesGetEv $"1AbC"; permissionsListEv $"1AbC"])
     ++ [EvValuesGet $"1AbC" $"A1:B1" $"FORMATTED_VALUE" $"ROWS"]).
Proof.
  refine (read_sheet_reads_the_range samplePlatform smallBackend $"1AbC"
            (mkAboutData (Some $"user@example.com"))
            (mkFileData (Some $"application/vnd.google-apps.spreadsheet")
               (Some (mkCapabilities (Some true) (Some true))))
            (mkPermissionsData (Some [])) []
            eq_refl eq_refl eq_refl eq_refl eq_refl (or_intror eq_refl)
            (Some $"Data") $"A1:B1" (mkValueRange (Some [[Some $"a"; Some $"b"]]))
            _ eq_refl).
  discriminate.
Defined.

Lemma read_sheet_by_sheet_name_witness :
  callTool samplePlatform smallBackend
    (mkRequest $"read_sheet"
       (Some (mkArgs None (Some $"1AbC") (Some $"Missing") None None None))) []
  = (Returned (textResult
                 (readSheetFailureText
                    ($"Không tìm thấy sheet có tên " ++ dquote ++ $"Missing" ++ dquote)) true),
     (([] ++ [EvAboutGet $"user(emailAddress)"])
      ++ [filesGetEv $"1AbC"; permissionsListEv $"1AbC"])
     ++ [EvSpreadsheetsGet $"1AbC" [] $"sheets.properties"])
  /\ snd (callTool samplePlatform smallBackend
            (mkRequest $"read_sheet"
               (Some (mkArgs None (Some $"1AbC") (Some $"Data") None None None))) [])
     = ((([] ++ [EvAboutGet $"user(emailAddress)"])
         ++ [filesGetEv $"1AbC"; permissionsListEv $"1AbC"])
        ++ [EvSpreadsheetsGet $"1AbC" [] $"sheets.properties"])
       ++ [EvValuesGet $"1AbC" (wholeSheetRange $"Data" (sheetWith $"Data" 10 3))
             $"FORMATTED_VALUE" $"ROWS"]
  /\ wholeSheetRange $"Data" (sheetWith $"Data" 10 3)
     = $"Data" ++ $"!A1:" ++ fromCharCode (64 + 3) ++ numToString 10.
Proof.
  split.
  - refine (proj1 (read_sheet_by_sheet_name samplePlatform smallBackend $"1AbC"
                     (mkAboutData (Some $"user@example.com"))
                     (mkFileData (Some $"application/vnd.google-apps.spreadsheet")
                        (Some (mkCapabilities (Some true) (Some true))))
                     (mkPermissionsData (Some [])) []
                     eq_refl eq_refl eq_refl eq_refl eq_refl (or_intror eq_refl)
                     $"Missing" None smallBook _ eq_refl eq_refl) _).
    + discriminate.
    + intros l s E Hin (p & Hp & Ht). injection E as <-.
      destruct Hin as [<-|[<-|[]]]; injection Hp as <-; cbn in Ht;
        vm_compute in Ht; discriminate Ht.
  - assert (Hdata : forall s, In s [sheetWith $"Summary" 1000 26] -> ~ titled $"Data" s).
    { intros s [<-|[]] (p & Hp & Ht). injection Hp as <-. cbn in Ht.
      vm_compute in Ht. discriminate Ht. }
    assert (Htitled : titled $"Data" (sheetWith $"Data" 10 3))
      by (eexists; split; reflexivity).
    assert (Hname : $"Data" <> []) by discriminate.
    pose proof (proj2 (read_sheet_by_sheet_name samplePlatform smallBackend $"1AbC"
                         (mkAboutData (Some $"user@example.com"))
                         (mkFileData (Some $"application/vnd.google-apps.spreadsheet")
                            (Some (mkCapabilities (Some true) (Some true))))
                         (mkPermissionsData (Some [])) []
                         eq_refl eq_refl eq_refl eq_refl eq_refl (or_intror eq_refl)
                         $"Data" None smallBook Hname eq_refl eq_refl)
                      [sheetWith $"Summary" 1000 26] (sheetWith $"Data" 10 3) []
                      eq_refl Hdata Htitled) as [Hrun Hrange].
    split; [exact Hrun|].
    apply (Hrange 10 3); [reflexivity | discriminate | discriminate].
Defined.

End ToolRunFacts.

(* ================================================================= *)
(** ** The format object that [format_sheet] sends *)

Module FormatRunFacts.
Import GDrive GDriveServer Samples ToolNotions DriveToolFacts.

Lemma grownBy_refl (Q : Ev -> Prop) (tr : list Ev) : grownBy Q tr tr.
Proof. exists []. split; [now rewrite app_nil_r | constructor]. Qed.

Lemma grownBy_snoc (Q : Ev -> Prop) (tr0 tr : list Ev) (ev : Ev) :
  grownBy Q tr0 tr -> Q ev -> grownBy Q tr0 (tr ++ [ev]).
Proof.
  intros (added & -> & H) Hev. exists (added ++ [ev]). split.
  - now rewrite app_assoc.
  - apply Forall_app. split; [exact H | now constructor].
Qed.

(** A call that is no batch update. *)
Ltac other :=
  idtac;
  intros ? ?; apply grownBy_snoc; [assumption | exact I].

Ltac stepg :=
  first
    [ apply FormatFacts.preserves_ret | apply FormatFacts.preserves_throw
    | apply FormatFacts.preserves_deref
    | apply FormatFacts.preserves_bind; [|intros ?]
    | apply FormatFacts.preserves_tryCatch; [|intros ?]
    | apply FormatFacts.preserves_call; solve [other]
    | apply FormatFacts.preserves_emit; solve [other]
    | match goal with
      | |- preserves _ (match ?x with _ => _ end) => destruct x
      | |- preserves _ (if ?c then _ else _) => destruct c
      end ].

Lemma format_sheet_name (request : CallToolRequest) (pf : Platform) (be : Backend) :
  req_name request = $"format_sheet" ->
  callTool pf be request = format_sheet pf be request.
Proof.
  intros Hname. unfold callTool. rewrite Hname.
  assert (E1 : eqs $"format_sheet" $"search" = false) by (vm_compute; reflexivity).
  assert (E2 : eqs $"format_sheet" $"list_sheets" = false) by (vm_compute; reflexivity).
  assert (E3 : eqs $"format_sheet" $"read_sheet" = false) by (vm_compute; reflexivity).
  assert (E4 : eqs $"format_sheet" $"edit_sheet" = false) by (vm_compute; reflexivity).
  now rewrite E1, E2, E3, E4, eqs_refl.
Qed.

Section Run.

Variable pf : Platform.
Variable be : Backend.

(** What a run of [format_sheet] ends in: the events it adds are no batch
    updates, or carry the format object and mask of the formatting given;
    and a result that is no error comes after such a batch update. *)
Lemma format_sheet_run (request : CallToolRequest) (fo : option Formatting)
      (tr : list Ev) :
  arg request a_formatting = fo ->
  ends (format_sheet pf be request) tr
    (fun o tr' =>
       grownBy (formatsWith pf fo) tr tr'
       /\ forall result,
            o = Returned result -> isError result = false ->
            exists pre fileId rc formatting,
              fo = Some formatting
              /\ tr' = pre ++ [EvBatchUpdate fileId [rc]]
              /\ userEnteredFormat rc = userFormatting pf formatting
              /\ fields rc = fieldMask (userFormatting pf formatting)).
Proof.
  intros Hfo.
  set (P := grownBy (formatsWith pf fo) tr).
  match goal with |- ends _ _ ?post => set (Post := post) end.
  assert (Hfail : forall (o : Outcome ToolCallResult) tr',
             P tr' ->
             (forall result, o = Returned result -> isError result = true) ->
             Post o tr').
  { intros o tr' H He. split; [exact H|].
    intros result E1 E2. rewrite (He _ E1) in E2. discriminate E2. }
  assert (Hcatch : forall e tr',
             P tr' ->
             ends (ret (textResult (formatSheetFailureText (message e)) true)) tr' Post).
  { intros e tr' H. apply ends_ret. apply Hfail; [exact H|].
    intros result E. injection E as <-. reflexivity. }
  unfold format_sheet. rewrite Hfo. apply ends_tryCatch. apply ends_bind.
  apply (ends_keeps P); [unfold extractFileIdFromUrl; repeat stepg | apply grownBy_refl |].
  intros [fileId|e] tr1 H1; [|now apply Hcatch].
  apply ends_bind.
  apply (ends_keeps P); [unfold getCurrentUserEmail; repeat stepg | exact H1 |].
  intros [userEmail|e] tr2 H2; [|now apply Hcatch].
  assert (Hc : preserves P (checkAccess be fileId userEmail true)).
  { unfold checkAccess, verifyFileAccess, getCurrentUserEmail. repeat stepg. }
  apply (ends_bind_post _ _ _ _ _ (checkAccess_result be P fileId userEmail true tr2 Hc H2)).
  intros [[result|]|e] tr3 [H3 Hr]; [|clear Hr|destruct Hr].
  { destruct Hr as [t ->]. apply ends_ret. apply Hfail; [exact H3|].
    intros r E. injection E as <-. reflexivity. }
  destruct fo as [formatting|]; [|now apply Hcatch].
  apply ends_bind.
  apply (ends_keeps P); [unfold qualifyRange; repeat stepg | exact H3 |].
  intros [actualRange|e] tr4 H4; [|now apply Hcatch].
  apply ends_bind. apply ends_call.
  assert (H5 : P (tr4 ++ [EvSpreadsheetsGet fileId [actualRange]
                            $"sheets.properties,sheets.merges"])).
  { apply grownBy_snoc; [exact H4 | exact I]. }
  destruct (spreadsheets_get be fileId [actualRange] tr4) as [spreadsheet|e];
    [|now apply Hcatch].
  apply ends_bind.
  apply (ends_keeps P); [unfold firstSheetId; repeat stepg | exact H5 |].
  intros [sheetId|e] tr6 H6; [|now apply Hcatch].
  destruct (negb (truthyZ sheetId)); [now apply Hcatch|].
  apply ends_bind.
  apply (ends_keeps P); [apply FormatFacts.preserves_deref | exact H6 |].
  intros [a1|e] tr7 H7; [|now apply Hcatch].
  apply ends_bind.
  apply (ends_keeps P); [unfold gridCorners; repeat stepg | exact H7 |].
  intros [corners|e] tr8 H8; [|now apply Hcatch].
  cbv zeta. apply ends_bind. apply ends_call.
  assert (Hrc : userEnteredFormat (repeatCell pf (orZ sheetId 0) corners formatting)
                = userFormatting pf formatting
                /\ fields (repeatCell pf (orZ sheetId 0) corners formatting)
                   = fieldMask (userFormatting pf formatting)).
  { destruct corners as [[[startCol startRow] endCol] endRow]. split; reflexivity. }
  destruct Hrc as [Hformat Hmask].
  assert (H9 : P (tr8 ++ [EvBatchUpdate fileId
                            [repeatCell pf (orZ sheetId 0) corners formatting]])).
  { apply grownBy_snoc; [exact H8|].
    exists formatting, (repeatCell pf (orZ sheetId 0) corners formatting).
    repeat split; assumption. }
  destruct (batchUpdate be fileId [repeatCell pf (orZ sheetId 0) corners formatting] tr8)
    as [response|e]; [|now apply Hcatch].
  destruct (negb (br_status response =? 200)); [now apply Hcatch|].
  apply ends_ret. split; [exact H9|].
  intros result _ _.
  exists tr8, fileId, (repeatCell pf (orZ sheetId 0) corners formatting), formatting.
  repeat split; assumption.
Qed.

Lemma callTool_grows (request : CallToolRequest) (tr : list Ev) :
  grownBy (formatsWith pf (arg request a_formatting)) tr (snd (callTool pf be request tr)).
Proof.
  destruct (eqs (req_name request) $"format_sheet") eqn:Hname.
  - apply eqs_true in Hname. rewrite (format_sheet_name request pf be Hname).
    exact (proj1 (format_sheet_run request _ tr eq_refl)).
  - assert (H : preserves (grownBy (formatsWith pf (arg request a_formatting)) tr)
                          (callTool pf be request)).
    { unfold callTool. rewrite Hname.
      destruct (eqs (req_name request) $"search"); [unfold_tools; repeat stepg|].
      destruct (eqs (req_name request) $"list_sheets"); [unfold_tools; repeat stepg|].
      destruct (eqs (req_name request) $"read_sheet"); [unfold_tools; repeat stepg|].
      destruct (eqs (req_name request) $"edit_sheet"); [unfold_tools; repeat stepg|].
      apply FormatFacts.preserves_throw. }
    apply H, grownBy_refl.
Qed.

(** C7. For the formatting [{bold: true, backgroundColor: "#ff0000"}] the
    format object has exactly the top-level keys backgroundColor and
    textFormat, the mask is userEnteredFormat(backgroundColor,textFormat),
    and the background colour is red 1, green 0, blue 0 (alpha 1).  For
    every formatting, the names the mask lists are exactly the top-level
    keys of the format object, each once: backgroundColor, textFormat (for
    any of text colour, font size, bold, italic), horizontalAlignment and
    verticalAlignment, as far as the caller gave them; and every batch
    update that the tool handler sends carries the mask of the format object
    of the same request.  The handler sends what these functions compute
    from the request: whatever events a tool call adds to the trace, each
    batch update among them has one request, whose format object is the one
    built from the formatting of the call and whose mask is the mask of that
    object; a [format_sheet] call whose result is no error has sent such a
    batch update as its last call; and the call with this formatting for
    A1:C10 of a verified spreadsheet sends, as its fifth and last call, the
    batch update with the two keys, the mask above and the grid range of rows
    0 to 10 and columns 0 to 3. *)
Theorem field_mask_is_keys :
  keys (userFormatting pf boldOnRed) = [$"backgroundColor"; $"textFormat"]
  /\ fieldMask (userFormatting pf boldOnRed)
     = $"userEnteredFormat(backgroundColor,textFormat)"
  /\ getProp (userFormatting pf boldOnRed) $"backgroundColor"
     = Some (VObj [($"red", VNum 1); ($"green", VNum 0); ($"blue", VNum 0);
                   ($"alpha", VNum 1)])
  /\ getProp (userFormatting pf boldOnRed) $"textFormat"
     = Some (VObj [($"bold", VBool true)])
  /\ (forall f : Formatting,
        maskNames (fieldMask (userFormatting pf f)) = keys (userFormatting pf f)
        /\ keys (userFormatting pf f) = expectedKeys f
        /\ NoDup (keys (userFormatting pf f)))
  /\ (forall (request : CallToolRequest) (tr : list Ev),
        Forall maskedEv tr ->
        Forall maskedEv (snd (callTool pf be request tr)))
  /\ (forall (request : CallToolRequest) (tr : list Ev),
        exists added,
          snd (callTool pf be request tr) = tr ++ added
          /\ Forall (formatsWith pf (arg request a_formatting)) added)
  /\ (forall (request : CallToolRequest) (tr : list Ev) (result : ToolCallResult),
        req_name request = $"format_sheet" ->
        fst (callTool pf be request tr) = Returned result ->
        isError result = false ->
        exists pre fileId rc formatting,
          arg request a_formatting = Some formatting
          /\ snd (callTool pf be request tr) = pre ++ [EvBatchUpdate fileId [rc]]
          /\ userEnteredFormat rc = userFormatting pf formatting
          /\ fields rc = fieldMask (userFormatting pf formatting))
  /\ (exists t,
        callTool samplePlatform smallBackend
          (mkRequest $"format_sheet" (Some (formatArgs $"1AbC" $"A1:C10" boldOnRed))) []
        = (Returned (textResult t false),
           [EvAboutGet $"user(emailAddress)"; filesGetEv $"1AbC"; permissionsListEv $"1AbC";
            EvSpreadsheetsGet $"1AbC" [$"Sheet1!A1:C10"] $"sheets.properties,sheets.merges";
            EvBatchUpdate $"1AbC"
              [mkRepeatCell
                 (mkGridRange 7 (Int 0) (Int 10) (Int 0) (Int 3))
                 [($"backgroundColor",
                   VObj [($"red", VNum 1); ($"green", VNum 0); ($"blue", VNum 0);
                         ($"alpha", VNum 1)]);
                  ($"textFormat", VObj [($"bold", VBool true)])]
                 $"userEnteredFormat(backgroundColor,textFormat)"]])).
Proof.
  split; [reflexivity|]. split; [reflexivity|]. split; [reflexivity|].
  split; [reflexivity|]. split.
  { intros f. split; [apply FormatFacts.maskNames_fieldMask|].
    split; [apply FormatFacts.keys_userFormatting|].
    rewrite FormatFacts.keys_userFormatting. apply FormatFacts.expectedKeys_NoDup. }
  split; [intros request; apply FormatFacts.callTool_masked|].
  split; [intros request tr; exact (callTool_grows request tr)|].
  split.
  { intros request tr result Hname.
    rewrite (format_sheet_name request pf be Hname).
    exact (proj2 (format_sheet_run request _ tr eq_refl) result). }
  eexists. vm_compute. reflexivity.
Qed.

End Run.

End FormatRunFacts.

(* ================================================================= *)
(** ** Colours that are no colours *)

Module ColorRunFacts.
Import GDrive GDriveServer Samples ToolNotions.

Section Applied.

Variable pf : Platform.
Variable be : Backend.

(** C8, as amended. [hexToRgb] never fails.  The strings it reads as a
    colour are exactly those of six hexadecimal digits, of either case, bare
    or after one [#]: they give their three channels.  Every other string
    gives black (0, 0, 0): the empty string, a colour name, five or seven
    digits after the [#] (so "#ff00000" is black, not red).  The channels are
    always within 0..255.  [format_sheet] puts the colour so obtained into
    the format object wherever the caller gave a non-empty string, for the
    background and for the text alike, and no colour where the string is
    empty or absent; and a [format_sheet] call whose result is no error has
    sent, as its last call, a batch update whose format object holds these
    colours. *)
Theorem hexToRgb_never_fails (hex : jsstring) :
  (hexGroups hex = None -> hexToRgb hex = mkRGB 0 0 0)
  /\ (wellFormedHex hex = true -> hexGroups hex <> None)
  /\ (0 <= r (hexToRgb hex) <= 255 /\ 0 <= g (hexToRgb hex) <= 255
      /\ 0 <= b (hexToRgb hex) <= 255)
  /\ (forall c1 c2 c3 c4 c5 c6 : N,
        forallb isHex [c1; c2; c3; c4; c5; c6] = true ->
        hexToRgb (35%N :: [c1; c2; c3; c4; c5; c6])
        = mkRGB (16 * hexValue c1 + hexValue c2) (16 * hexValue c3 + hexValue c4)
                (16 * hexValue c5 + hexValue c6)
        /\ hexToRgb [c1; c2; c3; c4; c5; c6]
           = mkRGB (16 * hexValue c1 + hexValue c2) (16 * hexValue c3 + hexValue c4)
                   (16 * hexValue c5 + hexValue c6))
  /\ (forall f : Formatting,
        (truthyS (backgroundColor f) = true ->
         getProp (userFormatting pf f) $"backgroundColor"
         = Some (colorObject (hexToRgb (orS (backgroundColor f) []))))
        /\ (truthyS (textColor f) = true ->
            getProp (spreadProp (userFormatting pf f) $"textFormat") $"foregroundColor"
            = Some (colorObject (hexToRgb (orS (textColor f) [])))))
  /\ (hexGroups hex <> None <-> sixHex hex)
  /\ (~ sixHex hex -> hexToRgb hex = mkRGB 0 0 0)
  /\ (wellFormedHex hex = true -> sixHex hex)
  /\ (~ sixHex $"#ff00000" /\ hexToRgb $"#ff00000" = mkRGB 0 0 0
      /\ hexToRgb $"#ff000" = mkRGB 0 0 0 /\ hexToRgb $"#ff0000 " = mkRGB 0 0 0
      /\ hexToRgb $"#gg0000" = mkRGB 0 0 0 /\ hexToRgb [] = mkRGB 0 0 0
      /\ hexToRgb $"#FF8000" = mkRGB 255 128 0 /\ hexToRgb $"ff8000" = mkRGB 255 128 0)
  /\ (forall f : Formatting,
        (truthyS (backgroundColor f) = false ->
         getProp (userFormatting pf f) $"backgroundColor" = None)
        /\ (truthyS (textColor f) = false ->
            getProp (spreadProp (userFormatting pf f) $"textFormat") $"foregroundColor"
            = None))
  /\ (forall (request : CallToolRequest) (tr : list Ev) (result : ToolCallResult),
        req_name request = $"format_sheet" ->
        fst (callTool pf be request tr) = Returned result ->
        isError result = false ->
        exists pre fileId rc formatting,
          arg request a_formatting = Some formatting
          /\ snd (callTool pf be request tr) = pre ++ [EvBatchUpdate fileId [rc]]
          /\ (truthyS (backgroundColor formatting) = true ->
              getProp (userEnteredFormat rc) $"backgroundColor"
              = Some (colorObject (hexToRgb (orS (backgroundColor formatting) []))))
          /\ (truthyS (textColor formatting) = true ->
              getProp (spreadProp (userEnteredFormat rc) $"textFormat") $"foregroundColor"
              = Some (colorObject (hexToRgb (orS (textColor formatting) []))))).
Proof.
  split; [intros H; unfold hexToRgb; now rewrite H|].
  split; [apply ColorFacts.wellFormedHex_groups|].
  split; [apply ColorFacts.hexToRgb_range|].
  split; [apply ColorFacts.hexToRgb_digits|].
  split.
  { intros f. split; [apply ColorFacts.backgroundColor_applied
                     | apply ColorFacts.textColor_applied]. }
  split; [apply ColorFacts.hexGroups_sixHex|].
  split; [apply ColorFacts.not_sixHex_black|].
  split.
  { intros H. apply ColorFacts.hexGroups_sixHex.
    now apply ColorFacts.wellFormedHex_groups. }
  split.
  { split; [exact ColorFacts.seven_digits_no_sixHex|]. repeat split; reflexivity. }
  split.
  { intros f. split; [apply ColorFacts.backgroundColor_absent
                     | apply ColorFacts.textColor_absent]. }
  intros request tr result Hname Hfst Herr.
  rewrite (FormatRunFacts.format_sheet_name request pf be Hname) in *.
  destruct (proj2 (FormatRunFacts.format_sheet_run pf be request _ tr eq_refl)
                  result Hfst Herr)
    as (pre & fileId & rc & formatting & Hfmt & Htr & Hformat & _).
  exists pre, fileId, rc, formatting.
  split; [exact Hfmt|]. split; [exact Htr|]. rewrite Hformat.
  split; [apply ColorFacts.backgroundColor_applied | apply ColorFacts.textColor_applied].
Qed.

End Applied.

(** C8, the claim refuted: the background colour "red" is no well-formed
    #rrggbb literal, yet [format_sheet] called with it on cells A1:B2 ends
    with a result whose [isError] is false, after a batch update that paints
    the cells black. *)
Lemma malformed_color_is_applied_as_black :
  wellFormedHex $"red" = false
  /\ hexToRgb $"red" = mkRGB 0 0 0
  /\ callTool samplePlatform smallBackend
       (mkRequest $"format_sheet"
          (Some (mkArgs None (Some $"file1") None (Some $"A1:B2") None (Some redByName))))
       []
     = (Returned
          (textResult
             ($"Cập nhật định dạng thành công!" ++ nl
              ++ $"- Sheet: Sheet1" ++ nl
              ++ $"- Range: A1:B2" ++ nl
              ++ $"- Các thuộc tính đã áp dụng: backgroundColor")
             false),
        [EvAboutGet $"user(emailAddress)";
         EvFilesGet $"file1"
           $"id,mimeType,capabilities(canReadRevisions,canEdit),permissions";
         EvPermissionsList $"file1" $"permissions(role,type,emailAddress)";
         EvSpreadsheetsGet $"file1" [$"Sheet1!A1:B2"] $"sheets.properties,sheets.merges";
         EvBatchUpdate $"file1"
           [mkRepeatCell (mkGridRange 7 (Int 0) (Int 2) (Int 0) (Int 2))
              [($"backgroundColor",
                VObj [($"red", VNum 0); ($"green", VNum 0); ($"blue", VNum 0);
                      ($"alpha", VNum 1)])]
              $"userEnteredFormat(backgroundColor)"]]).
Proof. repeat split; vm_compute; reflexivity. Qed.

End ColorRunFacts.
